(** * Fast-Notepad: the note-storage HTTP service of [main.go]

    The service keeps one snapshot of the client's notes in two files of its
    working directory: [data.txt] holds the bytes of the last save as they
    were received, [data_readable.txt] an indented rendering of them when
    they decode as [[]Note].

    The handlers of [main.go] are embedded as programs of a small monad of
    the operations they perform on their surroundings (the mutex, the file
    system, the log).  The programs are given two semantics: [run], which
    executes one handler from start to end, and [step], which interleaves
    the handlers of several requests.  What the Go packages compute
    ([encoding/json], [net/http], [os], [io/ioutil], [time]) is not part of
    the repository: the handlers take the JSON codec as an interface
    ([EncodingJSON]) and an instance of it ([GoJSON]) follows the package
    documentation. *)

From Stdlib Require Import ZArith String Ascii List Bool Lia.
From stdpp Require Import base option gmap strings list fin_maps sorting.

Open Scope string_scope.
Open Scope Z_scope.

(** ** Go values *)

(** A Go [error] value: its text, and whether [os.IsNotExist] holds of it. *)
Inductive error : Type :=
| ErrNotExist (msg : string)
| ErrOther (msg : string).

Definition Error (e : error) : string :=
  match e with
  | ErrNotExist msg => msg
  | ErrOther msg => msg
  end.

Definition os_IsNotExist (err : option error) : bool :=
  match err with
  | Some (ErrNotExist _) => true
  | _ => false
  end.

(** A Go slice is [nil] ([None]) or holds elements; [encoding/json] tells
    the two apart ([null] against [[]]). *)
Definition slice (A : Type) : Type := option (list A).

(** A [time.Time], as the wall clock reading in its own zone and the offset
    of that zone east of UTC in seconds.  Every [time.Time] of this program
    is the zero value or was parsed from such a reading. *)
Record time_Time : Type := mkTime {
  Year : Z;
  Month : Z;
  Day : Z;
  Hour : Z;
  Minute : Z;
  Second : Z;
  Nanosecond : Z;
  ZoneOffset : Z
}.

(** [time.Time{}]: January 1, year 1, 00:00:00 UTC. *)
Definition time_zero : time_Time := mkTime 1 1 1 0 0 0 0 0.

Module Content.
Record t : Type := mk {
  ID : string;
  Title : string;
  Text : string;
  CreatedAt : time_Time;
  UpdatedAt : time_Time
}.
Definition zero : t := mk "" "" "" time_zero time_zero.
End Content.

Module Note.
Record t : Type := mk {
  ID : string;
  Title : string;
  Content : slice Content.t;
  CreatedAt : time_Time;
  UpdatedAt : time_Time
}.
Definition zero : t := mk "" "" None time_zero time_zero.
End Note.

(** What the handlers use of [encoding/json]: [Marshal] and [MarshalIndent]
    of a [[]Note] (bytes and error), [Unmarshal] of bytes into a [[]Note]
    variable that is nil before (its value afterwards and the error), and
    the bytes an [Encoder] writes for a [map[string]string]. *)
Class EncodingJSON : Type := {
  json_Marshal : slice Note.t -> string * option error;
  json_MarshalIndent : slice Note.t -> string -> string -> string * option error;
  json_Unmarshal : string -> slice Note.t * option error;
  json_Encode : gmap string string -> string
}.

(** ** The surroundings of a handler *)

(** The working directory (path to content), the failures of the file
    system, the log and the mutex [saveMutex].  [read_fault p = Some msg]:
    reading the existing file [p] fails with [msg].  [write_fault p =
    Some (msg, rest)]: writing [p] fails with [msg] and leaves [rest] at
    [p] ([None]: no file). *)
Record World : Type := mkWorld {
  files : gmap string string;
  read_fault : string -> option string;
  write_fault : string -> option (string * option string);
  log : list string;
  saveMutex : bool
}.

Definition set_files (f : gmap string string) (s : World) : World :=
  mkWorld f (read_fault s) (write_fault s) (log s) (saveMutex s).

Definition set_log (l : list string) (s : World) : World :=
  mkWorld (files s) (read_fault s) (write_fault s) l (saveMutex s).

Definition set_saveMutex (b : bool) (s : World) : World :=
  mkWorld (files s) (read_fault s) (write_fault s) (log s) b.

(** [os.Stat(name)]: only the error is used by the program. *)
Definition stat (s : World) (name : string) : option error :=
  match files s !! name with
  | Some _ => None
  | None => Some (ErrNotExist ("stat " +:+ name +:+ ": no such file or directory"))
  end.

(** [ioutil.ReadFile(filename)]. *)
Definition read_file (s : World) (filename : string) : string * option error :=
  match files s !! filename with
  | None => ("", Some (ErrNotExist ("open " +:+ filename +:+ ": no such file or directory")))
  | Some data =>
      match read_fault s filename with
      | Some msg => ("", Some (ErrOther msg))
      | None => (data, None)
      end
  end.

(** [ioutil.WriteFile(filename, data, 0644)]: the file is created or
    replaced by [data]; no other path changes, also on failure. *)
Definition write_file (s : World) (filename data : string) : World * option error :=
  match write_fault s filename with
  | Some (msg, Some rest) => (set_files (<[filename := rest]> (files s)) s, Some (ErrOther msg))
  | Some (msg, None) => (set_files (delete filename (files s)) s, Some (ErrOther msg))
  | None => (set_files (<[filename := data]> (files s)) s, None)
  end.

(** ** Programs *)

(** The operations of a handler on its surroundings, each with the rest of
    the program. *)
Inductive io (A : Type) : Type :=
| Ret (a : A)
| Lock (k : io A)
| Unlock (k : io A)
| os_Stat (name : string) (k : option error -> io A)
| ioutil_ReadFile (filename : string) (k : string * option error -> io A)
| ioutil_WriteFile (filename data : string) (k : option error -> io A)
| log_Print (msg : string) (k : io A).

Arguments Ret {A} a.
Arguments Lock {A} k.
Arguments Unlock {A} k.
Arguments os_Stat {A} name k.
Arguments ioutil_ReadFile {A} filename k.
Arguments ioutil_WriteFile {A} filename data k.
Arguments log_Print {A} msg k.

Fixpoint bind {A B : Type} (m : io A) (f : A -> io B) : io B :=
  match m with
  | Ret a => f a
  | Lock k => Lock (bind k f)
  | Unlock k => Unlock (bind k f)
  | os_Stat name k => os_Stat name (fun r => bind (k r) f)
  | ioutil_ReadFile filename k => ioutil_ReadFile filename (fun r => bind (k r) f)
  | ioutil_WriteFile filename data k => ioutil_WriteFile filename data (fun r => bind (k r) f)
  | log_Print msg k => log_Print msg (bind k f)
  end.

Declare Scope io_scope.
Delimit Scope io_scope with io.
Notation "x <- m ;; k" := (bind m (fun x => k))
  (at level 100, m at next level, right associativity) : io_scope.
Notation "m ;; k" := (bind m (fun _ => k))
  (at level 100, right associativity) : io_scope.
Open Scope io_scope.

Definition saveMutex_Lock : io unit := Lock (Ret tt).
Definition saveMutex_Unlock : io unit := Unlock (Ret tt).
Definition Stat (name : string) : io (option error) := os_Stat name Ret.
Definition ReadFile (filename : string) : io (string * option error) :=
  ioutil_ReadFile filename Ret.
Definition WriteFile (filename data : string) : io (option error) :=
  ioutil_WriteFile filename data Ret.
Definition log_Println (msg : string) : io unit := log_Print msg (Ret tt).
Definition log_Printf (msg : string) : io unit := log_Print msg (Ret tt).

(** [defer saveMutex.Unlock()]: the mutex is released on every return of
    the rest of the function. *)
Definition defer_Unlock {A : Type} (body : io A) : io A :=
  a <- body ;; saveMutex_Unlock ;; Ret a.

(** One handler from start to end.  [None]: the program waits for a mutex
    that is held. *)
Fixpoint run {A : Type} (m : io A) (s : World) : option (A * World) :=
  match m with
  | Ret a => Some (a, s)
  | Lock k => if saveMutex s then None else run k (set_saveMutex true s)
  | Unlock k => run k (set_saveMutex false s)
  | os_Stat name k => run (k (stat s name)) s
  | ioutil_ReadFile filename k => run (k (read_file s filename)) s
  | ioutil_WriteFile filename data k =>
      let '(s', err) := write_file s filename data in run (k err) s'
  | log_Print msg k => run k (set_log (log s ++ [msg]) s)
  end.

(** ** [net/http] *)

Definition http_MethodGet : string := "GET".
Definition http_MethodPost : string := "POST".
Definition http_StatusOK : Z := 200.
Definition http_StatusBadRequest : Z := 400.
Definition http_StatusNotFound : Z := 404.
Definition http_StatusMethodNotAllowed : Z := 405.
Definition http_StatusInternalServerError : Z := 500.

(** The line feed that [fmt.Fprintln] and [Encoder.Encode] append. *)
Definition LF : string := String (ascii_of_nat 10) "".

(** A request: its method, its URL path, and what [ioutil.ReadAll(r.Body)]
    returns for it. *)
Record Request : Type := mkRequest {
  Method : string;
  Path : string;
  Body : string * option error
}.

Definition ioutil_ReadAll (body : string * option error) : string * option error := body.

(** The response under construction: the header map, the status code once
    the header is written, and the body written so far. *)
Record ResponseWriter : Type := mkResponseWriter {
  Header : gmap string string;
  Code : option Z;
  Written : string
}.

Definition NewResponse : ResponseWriter := mkResponseWriter ∅ None "".

(** [w.Header().Set(key, value)]; once the header is written the map of
    the response no longer changes. *)
Definition Header_Set (key value : string) (w : ResponseWriter) : ResponseWriter :=
  match Code w with
  | Some _ => w
  | None => mkResponseWriter (<[key := value]> (Header w)) (Code w) (Written w)
  end.

(** [w.WriteHeader(code)]; a second call changes nothing. *)
Definition WriteHeader (code : Z) (w : ResponseWriter) : ResponseWriter :=
  match Code w with
  | Some _ => w
  | None => mkResponseWriter (Header w) (Some code) (Written w)
  end.

(** [w.Write(data)]: writes the header with [200] when it was not written. *)
Definition Write (data : string) (w : ResponseWriter) : ResponseWriter :=
  let w := WriteHeader http_StatusOK w in
  mkResponseWriter (Header w) (Code w) (Written w +:+ data).

(** [http.Error(w, error, code)]. *)
Definition http_Error (w : ResponseWriter) (err : string) (code : Z) : ResponseWriter :=
  let w := Header_Set "Content-Type" "text/plain; charset=utf-8" w in
  let w := Header_Set "X-Content-Type-Options" "nosniff" w in
  let w := WriteHeader code w in
  Write (err +:+ LF) w.

(** ** The handlers of [main.go] *)

(** The two [map[string]string] literals of the handlers. *)
Definition ping_response : gmap string string :=
  <["status" := "ok"]> (<["message" := "Server is running"]> ∅).

Definition save_response : gmap string string :=
  <["status" := "success"]> (<["message" := "Data saved successfully"]> ∅).

Section Handlers.
Context {J : EncodingJSON}.

(** [json.NewEncoder(w).Encode(response)]. *)
Definition Encoder_Encode (w : ResponseWriter) (response : gmap string string) : ResponseWriter :=
  Write (json_Encode response) w.

Definition createDefaultFilesIfNotExists : io unit :=
  err <- Stat "data.txt" ;;
  if os_IsNotExist err then
    let emptyNotes : slice Note.t := Some [] in
    let '(data, _) := json_Marshal emptyNotes in
    err <- WriteFile "data.txt" data ;;
    match err with
    | Some e => log_Printf ("Error creating default data.txt: " +:+ Error e)
    | None => log_Println "Created default data.txt"
    end ;;
    let '(readableData, _) := json_MarshalIndent emptyNotes "" "  " in
    err <- WriteFile "data_readable.txt" readableData ;;
    match err with
    | Some e => log_Printf ("Error creating default data_readable.txt: " +:+ Error e)
    | None => log_Println "Created default data_readable.txt"
    end
  else
    log_Println "data.txt already exists, skipping default file creation".

Definition pingHandler (w : ResponseWriter) (r : Request) : io ResponseWriter :=
  let w := Header_Set "Content-Type" "application/json" w in
  let response := ping_response in
  Ret (Encoder_Encode w response).

Definition saveHandler (w : ResponseWriter) (r : Request) : io ResponseWriter :=
  if negb (String.eqb (Method r) http_MethodPost) then
    Ret (http_Error w "Only POST method is allowed" http_StatusMethodNotAllowed)
  else
    saveMutex_Lock ;;
    defer_Unlock (
      let '(body, err) := ioutil_ReadAll (Body r) in
      match err with
      | Some _ => Ret (http_Error w "Error reading request body" http_StatusBadRequest)
      | None =>
          err <- WriteFile "data.txt" body ;;
          match err with
          | Some e =>
              Ret (http_Error w ("Error saving to data.txt: " +:+ Error e)
                     http_StatusInternalServerError)
          | None =>
              let '(notes, err) := json_Unmarshal body in
              match err with
              | None =>
                  let '(readableData, _) := json_MarshalIndent notes "" "  " in
                  err <- WriteFile "data_readable.txt" readableData ;;
                  match err with
                  | Some e => log_Printf ("Error saving to data_readable.txt: " +:+ Error e)
                  | None => log_Println "Data auto-saved to data.txt and data_readable.txt"
                  end
              | Some e => log_Printf ("Error parsing JSON data: " +:+ Error e)
              end ;;
              let w := Header_Set "Content-Type" "application/json" w in
              let response := save_response in
              Ret (Encoder_Encode w response)
          end
      end).

Definition loadHandler (w : ResponseWriter) (r : Request) : io ResponseWriter :=
  if negb (String.eqb (Method r) http_MethodGet) then
    Ret (http_Error w "Only GET method is allowed" http_StatusMethodNotAllowed)
  else
    err <- Stat "data.txt" ;;
    if os_IsNotExist err then
      Ret (http_Error w "No saved data found" http_StatusNotFound)
    else
      res <- ReadFile "data.txt" ;;
      let '(data, err) := res in
      match err with
      | Some e =>
          Ret (http_Error w ("Error reading saved data: " +:+ Error e)
                 http_StatusInternalServerError)
      | None =>
          let w := Header_Set "Content-Type" "application/json" w in
          Ret (Write data w)
      end.

(** The routes [main] registers; [/] (the file server of [./web/]) is not
    part of this development. *)
Definition mux (path : string) : option (ResponseWriter -> Request -> io ResponseWriter) :=
  if String.eqb path "/save" then Some saveHandler
  else if String.eqb path "/load" then Some loadHandler
  else if String.eqb path "/ping" then Some pingHandler
  else None.

(** The server answering one request on a fresh response. *)
Definition serve (r : Request) : option (io ResponseWriter) :=
  match mux (Path r) with
  | Some handler => Some (handler NewResponse r)
  | None => None
  end.

(** One request handled from start to end: the response and the
    surroundings afterwards. *)
Definition handle (r : Request) (s : World) : option (ResponseWriter * World) :=
  match serve r with
  | Some p => run p s
  | None => None
  end.

End Handlers.

(** ** [encoding/json] and [time] on the types of the program

    The codec below follows the documentation of the two packages (Go
    1.22): [Marshal] writes struct fields in declaration order under their
    tags, a nil slice as [null], strings with the HTML-safe escapes and a
    [time.Time] in the layout of RFC 3339 with nanoseconds;
    [Unmarshal] checks the syntax of the whole input first, matches object
    keys to fields without regard to case, skips the keys that match no
    field and leaves a field as it is on [null]. *)

Module json.

Definition byte_of (c : ascii) : Z := Z.of_N (N_of_ascii c).
Definition chr (n : Z) : ascii := ascii_of_N (Z.to_N n).
Definition in_range (lo hi : Z) (c : ascii) : bool :=
  (lo <=? byte_of c) && (byte_of c <=? hi).
Definition is_byte (n : Z) (c : ascii) : bool := byte_of c =? n.

(** The double quote and the backslash. *)
Definition DQ : string := String (chr 34) "".
Definition BS : string := String (chr 92) "".

(** *** UTF-8 *)

(** A string cut the way [utf8.DecodeRune] walks it: encoded runes, and
    the bytes that start no valid encoding, one at a time. *)
Inductive chunk : Type :=
| Rune (encoding : string)
| Invalid (b : ascii).

Definition cont (c : ascii) : bool := in_range 128 191 c.

Definition two_bytes (c0 c1 : ascii) : bool := in_range 194 223 c0 && cont c1.

Definition three_bytes (c0 c1 c2 : ascii) : bool :=
  (is_byte 224 c0 && in_range 160 191 c1
   || (in_range 225 236 c0 || in_range 238 239 c0) && cont c1
   || is_byte 237 c0 && in_range 128 159 c1)
  && cont c2.

Definition four_bytes (c0 c1 c2 c3 : ascii) : bool :=
  (is_byte 240 c0 && in_range 144 191 c1
   || in_range 241 243 c0 && cont c1
   || is_byte 244 c0 && in_range 128 143 c1)
  && cont c2 && cont c3.

Fixpoint utf8_chunks (s : string) : list chunk :=
  match s with
  | EmptyString => []
  | String c0 r0 =>
      if byte_of c0 <? 128 then Rune (String c0 "") :: utf8_chunks r0
      else
        match r0 with
        | String c1 r1 =>
            if two_bytes c0 c1 then Rune (String c0 (String c1 "")) :: utf8_chunks r1
            else
              match r1 with
              | String c2 r2 =>
                  if three_bytes c0 c1 c2
                  then Rune (String c0 (String c1 (String c2 ""))) :: utf8_chunks r2
                  else
                    match r2 with
                    | String c3 r3 =>
                        if four_bytes c0 c1 c2 c3
                        then Rune (String c0 (String c1 (String c2 (String c3 ""))))
                               :: utf8_chunks r3
                        else Invalid c0 :: utf8_chunks r0
                    | EmptyString => Invalid c0 :: utf8_chunks r0
                    end
              | EmptyString => Invalid c0 :: utf8_chunks r0
              end
        | EmptyString => Invalid c0 :: utf8_chunks r0
        end
  end.

(** [utf8.EncodeRune], for a rune that is no surrogate and at most
    U+10FFFF. *)
Definition encode_rune (r : Z) : string :=
  if r <? 128 then String (chr r) ""
  else if r <? 2048 then
    String (chr (192 + r / 64)) (String (chr (128 + r mod 64)) "")
  else if r <? 65536 then
    String (chr (224 + r / 4096))
      (String (chr (128 + (r / 64) mod 64)) (String (chr (128 + r mod 64)) ""))
  else
    String (chr (240 + r / 262144))
      (String (chr (128 + (r / 4096) mod 64))
         (String (chr (128 + (r / 64) mod 64)) (String (chr (128 + r mod 64)) ""))).

(** U+FFFD, the replacement character. *)
Definition replacement : string := encode_rune 65533.

(** *** Writing strings *)

Definition hex_digit (n : Z) : ascii :=
  if n <? 10 then chr (48 + n) else chr (87 + n).

(** One chunk of a string as [Marshal] writes it, HTML characters
    escaped. *)
Definition escape_chunk (c : chunk) : string :=
  match c with
  | Invalid _ => BS +:+ "ufffd"
  | Rune (String b EmptyString) =>
      let n := byte_of b in
      if (n =? 34) || (n =? 92) then BS +:+ String b ""
      else if n =? 8 then BS +:+ "b"
      else if n =? 12 then BS +:+ "f"
      else if n =? 10 then BS +:+ "n"
      else if n =? 13 then BS +:+ "r"
      else if n =? 9 then BS +:+ "t"
      else if (n <? 32) || (n =? 60) || (n =? 62) || (n =? 38) then
        BS +:+ "u00" +:+ String (hex_digit (n / 16)) (String (hex_digit (n mod 16)) "")
      else String b ""
  | Rune encoding =>
      if String.eqb encoding (encode_rune 8232) then BS +:+ "u2028"
      else if String.eqb encoding (encode_rune 8233) then BS +:+ "u2029"
      else encoding
  end.

Definition encode_string (s : string) : string :=
  DQ +:+ String.concat "" (map escape_chunk (utf8_chunks s)) +:+ DQ.

(** *** Writing times *)

Definition digit (n : Z) : ascii := chr (48 + n mod 10).

Definition pad2 (n : Z) : string := String (digit (n / 10)) (String (digit n) "").

Definition pad4 (n : Z) : string :=
  String (digit (n / 1000)) (String (digit (n / 100)) (pad2 n)).

Fixpoint trim_zeros (digits : list ascii) : list ascii :=
  match digits with
  | c :: rest => if is_byte 48 c then trim_zeros rest else digits
  | [] => []
  end.

(** The fraction of a second of the layout [.999999999]: nine digits, the
    zeros at the end cut off, nothing at all for a whole second. *)
Definition format_nano (nsec : Z) : string :=
  if nsec =? 0 then ""
  else
    let digits := map (fun i => digit (nsec / 10 ^ i)) [8; 7; 6; 5; 4; 3; 2; 1; 0] in
    "." +:+ string_of_list_ascii (rev (trim_zeros (rev digits))).

Definition format_zone (offset : Z) : string :=
  if offset =? 0 then "Z"
  else
    let zone := Z.quot offset 60 in
    (if zone <? 0 then "-" else "+")
    +:+ pad2 (Z.abs zone / 60) +:+ ":" +:+ pad2 (Z.abs zone mod 60).

(** [t.Format(time.RFC3339Nano)]. *)
Definition format_RFC3339Nano (t : time_Time) : string :=
  pad4 (Year t) +:+ "-" +:+ pad2 (Month t) +:+ "-" +:+ pad2 (Day t) +:+ "T"
  +:+ pad2 (Hour t) +:+ ":" +:+ pad2 (Minute t) +:+ ":" +:+ pad2 (Second t)
  +:+ format_nano (Nanosecond t) +:+ format_zone (ZoneOffset t).

(** [Time.MarshalJSON]: the quoted time, or an error for a year or a zone
    that RFC 3339 cannot hold. *)
Definition Time_MarshalJSON (t : time_Time) : string + error :=
  if negb ((0 <=? Year t) && (Year t <=? 9999)) then
    inr (ErrOther "json: error calling MarshalJSON for type time.Time: Time.MarshalJSON: year outside of range [0,9999]")
  else if 24 <=? Z.abs (Z.quot (ZoneOffset t) 60) / 60 then
    inr (ErrOther "json: error calling MarshalJSON for type time.Time: Time.MarshalJSON: timezone hour outside of range [0,23]")
  else inl (DQ +:+ format_RFC3339Nano t +:+ DQ).

(** *** [Marshal] *)

Definition and_then {A B : Type} (r : A + error) (f : A -> B + error) : B + error :=
  match r with
  | inl a => f a
  | inr e => inr e
  end.

Fixpoint marshal_elems {A : Type} (f : A -> string + error) (l : list A) : list string + error :=
  match l with
  | [] => inl []
  | x :: l' =>
      and_then (f x) (fun s =>
      and_then (marshal_elems f l') (fun ss => inl (s :: ss)))
  end.

(** A slice: [null] when nil, else the elements between brackets. *)
Definition marshal_slice {A : Type} (f : A -> string + error) (s : slice A) : string + error :=
  match s with
  | None => inl "null"
  | Some l => and_then (marshal_elems f l) (fun ss => inl ("[" +:+ String.concat "," ss +:+ "]"))
  end.

Definition member (name value : string) : string := encode_string name +:+ ":" +:+ value.

Definition marshal_Content (c : Content.t) : string + error :=
  and_then (Time_MarshalJSON (Content.CreatedAt c)) (fun createdAt =>
  and_then (Time_MarshalJSON (Content.UpdatedAt c)) (fun updatedAt =>
  inl ("{" +:+ member "id" (encode_string (Content.ID c))
       +:+ "," +:+ member "title" (encode_string (Content.Title c))
       +:+ "," +:+ member "text" (encode_string (Content.Text c))
       +:+ "," +:+ member "createdAt" createdAt
       +:+ "," +:+ member "updatedAt" updatedAt +:+ "}"))).

Definition marshal_Note (n : Note.t) : string + error :=
  and_then (marshal_slice marshal_Content (Note.Content n)) (fun content =>
  and_then (Time_MarshalJSON (Note.CreatedAt n)) (fun createdAt =>
  and_then (Time_MarshalJSON (Note.UpdatedAt n)) (fun updatedAt =>
  inl ("{" +:+ member "id" (encode_string (Note.ID n))
       +:+ "," +:+ member "title" (encode_string (Note.Title n))
       +:+ "," +:+ member "content" content
       +:+ "," +:+ member "createdAt" createdAt
       +:+ "," +:+ member "updatedAt" updatedAt +:+ "}")))).

(** [json.Marshal(notes)]. *)
Definition Marshal (notes : slice Note.t) : string * option error :=
  match marshal_slice marshal_Note notes with
  | inl b => (b, None)
  | inr e => ("", Some e)
  end.

(** *** [Indent] *)

Fixpoint repeat_string (n : nat) (s : string) : string :=
  match n with
  | O => ""
  | S n' => s +:+ repeat_string n' s
  end.

Definition newline (prefix indent : string) (depth : nat) : string :=
  LF +:+ prefix +:+ repeat_string depth indent.

Definition is_space (c : ascii) : bool :=
  is_byte 32 c || is_byte 9 c || is_byte 13 c || is_byte 10 c.

(** [json.Indent] on the bytes [Marshal] returns.  [in_string], [escaped]:
    where the walk is in a string literal; [needIndent]: a bracket was
    opened and nothing followed yet, so that an empty array stays [[]]. *)
Fixpoint indent_from (prefix indent : string) (src : string)
    (in_string escaped needIndent : bool) (depth : nat) : string :=
  match src with
  | EmptyString => ""
  | String c rest =>
      if in_string then
        String c
          (if escaped then indent_from prefix indent rest true false needIndent depth
           else if is_byte 92 c then indent_from prefix indent rest true true needIndent depth
           else if is_byte 34 c then indent_from prefix indent rest false false needIndent depth
           else indent_from prefix indent rest true false needIndent depth)
      else if is_space c then indent_from prefix indent rest false false needIndent depth
      else if is_byte 125 c || is_byte 93 c then
        if needIndent then String c (indent_from prefix indent rest false false false depth)
        else
          newline prefix indent (Nat.pred depth)
          +:+ String c (indent_from prefix indent rest false false false (Nat.pred depth))
      else
        let depth' := if needIndent then S depth else depth in
        (if needIndent then newline prefix indent depth' else "")
        +:+
        (if is_byte 123 c || is_byte 91 c then
           String c (indent_from prefix indent rest false false true depth')
         else if is_byte 44 c then
           String c (newline prefix indent depth'
                     +:+ indent_from prefix indent rest false false false depth')
         else if is_byte 58 c then
           String c (" " +:+ indent_from prefix indent rest false false false depth')
         else
           String c (indent_from prefix indent rest (is_byte 34 c) false false depth'))
  end.

Definition Indent (src prefix indent : string) : string :=
  indent_from prefix indent src false false false 0.

(** [json.MarshalIndent(notes, prefix, indent)]: [Marshal], then
    [Indent]. *)
Definition MarshalIndent (notes : slice Note.t) (prefix indent : string) : string * option error :=
  match Marshal notes with
  | (b, None) => (Indent b prefix indent, None)
  | (_, Some e) => ("", Some e)
  end.

(** *** [Encoder.Encode] of a [map[string]string]: the keys in sorted
    order, a line feed at the end. *)
Definition key_le (p q : string * string) : Prop := String.le p.1 q.1.

Definition Encode (m : gmap string string) : string :=
  let members :=
    map (fun p : string * string => member p.1 (encode_string p.2))
      (merge_sort key_le (map_to_list m)) in
  "{" +:+ String.concat "," members +:+ "}" +:+ LF.

(** *** Reading: the scanner

    A JSON text as a tree.  A string keeps the bytes between its quotes as
    they stand in the input ([Time.UnmarshalJSON] reads them so), a number
    its literal. *)
#[local] Unset Elimination Schemes.
Inductive value : Type :=
| Null
| Bool (b : bool)
| Number (literal : string)
| Str (raw : string)
| Array (elems : list value)
| Object (members : list (string * value)).
#[local] Set Elimination Schemes.

(** The containers that are open, innermost first, each with what was read
    of it so far in reverse order.  [FObjectKey]: before the colon;
    [FObjectValue]: after it, the key set while its value is awaited. *)
Inductive frame : Type :=
| FArray (elems : list value)
| FObjectKey (members : list (string * value)) (key : option string)
| FObjectValue (members : list (string * value)) (key : option string).

(** The states of the scanner of [encoding/json]. *)
Inductive state : Type :=
| BeginValueOrEmpty
| BeginValue
| BeginStringOrEmpty
| BeginString
| EndValue
| EndTop
| InString
| InStringEsc
| InStringEscU (expected : nat)
| Neg
| Int0
| Int1
| Dot
| Dot0
| Exp
| ExpSign
| Exp0
| Lit (rest : string) (v : value).

Record scanner : Type := mkScanner {
  step_state : state;
  parseState : list frame;
  literal : list ascii;
  top : option value
}.

Definition maxNestingDepth : Z := 10000.

Definition is_digit (c : ascii) : bool := in_range 48 57 c.

Definition is_hex (c : ascii) : bool :=
  is_digit c || in_range 97 102 c || in_range 65 70 c.

Definition lit_string (l : list ascii) : string := string_of_list_ascii (rev l).

(** A value is complete: it is the whole text, an element of the array or
    the key or the value of a member of the object that is open. *)
Definition deliver (v : value) (ps : list frame) : option scanner :=
  match ps with
  | [] => Some (mkScanner EndValue [] [] (Some v))
  | FArray elems :: ps' => Some (mkScanner EndValue (FArray (v :: elems) :: ps') [] None)
  | FObjectKey members None :: ps' =>
      match v with
      | Str raw => Some (mkScanner EndValue (FObjectKey members (Some raw) :: ps') [] None)
      | _ => None
      end
  | FObjectValue members (Some key) :: ps' =>
      Some (mkScanner EndValue (FObjectValue ((key, v) :: members) None :: ps') [] None)
  | _ => None
  end.

Definition push (f : frame) (next : state) (ps : list frame) : option scanner :=
  if Z.of_nat (length ps) <? maxNestingDepth then Some (mkScanner next (f :: ps) [] None)
  else None.

Definition stateEndValue (ps : list frame) (top : option value) (c : ascii) : option scanner :=
  match ps with
  | [] => if is_space c then Some (mkScanner EndTop [] [] top) else None
  | f :: ps' =>
      if is_space c then Some (mkScanner EndValue ps [] top)
      else
        match f with
        | FObjectKey members (Some key) =>
            if is_byte 58 c
            then Some (mkScanner BeginValue (FObjectValue members (Some key) :: ps') [] None)
            else None
        | FObjectValue members None =>
            if is_byte 44 c
            then Some (mkScanner BeginString (FObjectKey members None :: ps') [] None)
            else if is_byte 125 c then deliver (Object (rev members)) ps'
            else None
        | FArray elems =>
            if is_byte 44 c then Some (mkScanner BeginValue ps [] None)
            else if is_byte 93 c then deliver (Array (rev elems)) ps'
            else None
        | _ => None
        end
  end.

Definition stateBeginValue (ps : list frame) (c : ascii) : option scanner :=
  if is_space c then Some (mkScanner BeginValue ps [] None)
  else if is_byte 123 c then push (FObjectKey [] None) BeginStringOrEmpty ps
  else if is_byte 91 c then push (FArray []) BeginValueOrEmpty ps
  else if is_byte 34 c then Some (mkScanner InString ps [] None)
  else if is_byte 45 c then Some (mkScanner Neg ps [c] None)
  else if is_byte 48 c then Some (mkScanner Int0 ps [c] None)
  else if is_byte 116 c then Some (mkScanner (Lit "rue" (Bool true)) ps [] None)
  else if is_byte 102 c then Some (mkScanner (Lit "alse" (Bool false)) ps [] None)
  else if is_byte 110 c then Some (mkScanner (Lit "ull" Null) ps [] None)
  else if in_range 49 57 c then Some (mkScanner Int1 ps [c] None)
  else None.

Definition stateBeginString (ps : list frame) (c : ascii) : option scanner :=
  if is_space c then Some (mkScanner BeginString ps [] None)
  else if is_byte 34 c then Some (mkScanner InString ps [] None)
  else None.

(** A number ends at the first byte that cannot continue it; that byte is
    then read in [stateEndValue]. *)
Definition end_number (ps : list frame) (lit : list ascii) (c : ascii) : option scanner :=
  match deliver (Number (lit_string lit)) ps with
  | Some sc => stateEndValue (parseState sc) (top sc) c
  | None => None
  end.

Definition is_e (c : ascii) : bool := is_byte 101 c || is_byte 69 c.

Definition state0 (ps : list frame) (lit : list ascii) (c : ascii) : option scanner :=
  if is_byte 46 c then Some (mkScanner Dot ps (c :: lit) None)
  else if is_e c then Some (mkScanner Exp ps (c :: lit) None)
  else end_number ps lit c.

Definition stateESign (ps : list frame) (lit : list ascii) (c : ascii) : option scanner :=
  if is_digit c then Some (mkScanner Exp0 ps (c :: lit) None) else None.

(** One byte of the input. *)
Definition step (sc : scanner) (c : ascii) : option scanner :=
  let ps := parseState sc in
  let lit := literal sc in
  match step_state sc with
  | BeginValueOrEmpty =>
      if is_space c then Some sc
      else if is_byte 93 c then
        match ps with
        | FArray [] :: ps' => deliver (Array []) ps'
        | _ => None
        end
      else stateBeginValue ps c
  | BeginValue => stateBeginValue ps c
  | BeginStringOrEmpty =>
      if is_space c then Some sc
      else if is_byte 125 c then
        match ps with
        | FObjectKey [] None :: ps' => deliver (Object []) ps'
        | _ => None
        end
      else stateBeginString ps c
  | BeginString => stateBeginString ps c
  | EndValue => stateEndValue ps (top sc) c
  | EndTop => if is_space c then Some sc else None
  | InString =>
      if is_byte 34 c then deliver (Str (lit_string lit)) ps
      else if is_byte 92 c then Some (mkScanner InStringEsc ps (c :: lit) None)
      else if byte_of c <? 32 then None
      else Some (mkScanner InString ps (c :: lit) None)
  | InStringEsc =>
      if is_byte 98 c || is_byte 102 c || is_byte 110 c || is_byte 114 c || is_byte 116 c
         || is_byte 92 c || is_byte 47 c || is_byte 34 c
      then Some (mkScanner InString ps (c :: lit) None)
      else if is_byte 117 c then Some (mkScanner (InStringEscU 4) ps (c :: lit) None)
      else None
  | InStringEscU n =>
      if is_hex c then
        match n with
        | S (S n') => Some (mkScanner (InStringEscU (S n')) ps (c :: lit) None)
        | _ => Some (mkScanner InString ps (c :: lit) None)
        end
      else None
  | Neg =>
      if is_byte 48 c then Some (mkScanner Int0 ps (c :: lit) None)
      else if in_range 49 57 c then Some (mkScanner Int1 ps (c :: lit) None)
      else None
  | Int1 =>
      if is_digit c then Some (mkScanner Int1 ps (c :: lit) None)
      else state0 ps lit c
  | Int0 => state0 ps lit c
  | Dot => if is_digit c then Some (mkScanner Dot0 ps (c :: lit) None) else None
  | Dot0 =>
      if is_digit c then Some (mkScanner Dot0 ps (c :: lit) None)
      else if is_e c then Some (mkScanner Exp ps (c :: lit) None)
      else end_number ps lit c
  | Exp =>
      if is_byte 43 c || is_byte 45 c then Some (mkScanner ExpSign ps (c :: lit) None)
      else stateESign ps lit c
  | ExpSign => stateESign ps lit c
  | Exp0 =>
      if is_digit c then Some (mkScanner Exp0 ps (c :: lit) None)
      else end_number ps lit c
  | Lit rest v =>
      match rest with
      | String c' rest' =>
          if Ascii.eqb c c' then
            match rest' with
            | EmptyString => deliver v ps
            | _ => Some (mkScanner (Lit rest' v) ps [] None)
            end
          else None
      | EmptyString => None
      end
  end.

Fixpoint scan (sc : scanner) (data : string) : option scanner :=
  match data with
  | EmptyString => Some sc
  | String c rest =>
      match step sc c with
      | Some sc' => scan sc' rest
      | None => None
      end
  end.

(** The whole input as one value, or the syntax error ([checkValid]).  At
    the end of the input a space is fed to the scanner, which completes a
    number. *)
Definition parse (data : string) : value + error :=
  match scan (mkScanner BeginValue [] [] None) data with
  | None => inr (ErrOther "invalid character in JSON input")
  | Some sc =>
      match step sc " "%char with
      | Some (mkScanner _ [] _ (Some v)) => inl v
      | _ => inr (ErrOther "unexpected end of JSON input")
      end
  end.

(** *** Reading strings *)

Definition hex_value (c : ascii) : Z :=
  if is_digit c then byte_of c - 48
  else if in_range 97 102 c then byte_of c - 87
  else byte_of c - 55.

Definition getu4 (a b c d : ascii) : Z :=
  ((hex_value a * 16 + hex_value b) * 16 + hex_value c) * 16 + hex_value d.

Definition is_surrogate (r : Z) : bool := (55296 <=? r) && (r <? 57344).

(** [utf16.DecodeRune]: the rune of a surrogate pair, if it is one. *)
Definition utf16_DecodeRune (r1 r2 : Z) : option Z :=
  if (55296 <=? r1) && (r1 <? 56320) && (56320 <=? r2) && (r2 <? 57344)
  then Some ((r1 - 55296) * 1024 + (r2 - 56320) + 65536)
  else None.

Definition escape_char (c : ascii) : ascii :=
  if is_byte 98 c then chr 8
  else if is_byte 102 c then chr 12
  else if is_byte 110 c then chr 10
  else if is_byte 114 c then chr 13
  else if is_byte 116 c then chr 9
  else c.

(** The escapes of a scanned string literal replaced by what they stand
    for; a surrogate that is not the first half of a pair becomes
    U+FFFD. *)
Fixpoint unescape (raw : string) : string :=
  match raw with
  | EmptyString => ""
  | String c0 r0 =>
      if is_byte 92 c0 then
        match r0 with
        | String c1 r1 =>
            if is_byte 117 c1 then
              match r1 with
              | String a (String b (String c (String d r5))) =>
                  let rr := getu4 a b c d in
                  if is_surrogate rr then
                    match r5 with
                    | String e0 (String e1 (String a' (String b' (String c' (String d' r11))))) =>
                        if is_byte 92 e0 && is_byte 117 e1
                           && is_hex a' && is_hex b' && is_hex c' && is_hex d'
                        then
                          match utf16_DecodeRune rr (getu4 a' b' c' d') with
                          | Some dec => encode_rune dec +:+ unescape r11
                          | None => replacement +:+ unescape r5
                          end
                        else replacement +:+ unescape r5
                    | _ => replacement +:+ unescape r5
                    end
                  else encode_rune rr +:+ unescape r5
              | _ => ""
              end
            else String (escape_char c1) (unescape r1)
        | EmptyString => ""
        end
      else String c0 (unescape r0)
  end.

(** Bytes that are not UTF-8 become U+FFFD. *)
Definition sanitize (s : string) : string :=
  String.concat ""
    (map (fun c => match c with Rune encoding => encoding | Invalid _ => replacement end)
       (utf8_chunks s)).

(** The Go string of a scanned string literal ([unquote]). *)
Definition unquote (raw : string) : string := sanitize (unescape raw).

(** *** Reading times *)

Definition digit_value (c : ascii) : Z := byte_of c - 48.

(** [getnum(s, true)]: two digits. *)
Definition getnum2 (s : string) : option (Z * string) :=
  match s with
  | String a (String b rest) =>
      if is_digit a && is_digit b then Some (digit_value a * 10 + digit_value b, rest)
      else None
  | _ => None
  end.

(** [getnum(s, false)]: one digit or two. *)
Definition getnum (s : string) : option (Z * string) :=
  match s with
  | String a rest =>
      if is_digit a then
        match rest with
        | String b rest' =>
            if is_digit b then Some (digit_value a * 10 + digit_value b, rest')
            else Some (digit_value a, rest)
        | EmptyString => Some (digit_value a, rest)
        end
      else None
  | EmptyString => None
  end.

Definition getyear (s : string) : option (Z * string) :=
  match s with
  | String a (String b (String c (String d rest))) =>
      if is_digit a && is_digit b && is_digit c && is_digit d
      then Some (((digit_value a * 10 + digit_value b) * 10 + digit_value c) * 10
                 + digit_value d, rest)
      else None
  | _ => None
  end.

Definition expect (n : Z) (s : string) : option string :=
  match s with
  | String c rest => if is_byte n c then Some rest else None
  | EmptyString => None
  end.

Fixpoint span_digits (s : string) : list ascii * string :=
  match s with
  | String c rest =>
      if is_digit c then let '(ds, rest') := span_digits rest in (c :: ds, rest')
      else ([], s)
  | EmptyString => ([], s)
  end.

(** [parseNanoseconds]: the first nine digits of a fraction count. *)
Definition nanoseconds (digits : list ascii) : Z :=
  fold_left (fun ns c => ns * 10 + digit_value c)
    (take 9 (digits ++ repeat "0"%char 9)) 0.

(** A fraction of a second after the seconds: a period or a comma and at
    least one digit. *)
Definition getfraction (s : string) : Z * string :=
  match s with
  | String sep rest =>
      if is_byte 46 sep || is_byte 44 sep then
        match span_digits rest with
        | ([], _) => (0, s)
        | (ds, rest') => (nanoseconds ds, rest')
        end
      else (0, s)
  | EmptyString => (0, s)
  end.

(** The zone of the layout [Z07:00]: [Z], or a sign, hours and minutes;
    the offset in seconds. *)
Definition getzone (s : string) : option (Z * string) :=
  match s with
  | String z rest =>
      if is_byte 90 z then Some (0, rest)
      else
        match getnum2 rest with
        | Some (hr, rest1) =>
            match expect 58 rest1 with
            | Some rest2 =>
                match getnum2 rest2 with
                | Some (mm, rest3) =>
                    if (24 <? hr) || (60 <? mm) then None
                    else if is_byte 43 z then Some ((hr * 60 + mm) * 60, rest3)
                    else if is_byte 45 z then Some (- ((hr * 60 + mm) * 60), rest3)
                    else None
                | None => None
                end
            | None => None
            end
        | None => None
        end
  | EmptyString => None
  end.

Definition isLeap (year : Z) : bool :=
  (year mod 4 =? 0) && (negb (year mod 100 =? 0) || (year mod 400 =? 0)).

Definition daysIn (month year : Z) : Z :=
  if month =? 2 then (if isLeap year then 29 else 28)
  else if (month =? 4) || (month =? 6) || (month =? 9) || (month =? 11) then 30
  else 31.

Definition bind_opt {A B : Type} (o : option A) (f : A -> option B) : option B :=
  match o with
  | Some a => f a
  | None => None
  end.

(** [time.Parse(time.RFC3339, s)]. *)
Definition time_Parse (s : string) : option time_Time :=
  bind_opt (getyear s) (fun '(year, s) =>
  bind_opt (expect 45 s) (fun s =>
  bind_opt (getnum2 s) (fun '(month, s) =>
  bind_opt (expect 45 s) (fun s =>
  bind_opt (getnum2 s) (fun '(day, s) =>
  bind_opt (expect 84 s) (fun s =>
  bind_opt (getnum s) (fun '(hour, s) =>
  bind_opt (expect 58 s) (fun s =>
  bind_opt (getnum2 s) (fun '(min, s) =>
  bind_opt (expect 58 s) (fun s =>
  bind_opt (getnum2 s) (fun '(sec, s) =>
  let '(nsec, s) := getfraction s in
  bind_opt (getzone s) (fun '(offset, s) =>
  match s with
  | EmptyString =>
      if (1 <=? month) && (month <=? 12) && (1 <=? day) && (day <=? daysIn month year)
         && (hour <? 24) && (min <? 60) && (sec <? 60)
      then Some (mkTime year month day hour min sec nsec offset)
      else None
  | _ => None
  end)))))))))))).

(** *** [Unmarshal] *)

Definition kind_of (v : value) : string :=
  match v with
  | Null => "null"
  | Bool _ => "bool"
  | Number _ => "number"
  | Str _ => "string"
  | Array _ => "array"
  | Object _ => "object"
  end.

Definition UnmarshalTypeError (v : value) (type : string) : error :=
  ErrOther ("json: cannot unmarshal " +:+ kind_of v +:+ " into Go value of type " +:+ type).

(** Into a [string]: [null] changes nothing. *)
Definition decode_string (v : value) (old : string) : string + error :=
  match v with
  | Null => inl old
  | Str raw => inl (unquote raw)
  | _ => inr (UnmarshalTypeError v "string")
  end.

(** Into a [time.Time] ([Time.UnmarshalJSON]): [null] changes nothing, a
    string is parsed as its bytes stand in the input. *)
Definition decode_time (v : value) (old : time_Time) : time_Time + error :=
  match v with
  | Null => inl old
  | Str raw =>
      match time_Parse raw with
      | Some t => inl t
      | None => inr (ErrOther ("parsing time " +:+ DQ +:+ raw +:+ DQ +:+ " as RFC 3339"))
      end
  | _ => inr (ErrOther "Time.UnmarshalJSON: input is not a JSON string")
  end.

Fixpoint decode_elems {A : Type} (dec : value -> A + error) (elems : list value) : list A + error :=
  match elems with
  | [] => inl []
  | v :: elems' =>
      and_then (dec v) (fun a =>
      and_then (decode_elems dec elems') (fun l => inl (a :: l)))
  end.

(** Into a slice: [null] makes it nil, an array gives it the decoded
    elements. *)
Definition decode_slice {A : Type} (dec : value -> A + error) (type : string) (v : value)
    : slice A + error :=
  match v with
  | Null => inl None
  | Array elems => and_then (decode_elems dec elems) (fun l => inl (Some l))
  | _ => inr (UnmarshalTypeError v type)
  end.

(** The members of an object in their order, each stored by [set]. *)
Fixpoint decode_members {A : Type} (set : string -> value -> A -> A + error)
    (members : list (string * value)) (a : A) : A + error :=
  match members with
  | [] => inl a
  | (key, v) :: members' => and_then (set key v a) (decode_members set members')
  end.

Definition to_upper (c : ascii) : ascii :=
  if in_range 97 122 c then chr (byte_of c - 32) else c.

Fixpoint upper (s : string) : string :=
  match s with
  | EmptyString => ""
  | String c rest => String (to_upper c) (upper rest)
  end.

(** A key names a field when the two are equal up to the case of
    letters. *)
Definition names (key field : string) : bool :=
  String.eqb (upper (unquote key)) (upper field).

Definition set_Content (key : string) (v : value) (c : Content.t) : Content.t + error :=
  if names key "id" then
    and_then (decode_string v (Content.ID c)) (fun x =>
      inl (Content.mk x (Content.Title c) (Content.Text c) (Content.CreatedAt c) (Content.UpdatedAt c)))
  else if names key "title" then
    and_then (decode_string v (Content.Title c)) (fun x =>
      inl (Content.mk (Content.ID c) x (Content.Text c) (Content.CreatedAt c) (Content.UpdatedAt c)))
  else if names key "text" then
    and_then (decode_string v (Content.Text c)) (fun x =>
      inl (Content.mk (Content.ID c) (Content.Title c) x (Content.CreatedAt c) (Content.UpdatedAt c)))
  else if names key "createdAt" then
    and_then (decode_time v (Content.CreatedAt c)) (fun x =>
      inl (Content.mk (Content.ID c) (Content.Title c) (Content.Text c) x (Content.UpdatedAt c)))
  else if names key "updatedAt" then
    and_then (decode_time v (Content.UpdatedAt c)) (fun x =>
      inl (Content.mk (Content.ID c) (Content.Title c) (Content.Text c) (Content.CreatedAt c) x))
  else inl c.

(** Into a struct: [null] changes nothing, an object sets the fields its
    keys name. *)
Definition decode_Content (v : value) : Content.t + error :=
  match v with
  | Null => inl Content.zero
  | Object members => decode_members set_Content members Content.zero
  | _ => inr (UnmarshalTypeError v "main.Content")
  end.

Definition set_Note (key : string) (v : value) (n : Note.t) : Note.t + error :=
  if names key "id" then
    and_then (decode_string v (Note.ID n)) (fun x =>
      inl (Note.mk x (Note.Title n) (Note.Content n) (Note.CreatedAt n) (Note.UpdatedAt n)))
  else if names key "title" then
    and_then (decode_string v (Note.Title n)) (fun x =>
      inl (Note.mk (Note.ID n) x (Note.Content n) (Note.CreatedAt n) (Note.UpdatedAt n)))
  else if names key "content" then
    and_then (decode_slice decode_Content "[]main.Content" v) (fun x =>
      inl (Note.mk (Note.ID n) (Note.Title n) x (Note.CreatedAt n) (Note.UpdatedAt n)))
  else if names key "createdAt" then
    and_then (decode_time v (Note.CreatedAt n)) (fun x =>
      inl (Note.mk (Note.ID n) (Note.Title n) (Note.Content n) x (Note.UpdatedAt n)))
  else if names key "updatedAt" then
    and_then (decode_time v (Note.UpdatedAt n)) (fun x =>
      inl (Note.mk (Note.ID n) (Note.Title n) (Note.Content n) (Note.CreatedAt n) x))
  else inl n.

Definition decode_Note (v : value) : Note.t + error :=
  match v with
  | Null => inl Note.zero
  | Object members => decode_members set_Note members Note.zero
  | _ => inr (UnmarshalTypeError v "main.Note")
  end.

(** The names under which the fields of the two structs are read and
    written (their tags), and the keys that name none of them. *)
Definition Note_fields : list string := ["id"; "title"; "content"; "createdAt"; "updatedAt"].
Definition Content_fields : list string := ["id"; "title"; "text"; "createdAt"; "updatedAt"].

Definition unknown_key (fields : list string) (key : string) : bool :=
  forallb (fun field => negb (names key field)) fields.

(** [json.Unmarshal(data, &notes)] for a nil [notes].  Of an input with
    several faults one is reported, without the position Go adds to the
    text; the value of [notes] after an error is not modelled (nil). *)
Definition Unmarshal (data : string) : slice Note.t * option error :=
  match parse data with
  | inr e => (None, Some e)
  | inl v =>
      match decode_slice decode_Note "[]main.Note" v with
      | inl notes => (notes, None)
      | inr e => (None, Some e)
      end
  end.

End json.

(** The codec of the Go packages. *)
#[export] Instance GoJSON : EncodingJSON := {
  json_Marshal := json.Marshal;
  json_MarshalIndent := json.MarshalIndent;
  json_Unmarshal := json.Unmarshal;
  json_Encode := json.Encode
}.

(** ** Requests handled one after the other *)

Section Sequences.
Context {J : EncodingJSON}.

(** The surroundings after the requests of [rs], each handled from start
    to end before the next. *)
Fixpoint handle_all (rs : list Request) (s : World) : option World :=
  match rs with
  | [] => Some s
  | r :: rs' =>
      match handle r s with
      | Some (_, s') => handle_all rs' s'
      | None => None
      end
  end.

(** The payload of a request that is a save: a POST to [/save] whose body
    can be read. *)
Definition saved_payload (r : Request) : option string :=
  if String.eqb (Path r) "/save" && String.eqb (Method r) http_MethodPost then
    match Body r with
    | (P, None) => Some P
    | (_, Some _) => None
    end
  else None.

(** The collection of a save whose payload decodes. *)
Definition saved_notes (r : Request) : option (slice Note.t) :=
  match saved_payload r with
  | Some P =>
      match json_Unmarshal P with
      | (notes, None) => Some notes
      | (_, Some _) => None
      end
  | None => None
  end.

(** The request goes to one of the three handlers. *)
Definition routed (r : Request) : Prop :=
  Path r = "/save" \/ Path r = "/load" \/ Path r = "/ping".

End Sequences.

(** ** Requests handled at the same time

    [net/http] runs every handler in a goroutine of its own.  Here the
    goroutines take turns, one operation at a time; a [WriteFile] is not
    one operation but the opening of the file, which empties it, the
    writes of its bytes in pieces at the offset of the descriptor, and the
    closing. *)

(** A goroutine: a program, or a program in the middle of a [WriteFile]
    that has written [written] and has [rest] to write. *)
Inductive thread (A : Type) : Type :=
| Running (p : io A)
| Writing (filename written rest : string) (k : option error -> io A).

Arguments Running {A} p.
Arguments Writing {A} filename written rest k.

Inductive op : Type :=
| OpLock
| OpUnlock
| OpStat (name : string)
| OpRead (filename : string)
| OpOpen (filename : string)
| OpChunk (filename chunk : string)
| OpClose (filename : string)
| OpFail (filename : string)
| OpLog (msg : string).

(** [chunk] put over the bytes of [content] from its start. *)
Fixpoint overwrite (content chunk : string) : string :=
  match chunk with
  | EmptyString => content
  | String c chunk' =>
      String c (overwrite (match content with String _ r => r | EmptyString => "" end) chunk')
  end.

(** [chunk] written into [content] at [offset]; a hole reads as zeros. *)
Fixpoint write_at (content : string) (offset : nat) (chunk : string) : string :=
  match offset with
  | O => overwrite content chunk
  | S n =>
      match content with
      | String c r => String c (write_at r n chunk)
      | EmptyString => String zero (write_at "" n chunk)
      end
  end.

(** One operation of one goroutine. *)
Inductive thread_step {A : Type} : thread A -> World -> op -> thread A -> World -> Prop :=
| step_Lock (k : io A) (s : World) :
    saveMutex s = false ->
    thread_step (Running (Lock k)) s OpLock (Running k) (set_saveMutex true s)
| step_Unlock (k : io A) (s : World) :
    thread_step (Running (Unlock k)) s OpUnlock (Running k) (set_saveMutex false s)
| step_Stat (name : string) (k : option error -> io A) (s : World) :
    thread_step (Running (os_Stat name k)) s (OpStat name) (Running (k (stat s name))) s
| step_Read (filename : string) (k : string * option error -> io A) (s : World) :
    thread_step (Running (ioutil_ReadFile filename k)) s (OpRead filename)
      (Running (k (read_file s filename))) s
| step_Fail (filename data : string) (k : option error -> io A) (s : World) :
    write_fault s filename <> None ->
    thread_step (Running (ioutil_WriteFile filename data k)) s (OpFail filename)
      (Running (k (write_file s filename data).2)) (write_file s filename data).1
| step_Open (filename data : string) (k : option error -> io A) (s : World) :
    write_fault s filename = None ->
    thread_step (Running (ioutil_WriteFile filename data k)) s (OpOpen filename)
      (Writing filename "" data k) (set_files (<[filename := ""]> (files s)) s)
| step_Chunk (filename written chunk rest : string) (k : option error -> io A) (s : World) :
    chunk <> "" ->
    thread_step (Writing filename written (chunk +:+ rest) k) s (OpChunk filename chunk)
      (Writing filename (written +:+ chunk) rest k)
      (set_files
         (<[filename := write_at (default "" (files s !! filename)) (String.length written) chunk]>
            (files s)) s)
| step_Close (filename written : string) (k : option error -> io A) (s : World) :
    thread_step (Writing filename written "" k) s (OpClose filename) (Running (k None)) s
| step_Log (msg : string) (k : io A) (s : World) :
    thread_step (Running (log_Print msg k)) s (OpLog msg) (Running k)
      (set_log (log s ++ [msg])%list s).

(** One operation of the goroutine [i] of a pool. *)
Inductive step {A : Type} :
    list (thread A) * World -> nat * op -> list (thread A) * World -> Prop :=
| step_thread (ts : list (thread A)) (s s' : World) (i : nat) (o : op) (t t' : thread A) :
    ts !! i = Some t ->
    thread_step t s o t' s' ->
    step (ts, s) (i, o) (<[i := t']> ts, s').

(** An execution, with the operations in the order they took place. *)
Inductive steps {A : Type} :
    list (thread A) * World -> list (nat * op) -> list (thread A) * World -> Prop :=
| steps_nil (c : list (thread A) * World) : steps c [] c
| steps_snoc (c c' c'' : list (thread A) * World) (tr : list (nat * op)) (l : nat * op) :
    steps c tr c' -> step c' l c'' -> steps c (tr ++ [l])%list c''.

(** The goroutine has returned. *)
Definition returned {A : Type} (t : thread A) : Prop := exists a, t = Running (Ret a).

(** All operations of one goroutine come before all operations of the
    other. *)
Definition serial (tr : list (nat * op)) : Prop :=
  exists (first second : nat) (tra trb : list (nat * op)),
    first <> second /\ tr = (tra ++ trb)%list
    /\ Forall (fun l => l.1 = first) tra /\ Forall (fun l => l.1 = second) trb.

(** *** Saves at the same time: what holds in every state *)

Section Saves.
Context {J : EncodingJSON}.

(** The rest of a save once [data.txt] is written: writes of other files
    and lines of the log, then the release of the mutex and the return. *)
Inductive tail_ok : io ResponseWriter -> Prop :=
| tail_unlock (w : ResponseWriter) : tail_ok (Unlock (Ret w))
| tail_write (filename data : string) (k : option error -> io ResponseWriter) :
    filename <> "data.txt" -> (forall err, tail_ok (k err)) ->
    tail_ok (ioutil_WriteFile filename data k)
| tail_log (msg : string) (k : io ResponseWriter) :
    tail_ok k -> tail_ok (log_Print msg k).

(** A save of the payload [P] that holds the mutex: before the write of
    [data.txt], in the middle of it (the file holds what was written so
    far), or after it (the file holds [P]). *)
Inductive holding (P : string) (s : World) : thread ResponseWriter -> Prop :=
| hold_before (k : option error -> io ResponseWriter) :
    (forall err, tail_ok (k err)) ->
    holding P s (Running (ioutil_WriteFile "data.txt" P k))
| hold_writing (written rest : string) (k : option error -> io ResponseWriter) :
    written +:+ rest = P -> files s !! "data.txt" = Some written ->
    (forall err, tail_ok (k err)) ->
    holding P s (Writing "data.txt" written rest k)
| hold_after (p : io ResponseWriter) :
    tail_ok p -> files s !! "data.txt" = Some P ->
    holding P s (Running p)
| hold_other (filename written rest : string) (k : option error -> io ResponseWriter) :
    filename <> "data.txt" -> (forall err, tail_ok (k err)) ->
    files s !! "data.txt" = Some P ->
    holding P s (Writing filename written rest k).

(** A save has not taken the mutex yet, holds it, or has returned. *)
Inductive phase : Type := Waiting | Holding | Done.

(** The saves considered: POSTs whose body can be read. *)
Definition readable_post (r : Request) : Prop :=
  Method r = http_MethodPost /\ (Body r).2 = None.

Definition payload (r : Request) : string := (Body r).1.

Definition thread_inv (r : Request) (s : World) (t : thread ResponseWriter) (ph : phase) : Prop :=
  match ph with
  | Waiting => t = Running (saveHandler NewResponse r)
  | Holding => holding (payload r) s t
  | Done => returned t
  end.

(** A stretch of operations of the goroutine [i]. *)
Definition block_of (i : nat) (b : list (nat * op)) : Prop :=
  b <> [] /\ Forall (fun l => l.1 = i) b.

(** The operations are those of the goroutines of [order], one goroutine
    after the other. *)
Definition in_blocks (order : list nat) (tr : list (nat * op)) : Prop :=
  exists blocks, Forall2 block_of order blocks /\ tr = concat blocks.

(** What holds of the saves of [reqs] after the operations [tr]: [ph]
    gives the phase of each, [order] the saves that took the mutex, in the
    order they took it. *)
Record save_inv (reqs : list Request) (ts : list (thread ResponseWriter)) (s : World)
    (tr : list (nat * op)) (ph : nat -> phase) (order : list nat) : Prop := {
  inv_fault : write_fault s "data.txt" = None;
  inv_length : length ts = length reqs;
  inv_threads : forall i r t,
    reqs !! i = Some r -> ts !! i = Some t -> thread_inv r s t (ph i);
  inv_bound : forall i, ph i <> Waiting -> (i < length reqs)%nat;
  inv_excl : forall i j, ph i = Holding -> ph j = Holding -> i = j;
  inv_mutex : saveMutex s = true <-> exists i, ph i = Holding;
  inv_nodup : NoDup order;
  inv_order : forall i, i ∈ order <-> ph i <> Waiting;
  inv_last : forall i, ph i = Holding -> last order = Some i;
  inv_trace : in_blocks order tr;
  inv_file : saveMutex s = false ->
    forall i r, last order = Some i -> reqs !! i = Some r ->
    files s !! "data.txt" = Some (payload r)
}.

End Saves.

(** *** Saves at the same time and saves one after the other *)

(** What a goroutine that is left alone returns: a [WriteFile] in
    progress completes. *)
Definition run_thread {A : Type} (t : thread A) (s : World) : option (A * World) :=
  match t with
  | Running p => run p s
  | Writing filename written rest k =>
      run (k None) (set_files (<[filename := written +:+ rest]> (files s)) s)
  end.

(** The file of a [WriteFile] in progress holds what was written of it. *)
Definition consistent {A : Type} (t : thread A) (s : World) : Prop :=
  match t with
  | Running _ => True
  | Writing filename written _ _ => files s !! filename = Some written
  end.

(** A program that runs under the mutex: it does not take it, and
    releases it as its last operation. *)
Inductive critical {A : Type} : io A -> Prop :=
| crit_Unlock (a : A) : critical (Unlock (Ret a))
| crit_Stat (name : string) (k : option error -> io A) :
    (forall err, critical (k err)) -> critical (os_Stat name k)
| crit_ReadFile (filename : string) (k : string * option error -> io A) :
    (forall res, critical (k res)) -> critical (ioutil_ReadFile filename k)
| crit_WriteFile (filename data : string) (k : option error -> io A) :
    (forall err, critical (k err)) -> critical (ioutil_WriteFile filename data k)
| crit_Print (msg : string) (k : io A) :
    critical k -> critical (log_Print msg k).

Definition in_critical {A : Type} (t : thread A) : Prop :=
  match t with
  | Running p => critical p
  | Writing _ _ _ k => forall err, critical (k err)
  end.

Section Serial.
Context {J : EncodingJSON}.

(** A POST to [/save]. *)
Definition save_request (r : Request) : Prop :=
  Path r = "/save" /\ Method r = http_MethodPost.

(** The requests of [reqs] at the positions [order]. *)
Definition chosen (reqs : list Request) (order : list nat) : list Request :=
  omap (fun i => reqs !! i) order.

(** What holds of the saves of [reqs] in a state reached from [s0]:
    [order] lists those that took the mutex, in the order they took it.
    The others have not started.  While the mutex is free, the saves of
    [order] have returned and the surroundings are those of handling them
    one after the other; while it is held, this is so for all but the last
    of [order], which will return what it returns when handled after
    them. *)
Record serial_inv (reqs : list Request) (s0 : World) (ts : list (thread ResponseWriter))
    (s : World) (order : list nat) : Prop := {
  ser_length : length ts = length reqs;
  ser_nodup : NoDup order;
  ser_bound : forall i, i ∈ order -> (i < length reqs)%nat;
  ser_waiting : forall i r, i ∉ order -> reqs !! i = Some r ->
    ts !! i = Some (Running (saveHandler NewResponse r));
  ser_free : saveMutex s = false ->
    (forall i t, i ∈ order -> ts !! i = Some t -> returned t)
    /\ handle_all (chosen reqs order) s0 = Some s;
  ser_held : saveMutex s = true ->
    exists order' i r t s_base,
      order = (order' ++ [i])%list
      /\ reqs !! i = Some r /\ ts !! i = Some t
      /\ (forall j t', j ∈ order' -> ts !! j = Some t' -> returned t')
      /\ handle_all (chosen reqs order') s0 = Some s_base
      /\ saveMutex s_base = false
      /\ in_critical t /\ consistent t s
      /\ run_thread t s = run (saveHandler NewResponse r) s_base
}.

End Serial.

(** ** Sample data *)

(** A working directory without files in which nothing fails, the log
    empty and the mutex free. *)
Definition fresh_world : World := mkWorld ∅ (fun _ => None) (fun _ => None) [] false.

Definition sample_time : time_Time := mkTime 2024 2 29 23 59 59 500000000 (-19800).

Definition sample_notes : slice Note.t :=
  Some [Note.mk "n1" "Groceries"
          (Some [Content.mk "c1" "List" "milk & eggs" sample_time sample_time])
          sample_time sample_time;
        Note.mk "n2" "" None time_zero time_zero].

(** The JSON text of [sample_notes] that [Marshal] writes. *)
Definition sample_payload : string := (json.Marshal sample_notes).1.

(** A payload with a member that [Note] does not have and a time in
    another spelling than the one [Marshal] writes. *)
Definition payload_with_extras : string :=
  "[{" +:+ json.member "id" (json.encode_string "n1")
  +:+ "," +:+ json.member "color" (json.encode_string "red")
  +:+ "," +:+ json.member "createdAt" (json.encode_string "2024-01-02T03:04:05.000+00:00")
  +:+ "}]".

(** The same note without the extra member, the time as [Marshal] writes
    it. *)
Definition payload_plain : string :=
  "[{" +:+ json.member "id" (json.encode_string "n1")
  +:+ "," +:+ json.member "createdAt" (json.encode_string "2024-01-02T03:04:05Z")
  +:+ "}]".

Definition quoted (s : string) : string := json.DQ +:+ s +:+ json.DQ.

(** What [MarshalIndent] with an indent of two spaces writes for the note
    of [payload_plain], line by line. *)
Definition payload_plain_indented : string :=
  "[" +:+ LF
  +:+ "  {" +:+ LF
  +:+ "    " +:+ quoted "id" +:+ ": " +:+ quoted "n1" +:+ "," +:+ LF
  +:+ "    " +:+ quoted "title" +:+ ": " +:+ quoted "" +:+ "," +:+ LF
  +:+ "    " +:+ quoted "content" +:+ ": null," +:+ LF
  +:+ "    " +:+ quoted "createdAt" +:+ ": " +:+ quoted "2024-01-02T03:04:05Z" +:+ "," +:+ LF
  +:+ "    " +:+ quoted "updatedAt" +:+ ": " +:+ quoted "0001-01-01T00:00:00Z" +:+ LF
  +:+ "  }" +:+ LF
  +:+ "]".

(** The note of [payload_plain] with its time in a zone of 24 hours, an
    offset that [time.Parse] reads and [Time.MarshalJSON] refuses to
    write. *)
Definition payload_zone24 : string :=
  "[{" +:+ json.member "id" (json.encode_string "n1")
  +:+ "," +:+ json.member "createdAt" (json.encode_string "2024-01-02T03:04:05+24:00")
  +:+ "}]".

Definition notes_zone24 : slice Note.t :=
  Some [Note.mk "n1" "" None (mkTime 2024 1 2 3 4 5 0 86400) time_zero].


(** * Properties *)

(** ** The sequential semantics *)

Lemma run_bind {A B : Type} (m : io A) (f : A -> io B) (s : World) :
  run (bind m f) s =
  match run m s with
  | Some (a, s') => run (f a) s'
  | None => None
  end.
Proof.
  revert s. induction m as [a|k IH|k IH|name k IH|filename k IH|filename data k IH|msg k IH];
    intros s; simpl; auto.
  - destruct (saveMutex s); auto.
  - destruct (write_file s filename data) as [s' err]. apply IH.
Qed.

Lemma files_write_file_ne (s : World) (filename data other : string) :
  filename <> other ->
  files (write_file s filename data).1 !! other = files s !! other.
Proof.
  intros Hne. unfold write_file.
  destruct (write_fault s filename) as [[msg [rest|]]|]; simpl.
  - by rewrite lookup_insert_ne.
  - by rewrite lookup_delete_ne.
  - by rewrite lookup_insert_ne.
Qed.

Lemma write_file_ok (s : World) (filename data : string) :
  write_fault s filename = None ->
  write_file s filename data = (set_files (<[filename := data]> (files s)) s, None).
Proof. intros H. unfold write_file. by rewrite H. Qed.

Lemma write_file_fault (s : World) (filename data msg : string) (rest : option string) :
  write_fault s filename = Some (msg, rest) ->
  (write_file s filename data).2 = Some (ErrOther msg).
Proof. intros H. unfold write_file. rewrite H. by destruct rest. Qed.

Lemma write_file_env (s : World) (filename data : string) :
  let s' := (write_file s filename data).1 in
  read_fault s' = read_fault s /\ write_fault s' = write_fault s
  /\ log s' = log s /\ saveMutex s' = saveMutex s.
Proof.
  unfold write_file. by destruct (write_fault s filename) as [[msg [rest|]]|].
Qed.

(** What a POST to [/save] does when the mutex is free and the body could
    be read, step by step. *)
Lemma saveHandler_POST {J : EncodingJSON} (w : ResponseWriter) (r : Request) (s : World)
    (P : string) :
  Method r = http_MethodPost -> Body r = (P, None) -> saveMutex s = false ->
  run (saveHandler w r) s =
  let s1 := (write_file (set_saveMutex true s) "data.txt" P).1 in
  match (write_file (set_saveMutex true s) "data.txt" P).2 with
  | Some e =>
      Some (http_Error w ("Error saving to data.txt: " +:+ Error e)
              http_StatusInternalServerError,
            set_saveMutex false s1)
  | None =>
      let ok := Encoder_Encode (Header_Set "Content-Type" "application/json" w) save_response in
      match (json_Unmarshal P).2 with
      | None =>
          let readableData := (json_MarshalIndent (json_Unmarshal P).1 "" "  ").1 in
          let s2 := (write_file s1 "data_readable.txt" readableData).1 in
          let msg :=
            match (write_file s1 "data_readable.txt" readableData).2 with
            | Some e => "Error saving to data_readable.txt: " +:+ Error e
            | None => "Data auto-saved to data.txt and data_readable.txt"
            end in
          Some (ok, set_saveMutex false (set_log (log s2 ++ [msg]) s2))
      | Some e =>
          Some (ok, set_saveMutex false
                      (set_log (log s1 ++ ["Error parsing JSON data: " +:+ Error e]) s1))
      end
  end.
Proof.
  intros Hm Hb Hfree. unfold saveHandler. rewrite Hm. simpl String.eqb. simpl negb.
  cbv iota. unfold saveMutex_Lock, defer_Unlock. rewrite Hb.
  unfold ioutil_ReadAll. simpl. rewrite Hfree.
  destruct (write_file (set_saveMutex true s) "data.txt" P) as [s1 [e|]] eqn:Hw; simpl.
  - reflexivity.
  - destruct (json_Unmarshal P) as [notes [e|]] eqn:Hu; simpl.
    + reflexivity.
    + destruct (json_MarshalIndent notes "" "  ") as [readableData merr]; simpl.
      destruct (write_file s1 "data_readable.txt" readableData) as [s2 [e|]]; reflexivity.
Qed.

Lemma handle_save {J : EncodingJSON} (r : Request) (s : World) :
  Path r = "/save" -> handle r s = run (saveHandler NewResponse r) s.
Proof. intros H. unfold handle, serve, mux. by rewrite H. Qed.

Lemma handle_load {J : EncodingJSON} (r : Request) (s : World) :
  Path r = "/load" -> handle r s = run (loadHandler NewResponse r) s.
Proof. intros H. unfold handle, serve, mux. by rewrite H. Qed.

Lemma handle_ping {J : EncodingJSON} (r : Request) (s : World) :
  Path r = "/ping" -> handle r s = run (pingHandler NewResponse r) s.
Proof. intros H. unfold handle, serve, mux. by rewrite H. Qed.

Lemma eqb_method_ne (m m' : string) : m <> m' -> negb (String.eqb m m') = true.
Proof. intros H. apply negb_true_iff. by apply String.eqb_neq. Qed.

(** What a GET to [/load] does, by the state of [data.txt]. *)
Lemma loadHandler_GET {J : EncodingJSON} (w : ResponseWriter) (r : Request) (s : World) :
  Method r = http_MethodGet ->
  run (loadHandler w r) s =
  match files s !! "data.txt" with
  | None => Some (http_Error w "No saved data found" http_StatusNotFound, s)
  | Some data =>
      match read_fault s "data.txt" with
      | Some msg =>
          Some (http_Error w ("Error reading saved data: " +:+ msg)
                  http_StatusInternalServerError, s)
      | None => Some (Write data (Header_Set "Content-Type" "application/json" w), s)
      end
  end.
Proof.
  intros Hm. unfold loadHandler. rewrite Hm. simpl. unfold stat.
  destruct (files s !! "data.txt") as [data|] eqn:Hf; simpl; [|done].
  unfold read_file. rewrite Hf. by destruct (read_fault s "data.txt").
Qed.

(** ** One request at a time *)

(** C8: a request to [/ping], whatever its method and whatever the state
    of the files, the log and the mutex, is answered with status 200, the
    content type [application/json] and the JSON object whose members are
    [status: ok] and [message: Server is running] (written with the keys
    in sorted order and a line feed after it); nothing of the
    surroundings changes. *)
Theorem ping_fixed_payload (r : Request) (s : World) :
  Path r = "/ping" ->
  exists w,
    handle r s = Some (w, s)
    /\ Code w = Some http_StatusOK
    /\ Header w !! "Content-Type" = Some "application/json"
    /\ Written w = json_Encode ping_response
    /\ json.parse (Written w)
       = inl (json.Object [("message", json.Str "Server is running");
                           ("status", json.Str "ok")]).
Proof.
  intros Hp. rewrite (handle_ping r s Hp). eexists. split; [reflexivity|].
  split; [reflexivity|]. split; [by vm_compute|]. split; by vm_compute.
Qed.

Lemma ping_fixed_payload_witness :
  exists w,
    handle (mkRequest "DELETE" "/ping" ("", None))
      (mkWorld {["data.txt" := "[]"]} (fun _ => None) (fun _ => None) [] true)
    = Some (w, mkWorld {["data.txt" := "[]"]} (fun _ => None) (fun _ => None) [] true)
    /\ Code w = Some http_StatusOK
    /\ Header w !! "Content-Type" = Some "application/json"
    /\ Written w = json_Encode ping_response
    /\ json.parse (Written w)
       = inl (json.Object [("message", json.Str "Server is running");
                           ("status", json.Str "ok")]).
Proof. apply ping_fixed_payload. reflexivity. Defined.

(** C5: a request to [/save] that is not a POST and a request to [/load]
    that is not a GET are answered with status 405, and the surroundings
    (the two files, every other file, the log, the mutex) are the same
    afterwards. *)
Theorem wrong_method_not_allowed {J : EncodingJSON} (r : Request) (s : World) :
  (Path r = "/save" /\ Method r <> http_MethodPost)
  \/ (Path r = "/load" /\ Method r <> http_MethodGet) ->
  exists w,
    handle r s = Some (w, s)
    /\ Code w = Some http_StatusMethodNotAllowed.
Proof.
  intros [[Hp Hm]|[Hp Hm]].
  - rewrite (handle_save r s Hp). unfold saveHandler.
    rewrite (eqb_method_ne _ _ Hm). eexists. split; reflexivity.
  - rewrite (handle_load r s Hp). unfold loadHandler.
    rewrite (eqb_method_ne _ _ Hm). eexists. split; reflexivity.
Qed.

Lemma wrong_method_not_allowed_witness :
  exists w,
    handle (mkRequest "GET" "/save" ("[]", None))
      (mkWorld {["data.txt" := "[1]"]} (fun _ => None) (fun _ => None) [] false)
    = Some (w, mkWorld {["data.txt" := "[1]"]} (fun _ => None) (fun _ => None) [] false)
    /\ Code w = Some http_StatusMethodNotAllowed.
Proof.
  apply (wrong_method_not_allowed (J := GoJSON)). left. split; [reflexivity|discriminate].
Defined.

(** C6: a GET to [/load] is answered by the state of [data.txt] alone:
    404 when there is no such file; 200, the content type
    [application/json] and the bytes of the file as the body when it is
    there and can be read; 500 with the text of the error when reading it
    fails.  Nothing of the surroundings changes. *)
Theorem load_by_store_state {J : EncodingJSON} (r : Request) (s : World) :
  Path r = "/load" -> Method r = http_MethodGet ->
  exists w,
    handle r s = Some (w, s)
    /\ match files s !! "data.txt" with
       | None => Code w = Some http_StatusNotFound
       | Some data =>
           match read_fault s "data.txt" with
           | None =>
               Code w = Some http_StatusOK
               /\ Written w = data
               /\ Header w !! "Content-Type" = Some "application/json"
           | Some msg =>
               Code w = Some http_StatusInternalServerError
               /\ Written w = "Error reading saved data: " +:+ msg +:+ LF
           end
       end.
Proof.
  intros Hp Hm. rewrite (handle_load r s Hp), (loadHandler_GET _ r s Hm).
  destruct (files s !! "data.txt") as [data|].
  - destruct (read_fault s "data.txt") as [msg|]; eexists; (split; [reflexivity|]).
    + split; reflexivity.
    + done.
  - eexists. split; reflexivity.
Qed.

Lemma load_by_store_state_witness :
  exists w,
    handle (mkRequest "GET" "/load" ("", None))
      (mkWorld {["data.txt" := "not json"]} (fun _ => None) (fun _ => None) [] false)
    = Some (w, mkWorld {["data.txt" := "not json"]} (fun _ => None) (fun _ => None) [] false)
    /\ Code w = Some http_StatusOK
    /\ Written w = "not json"
    /\ Header w !! "Content-Type" = Some "application/json".
Proof.
  exact (load_by_store_state (J := GoJSON) (mkRequest "GET" "/load" ("", None))
           (mkWorld {["data.txt" := "not json"]} (fun _ => None) (fun _ => None) [] false)
           eq_refl eq_refl).
Defined.

(** C3: when the write of [data.txt] fails, a POST to [/save] is answered
    with status 500 and a message that ends in the text of the error.
    [data_readable.txt] is not written: whatever the file system would
    have done to it, its content is the one from before the call, as is
    that of every file other than [data.txt]; nothing is logged. *)
Theorem compact_write_failure {J : EncodingJSON} (r : Request) (s : World)
    (P msg : string) (rest : option string) :
  Path r = "/save" -> Method r = http_MethodPost -> Body r = (P, None) ->
  saveMutex s = false ->
  write_fault s "data.txt" = Some (msg, rest) ->
  exists w s',
    handle r s = Some (w, s')
    /\ Code w = Some http_StatusInternalServerError
    /\ Written w = "Error saving to data.txt: " +:+ msg +:+ LF
    /\ files s' !! "data_readable.txt" = files s !! "data_readable.txt"
    /\ (forall f, f <> "data.txt" -> files s' !! f = files s !! f)
    /\ log s' = log s
    /\ saveMutex s' = false.
Proof.
  intros Hp Hm Hb Hfree Hw.
  rewrite (handle_save r s Hp), (saveHandler_POST _ r s P Hm Hb Hfree). cbv zeta.
  rewrite (write_file_fault (set_saveMutex true s) "data.txt" P msg rest Hw).
  eexists _, _. split; [reflexivity|]. split; [reflexivity|]. split; [reflexivity|].
  assert (Hother : forall f, f <> "data.txt" ->
            files (set_saveMutex false (write_file (set_saveMutex true s) "data.txt" P).1) !! f
            = files s !! f).
  { intros f Hf. simpl. by rewrite files_write_file_ne. }
  split; [by apply Hother|]. split; [exact Hother|].
  split; [|reflexivity]. simpl.
  by destruct (write_file_env (set_saveMutex true s) "data.txt" P) as (_ & _ & -> & _).
Qed.

Lemma compact_write_failure_witness :
  exists w s',
    handle (mkRequest "POST" "/save" ("[]", None))
      (mkWorld {["data_readable.txt" := "old"]} (fun _ => None)
         (fun f => if String.eqb f "data.txt"
                   then Some ("open data.txt: permission denied", None)
                   else Some ("disk full", Some ""))
         [] false)
    = Some (w, s')
    /\ Code w = Some http_StatusInternalServerError
    /\ Written w = "Error saving to data.txt: open data.txt: permission denied" +:+ LF
    /\ files s' !! "data_readable.txt" = Some "old".
Proof.
  destruct (compact_write_failure (J := GoJSON)
              (mkRequest "POST" "/save" ("[]", None))
              (mkWorld {["data_readable.txt" := "old"]} (fun _ => None)
                 (fun f => if String.eqb f "data.txt"
                           then Some ("open data.txt: permission denied", None)
                           else Some ("disk full", Some ""))
                 [] false)
              "[]" "open data.txt: permission denied" None
              eq_refl eq_refl eq_refl eq_refl eq_refl)
    as (w & s' & H1 & H2 & H3 & H4 & _).
  exists w, s'. split; [exact H1|]. split; [exact H2|]. split; [exact H3|].
  rewrite H4. reflexivity.
Defined.

(** C4: when the payload decodes and [data.txt] was written, a failure of
    the write of [data_readable.txt] does not reach the client: the
    answer is status 200 with the success payload, [data.txt] holds the
    payload, and the failure is one more line of the log.  The success
    payload is what the codec writes for the map with the two members
    [status: success] and [message: Data saved successfully]; with the
    codec of Go these are bytes that parse to the JSON object with those
    two members. *)
Theorem readable_write_failure_logged {J : EncodingJSON} (r : Request) (s : World)
    (P msg : string) (rest : option string) (notes : slice Note.t) :
  Path r = "/save" -> Method r = http_MethodPost -> Body r = (P, None) ->
  saveMutex s = false ->
  json_Unmarshal P = (notes, None) ->
  write_fault s "data.txt" = None ->
  write_fault s "data_readable.txt" = Some (msg, rest) ->
  exists w s',
    handle r s = Some (w, s')
    /\ Code w = Some http_StatusOK
    /\ Header w !! "Content-Type" = Some "application/json"
    /\ Written w = json_Encode save_response
    /\ files s' !! "data.txt" = Some P
    /\ log s' = (log s ++ ["Error saving to data_readable.txt: " +:+ msg])%list
    /\ saveMutex s' = false
    /\ save_response !! "status" = Some "success"
    /\ save_response !! "message" = Some "Data saved successfully"
    /\ size save_response = 2%nat
    /\ json.parse (json.Encode save_response)
       = inl (json.Object [("message", json.Str "Data saved successfully");
                           ("status", json.Str "success")])
    /\ (json_Encode save_response = json.Encode save_response ->
        json.parse (Written w)
        = inl (json.Object [("message", json.Str "Data saved successfully");
                            ("status", json.Str "success")])).
Proof.
  intros Hp Hm Hb Hfree Hu Hw1 Hw2.
  assert (Hparse : json.parse (json.Encode save_response)
                   = inl (json.Object [("message", json.Str "Data saved successfully");
                                       ("status", json.Str "success")]))
    by (by vm_compute).
  rewrite (handle_save r s Hp), (saveHandler_POST _ r s P Hm Hb Hfree). cbv zeta.
  rewrite (write_file_ok (set_saveMutex true s) "data.txt" P Hw1). cbn [fst snd].
  rewrite Hu. cbn [fst snd].
  set (s1 := set_files _ _).
  set (readableData := (json_MarshalIndent notes "" "  ").1).
  assert (Hw2' : write_fault s1 "data_readable.txt" = Some (msg, rest)) by exact Hw2.
  rewrite (write_file_fault s1 "data_readable.txt" readableData msg rest Hw2').
  eexists _, _. split; [reflexivity|]. split; [reflexivity|].
  split; [by vm_compute|]. split; [reflexivity|].
  destruct (write_file_env s1 "data_readable.txt" readableData) as (_ & _ & Hlog & _).
  split; [|split; [|split; [reflexivity|]]].
  - simpl. rewrite files_write_file_ne by discriminate. subst s1. simpl.
    apply lookup_insert_eq.
  - simpl. rewrite Hlog. reflexivity.
  - split; [by vm_compute|]. split; [by vm_compute|]. split; [by vm_compute|].
    split; [exact Hparse|]. intros Henc.
    change (json.parse (json_Encode save_response)
            = inl (json.Object [("message", json.Str "Data saved successfully");
                                ("status", json.Str "success")])).
    by rewrite Henc.
Qed.

Lemma readable_write_failure_logged_witness :
  exists w s',
    handle (mkRequest "POST" "/save" ("[]", None))
      (mkWorld ∅ (fun _ => None)
         (fun f => if String.eqb f "data_readable.txt"
                   then Some ("write data_readable.txt: no space left on device", Some "")
                   else None)
         [] false)
    = Some (w, s')
    /\ Code w = Some http_StatusOK
    /\ Header w !! "Content-Type" = Some "application/json"
    /\ json.parse (Written w)
       = inl (json.Object [("message", json.Str "Data saved successfully");
                           ("status", json.Str "success")])
    /\ files s' !! "data.txt" = Some "[]"
    /\ log s' = ["Error saving to data_readable.txt: "
                 +:+ "write data_readable.txt: no space left on device"]
    /\ saveMutex s' = false.
Proof.
  destruct (readable_write_failure_logged (J := GoJSON)
              (mkRequest "POST" "/save" ("[]", None))
              (mkWorld ∅ (fun _ => None)
                 (fun f => if String.eqb f "data_readable.txt"
                           then Some ("write data_readable.txt: no space left on device", Some "")
                           else None)
                 [] false)
              "[]" "write data_readable.txt: no space left on device" (Some "") (Some [])
              eq_refl eq_refl eq_refl eq_refl eq_refl eq_refl eq_refl)
    as (w & s' & H1 & H2 & H3 & _ & H5 & H6 & H7 & _ & _ & _ & _ & H12).
  exists w, s'. split; [exact H1|]. split; [exact H2|]. split; [exact H3|].
  split; [exact (H12 eq_refl)|]. split; [exact H5|]. split; [exact H6|exact H7].
Defined.

Lemma write_file_done (s : World) (filename data : string) :
  (write_file s filename data).2 = None ->
  files (write_file s filename data).1 !! filename = Some data.
Proof.
  unfold write_file. destruct (write_fault s filename) as [[msg [rest|]]|]; simpl; try done.
  intros _. apply lookup_insert_eq.
Qed.

(** A GET to [/load] when [data.txt] is there and can be read. *)
Lemma load_returns_file {J : EncodingJSON} (r : Request) (s : World) (data : string) :
  Path r = "/load" -> Method r = http_MethodGet ->
  files s !! "data.txt" = Some data -> read_fault s "data.txt" = None ->
  exists w,
    handle r s = Some (w, s) /\ Code w = Some http_StatusOK /\ Written w = data.
Proof.
  intros Hp Hm Hf Hr. rewrite (handle_load r s Hp), (loadHandler_GET _ r s Hm), Hf, Hr.
  eexists. split; [reflexivity|]. split; reflexivity.
Qed.

(** The surroundings after a POST to [/save] that was answered with 200. *)
Lemma save_ok_state {J : EncodingJSON} (r : Request) (s s1 : World) (P : string)
    (w1 : ResponseWriter) :
  Method r = http_MethodPost -> Body r = (P, None) -> saveMutex s = false ->
  run (saveHandler NewResponse r) s = Some (w1, s1) ->
  Code w1 = Some http_StatusOK ->
  files s1 !! "data.txt" = Some P /\ read_fault s1 = read_fault s.
Proof.
  intros Hm Hb Hfree Hrun Hcode.
  rewrite (saveHandler_POST _ r s P Hm Hb Hfree) in Hrun. cbv zeta in Hrun.
  pose proof (write_file_done (set_saveMutex true s) "data.txt" P) as Hdone.
  destruct (write_file_env (set_saveMutex true s) "data.txt" P) as (Hrf & _).
  destruct ((write_file (set_saveMutex true s) "data.txt" P).2) as [e|].
  { injection Hrun as <- <-. discriminate Hcode. }
  specialize (Hdone eq_refl).
  destruct ((json_Unmarshal P).2) as [e|]; injection Hrun as <- <-; simpl.
  - by rewrite Hrf.
  - rewrite files_write_file_ne by discriminate.
    destruct (write_file_env (write_file (set_saveMutex true s) "data.txt" P).1
                "data_readable.txt" (json_MarshalIndent (json_Unmarshal P).1 "" "  ").1)
      as (Hrf' & _).
    split; [exact Hdone|]. by rewrite Hrf', Hrf.
Qed.

(** C1: when [P] is a JSON text of the collection [C] ([P] decodes to [C])
    and a POST of [P] to [/save] was answered with 200, a GET to [/load]
    that can read [data.txt] is answered with 200 and a body that decodes
    to [C]; the body is [P] itself. *)
Theorem save_then_load_roundtrip {J : EncodingJSON} (r_save r_load : Request)
    (s s1 : World) (P : string) (C : slice Note.t) (w1 : ResponseWriter) :
  json_Unmarshal P = (C, None) ->
  Path r_save = "/save" -> Method r_save = http_MethodPost -> Body r_save = (P, None) ->
  saveMutex s = false ->
  handle r_save s = Some (w1, s1) -> Code w1 = Some http_StatusOK ->
  Path r_load = "/load" -> Method r_load = http_MethodGet ->
  read_fault s "data.txt" = None ->
  exists w2,
    handle r_load s1 = Some (w2, s1)
    /\ Code w2 = Some http_StatusOK
    /\ Written w2 = P
    /\ json_Unmarshal (Written w2) = (C, None).
Proof.
  intros Hu Hp Hm Hb Hfree Hrun Hcode Hp' Hm' Hr.
  rewrite (handle_save r_save s Hp) in Hrun.
  destruct (save_ok_state r_save s s1 P w1 Hm Hb Hfree Hrun Hcode) as [Hf Hrf].
  rewrite <- Hrf in Hr.
  destruct (load_returns_file r_load s1 P Hp' Hm' Hf Hr) as (w2 & H1 & H2 & H3).
  exists w2. rewrite H3. auto.
Qed.

Lemma save_then_load_roundtrip_witness :
  exists w1 s1 w2,
    handle (mkRequest "POST" "/save" (sample_payload, None)) fresh_world = Some (w1, s1)
    /\ handle (mkRequest "GET" "/load" ("", None)) s1 = Some (w2, s1)
    /\ Code w2 = Some http_StatusOK
    /\ Written w2 = sample_payload
    /\ json_Unmarshal (Written w2) = (sample_notes, None).
Proof.
  destruct (handle (mkRequest "POST" "/save" (sample_payload, None)) fresh_world)
    as [[w1 s1]|] eqn:Hrun; [|vm_compute in Hrun; discriminate].
  exists w1, s1.
  assert (Hcode : Code w1 = Some http_StatusOK).
  { vm_compute in Hrun. injection Hrun as <- _. reflexivity. }
  assert (Hu : json_Unmarshal sample_payload = (sample_notes, None))
    by (vm_compute; reflexivity).
  destruct (save_then_load_roundtrip (J := GoJSON)
              (mkRequest "POST" "/save" (sample_payload, None))
              (mkRequest "GET" "/load" ("", None))
              fresh_world s1 sample_payload sample_notes w1
              Hu eq_refl eq_refl eq_refl eq_refl Hrun Hcode eq_refl eq_refl eq_refl)
    as (w2 & H).
  exists w2. split; [reflexivity|exact H].
Defined.

(** C2: for a payload [P] that does not decode as a collection of notes,
    a POST of [P] to [/save] leaves [data_readable.txt] as it was before
    the call; when the write of [data.txt] does not fail, the answer is
    status 200 with the success payload, [data.txt] holds [P] byte for
    byte, and a GET to [/load] that can read the file is answered with [P]
    as the body. *)
Theorem unparsable_payload_kept {J : EncodingJSON} (r : Request) (s : World)
    (P : string) (notes : slice Note.t) (e : error) :
  Path r = "/save" -> Method r = http_MethodPost -> Body r = (P, None) ->
  saveMutex s = false ->
  json_Unmarshal P = (notes, Some e) ->
  exists w s',
    handle r s = Some (w, s')
    /\ files s' !! "data_readable.txt" = files s !! "data_readable.txt"
    /\ (write_fault s "data.txt" = None ->
        Code w = Some http_StatusOK
        /\ Written w = json_Encode save_response
        /\ files s' !! "data.txt" = Some P
        /\ forall r' : Request,
             Path r' = "/load" -> Method r' = http_MethodGet ->
             read_fault s "data.txt" = None ->
             exists w',
               handle r' s' = Some (w', s')
               /\ Code w' = Some http_StatusOK
               /\ Written w' = P).
Proof.
  intros Hp Hm Hb Hfree Hu.
  rewrite (handle_save r s Hp), (saveHandler_POST _ r s P Hm Hb Hfree). cbv zeta.
  rewrite Hu. cbn [fst snd].
  pose proof (files_write_file_ne (set_saveMutex true s) "data.txt" P "data_readable.txt")
    as Hreadable.
  destruct (write_file (set_saveMutex true s) "data.txt" P) as [s1 [e1|]] eqn:Hw;
    cbn [fst snd] in *.
  - eexists _, _. split; [reflexivity|]. split; [by apply Hreadable|].
    intros Hnofault.
    rewrite (write_file_ok (set_saveMutex true s) "data.txt" P Hnofault) in Hw.
    discriminate Hw.
  - eexists _, _. split; [reflexivity|]. split; [by apply Hreadable|].
    intros Hnofault.
    rewrite (write_file_ok (set_saveMutex true s) "data.txt" P Hnofault) in Hw.
    injection Hw as <-.
    split; [reflexivity|]. split; [reflexivity|].
    assert (Hf : files (set_saveMutex false
                          (set_log (log (set_files (<["data.txt" := P]> (files (set_saveMutex true s)))
                                           (set_saveMutex true s))
                                    ++ ["Error parsing JSON data: " +:+ Error e])%list
                             (set_files (<["data.txt" := P]> (files (set_saveMutex true s)))
                                (set_saveMutex true s)))) !! "data.txt" = Some P)
      by apply lookup_insert_eq.
    split; [exact Hf|].
    intros r' Hp' Hm' Hr. by apply load_returns_file.
Qed.

Lemma unparsable_payload_kept_witness :
  exists w s',
    handle (mkRequest "POST" "/save" ("hello, world", None))
      (mkWorld {["data_readable.txt" := "[]"]} (fun _ => None) (fun _ => None) [] false)
    = Some (w, s')
    /\ files s' !! "data_readable.txt" = Some "[]"
    /\ Code w = Some http_StatusOK
    /\ files s' !! "data.txt" = Some "hello, world"
    /\ exists w',
         handle (mkRequest "GET" "/load" ("", None)) s' = Some (w', s')
         /\ Code w' = Some http_StatusOK
         /\ Written w' = "hello, world".
Proof.
  destruct (unparsable_payload_kept (J := GoJSON)
              (mkRequest "POST" "/save" ("hello, world", None))
              (mkWorld {["data_readable.txt" := "[]"]} (fun _ => None) (fun _ => None) [] false)
              "hello, world" None (ErrOther "invalid character in JSON input")
              eq_refl eq_refl eq_refl eq_refl eq_refl)
    as (w & s' & H1 & H2 & H3).
  destruct (H3 eq_refl) as (H4 & _ & H5 & H6).
  exists w, s'. split; [exact H1|]. split; [rewrite H2; reflexivity|].
  split; [exact H4|]. split; [exact H5|].
  exact (H6 (mkRequest "GET" "/load" ("", None)) eq_refl eq_refl eq_refl).
Defined.

(** What the bootstrap does, step by step. *)
Lemma createDefaultFilesIfNotExists_run {J : EncodingJSON} (s : World) :
  run createDefaultFilesIfNotExists s =
  match files s !! "data.txt" with
  | Some _ =>
      Some (tt, set_log (log s ++ ["data.txt already exists, skipping default file creation"])%list s)
  | None =>
      let w1 := write_file s "data.txt" (json_Marshal (Some [])).1 in
      let msg1 :=
        match w1.2 with
        | Some e => "Error creating default data.txt: " +:+ Error e
        | None => "Created default data.txt"
        end in
      let s1 := set_log (log w1.1 ++ [msg1])%list w1.1 in
      let w2 := write_file s1 "data_readable.txt" (json_MarshalIndent (Some []) "" "  ").1 in
      let msg2 :=
        match w2.2 with
        | Some e => "Error creating default data_readable.txt: " +:+ Error e
        | None => "Created default data_readable.txt"
        end in
      Some (tt, set_log (log w2.1 ++ [msg2])%list w2.1)
  end.
Proof.
  unfold createDefaultFilesIfNotExists, Stat. cbn [bind run]. unfold stat.
  destruct (files s !! "data.txt") as [data|]; [reflexivity|]. cbn [os_IsNotExist].
  destruct (json_Marshal (Some [])) as [data merr].
  destruct (json_MarshalIndent (Some []) "" "  ") as [readableData rerr].
  cbn [fst snd]. unfold WriteFile. cbn [bind run].
  destruct (write_file s "data.txt" data) as [s1 [e1|]]; cbn [fst snd bind run log_Printf log_Println];
    match goal with
    | |- context [write_file ?t "data_readable.txt" readableData] =>
        destruct (write_file t "data_readable.txt" readableData) as [s2 [e2|]]
    end; reflexivity.
Qed.

(** C7: the bootstrap always returns.  When [data.txt] is absent it writes
    the serialized empty collection to both files, each write on its own:
    [[]] to [data.txt] ([Marshal]) and [[]] to [data_readable.txt]
    ([MarshalIndent], which leaves an empty array as it is), so that a
    file whose write does not fail holds [[]] afterwards, and no other
    file changes.  When [data.txt] is there, whatever it holds and
    whether or not [data_readable.txt] exists, no file is written: the
    working directory is the same afterwards. *)
Theorem bootstrap_creates_or_skips (s : World) :
  json_Marshal (Some []) = ("[]", None)
  /\ json_MarshalIndent (Some []) "" "  " = ("[]", None)
  /\ exists s',
       run createDefaultFilesIfNotExists s = Some (tt, s')
       /\ match files s !! "data.txt" with
          | None =>
              (write_fault s "data.txt" = None -> files s' !! "data.txt" = Some "[]")
              /\ (write_fault s "data_readable.txt" = None ->
                  files s' !! "data_readable.txt" = Some "[]")
              /\ (forall f, f <> "data.txt" -> f <> "data_readable.txt" ->
                  files s' !! f = files s !! f)
          | Some _ => files s' = files s
          end.
Proof.
  assert (Hm : json_Marshal (Some []) = ("[]", None)) by reflexivity.
  assert (Hi : json_MarshalIndent (Some []) "" "  " = ("[]", None)) by reflexivity.
  split; [exact Hm|]. split; [exact Hi|].
  rewrite createDefaultFilesIfNotExists_run, Hm, Hi. cbn [fst snd].
  destruct (files s !! "data.txt") as [data|]; [eexists; split; reflexivity|].
  cbv zeta. eexists. split; [reflexivity|].
  set (w1 := write_file s "data.txt" "[]").
  set (s1 := set_log _ w1.1).
  cbn [files set_log].
  destruct (write_file_env s "data.txt" "[]") as (_ & Hwf & _). fold w1 in Hwf.
  split; [|split].
  - intros Hnf. rewrite files_write_file_ne by discriminate.
    subst s1 w1. cbn [files set_log].
    rewrite (write_file_ok s "data.txt" "[]" Hnf). apply lookup_insert_eq.
  - intros Hnf.
    assert (Hnf' : write_fault s1 "data_readable.txt" = None).
    { subst s1. cbn [write_fault set_log]. by rewrite Hwf. }
    rewrite (write_file_ok s1 "data_readable.txt" "[]" Hnf'). apply lookup_insert_eq.
  - intros f Hf1 Hf2. rewrite files_write_file_ne by congruence.
    subst s1 w1. cbn [files set_log]. by rewrite files_write_file_ne by congruence.
Qed.

(** A member whose key names no field of [Note] changes nothing. *)
Lemma set_Note_unknown (key : string) (v : json.value) (n : Note.t) :
  json.unknown_key json.Note_fields key = true -> json.set_Note key v n = inl n.
Proof.
  unfold json.unknown_key, json.Note_fields. cbn [forallb].
  rewrite !andb_true_iff, !negb_true_iff. intros (H1 & H2 & H3 & H4 & H5 & _).
  unfold json.set_Note. by rewrite H1, H2, H3, H4, H5.
Qed.

Lemma set_Content_unknown (key : string) (v : json.value) (c : Content.t) :
  json.unknown_key json.Content_fields key = true -> json.set_Content key v c = inl c.
Proof.
  unfold json.unknown_key, json.Content_fields. cbn [forallb].
  rewrite !andb_true_iff, !negb_true_iff. intros (H1 & H2 & H3 & H4 & H5 & _).
  unfold json.set_Content. by rewrite H1, H2, H3, H4, H5.
Qed.

(** Such a member can be left out of the object, wherever it stands. *)
Lemma decode_members_drop {A : Type} (set : string -> json.value -> A -> A + error)
    (key : string) (v : json.value) (before after : list (string * json.value)) (a : A) :
  (forall a', set key v a' = inl a') ->
  json.decode_members set (before ++ (key, v) :: after) a
  = json.decode_members set (before ++ after) a.
Proof.
  intros Hskip. revert a. induction before as [|[k x] before IH]; intros a; simpl.
  - by rewrite Hskip.
  - destruct (set k x a) as [a'|e]; simpl; [apply IH|reflexivity].
Qed.

(** A POST to [/save] of a payload that decodes, when neither write
    fails: [data_readable.txt] receives the bytes [MarshalIndent] returns
    for the decoded value, [data.txt] the payload. *)
Lemma save_writes_reserialization {J : EncodingJSON} (r : Request) (s : World)
    (P : string) (notes : slice Note.t) :
  Path r = "/save" -> Method r = http_MethodPost -> Body r = (P, None) ->
  saveMutex s = false ->
  json_Unmarshal P = (notes, None) ->
  write_fault s "data.txt" = None -> write_fault s "data_readable.txt" = None ->
  exists w s',
    handle r s = Some (w, s')
    /\ Code w = Some http_StatusOK
    /\ files s' !! "data_readable.txt" = Some (json_MarshalIndent notes "" "  ").1
    /\ files s' !! "data.txt" = Some P
    /\ Written w = json_Encode save_response
    /\ log s' = (log s ++ ["Data auto-saved to data.txt and data_readable.txt"])%list
    /\ saveMutex s' = false.
Proof.
  intros Hp Hm Hb Hfree Hu Hw1 Hw2.
  rewrite (handle_save r s Hp), (saveHandler_POST _ r s P Hm Hb Hfree). cbv zeta.
  rewrite (write_file_ok (set_saveMutex true s) "data.txt" P Hw1). cbn [fst snd].
  rewrite Hu. cbn [fst snd].
  set (s1 := set_files _ _).
  set (readableData := (json_MarshalIndent notes "" "  ").1).
  assert (Hw2' : write_fault s1 "data_readable.txt" = None) by exact Hw2.
  rewrite (write_file_ok s1 "data_readable.txt" readableData Hw2'). cbn [fst snd].
  eexists _, _. split; [reflexivity|]. split; [reflexivity|].
  cbn [files set_saveMutex set_log set_files].
  split; [|split; [|split; [|split]]]; try reflexivity.
  - apply lookup_insert_eq.
  - rewrite lookup_insert_ne by discriminate. subst s1. apply lookup_insert_eq.
Qed.

(** What the readable file holds after a save whose payload decodes, when
    [MarshalIndent] returns no error and both writes go through: the bytes
    [MarshalIndent] returned for the decoded value, for any codec.  For
    the codec of Go these are the decoded value written anew with an
    indent of two spaces ([payload_plain_indented] for the note of
    [payload_plain]), no reformatting of the payload: a member whose key
    names no field of [Note] (or of [Content]) does not reach the decoded
    value, wherever it stands in its object; a time is written in the
    layout of [Marshal] ([2024-01-02T03:04:05.000+00:00] comes out as
    [2024-01-02T03:04:05Z]), so that two payloads that spell the same note
    differently give the same readable file; and the payload [null]
    decodes to the nil slice, is answered with 200 and leaves [null] in
    the readable file, where the empty array would be [[]]. *)
Lemma readable_store_reserialized :
  (forall (J : EncodingJSON) (r : Request) (s : World) (P b : string) (notes : slice Note.t),
      Path r = "/save" -> Method r = http_MethodPost -> Body r = (P, None) ->
      saveMutex s = false ->
      json_Unmarshal P = (notes, None) ->
      json_MarshalIndent notes "" "  " = (b, None) ->
      write_fault s "data.txt" = None -> write_fault s "data_readable.txt" = None ->
      exists w s',
        handle r s = Some (w, s')
        /\ Code w = Some http_StatusOK
        /\ files s' !! "data_readable.txt" = Some b)
  /\ (forall key v before after,
        json.unknown_key json.Note_fields key = true ->
        json.decode_Note (json.Object (before ++ (key, v) :: after))
        = json.decode_Note (json.Object (before ++ after)))
  /\ (forall key v before after,
        json.unknown_key json.Content_fields key = true ->
        json.decode_Content (json.Object (before ++ (key, v) :: after))
        = json.decode_Content (json.Object (before ++ after)))
  /\ (json.time_Parse "2024-01-02T03:04:05.000+00:00" = Some (mkTime 2024 1 2 3 4 5 0 0)
      /\ json.format_RFC3339Nano (mkTime 2024 1 2 3 4 5 0 0) = "2024-01-02T03:04:05Z"
      /\ json_Unmarshal payload_with_extras
         = (Some [Note.mk "n1" "" None (mkTime 2024 1 2 3 4 5 0 0) time_zero], None)
      /\ json_Unmarshal payload_plain = json_Unmarshal payload_with_extras
      /\ payload_plain <> payload_with_extras
      /\ json_MarshalIndent (json_Unmarshal payload_with_extras).1 "" "  "
         = (payload_plain_indented, None))
  /\ (json_Unmarshal "null" = (None, None)
      /\ json_MarshalIndent None "" "  " = ("null", None)
      /\ json_MarshalIndent (Some []) "" "  " = ("[]", None)
      /\ forall (r : Request) (s : World),
           Path r = "/save" -> Method r = http_MethodPost -> Body r = ("null", None) ->
           saveMutex s = false ->
           write_fault s "data.txt" = None -> write_fault s "data_readable.txt" = None ->
           exists w s',
             handle r s = Some (w, s')
             /\ Code w = Some http_StatusOK
             /\ files s' !! "data_readable.txt" = Some "null").
Proof.
  split; [|split; [|split; [|split]]].
  - intros J r s P b notes Hp Hm Hb Hfree Hu Hi Hw1 Hw2.
    destruct (save_writes_reserialization r s P notes Hp Hm Hb Hfree Hu Hw1 Hw2)
      as (w & s' & H1 & H2 & H3 & _).
    rewrite Hi in H3. by exists w, s'.
  - intros key v before after Hk. unfold json.decode_Note.
    apply decode_members_drop. intros n. by apply set_Note_unknown.
  - intros key v before after Hk. unfold json.decode_Content.
    apply decode_members_drop. intros c. by apply set_Content_unknown.
  - split; [by vm_compute|]. split; [by vm_compute|]. split; [by vm_compute|].
    split; [by vm_compute|]. split; [by vm_compute|]. by vm_compute.
  - assert (Hnull : json_Unmarshal "null" = (None, None)) by (by vm_compute).
    split; [exact Hnull|]. split; [by vm_compute|]. split; [by vm_compute|].
    intros r s Hp Hm Hb Hfree Hw1 Hw2.
    destruct (save_writes_reserialization r s "null" None Hp Hm Hb Hfree Hnull Hw1 Hw2)
      as (w & s' & H1 & H2 & H3 & _).
    by exists w, s'.
Qed.

(** C10: the readable file is not always the indented rendering of the
    decoded value.  [saveHandler] drops the error of [MarshalIndent]
    ([readableData, _ := json.MarshalIndent(...)]) and writes the bytes it
    got.  The payload [payload_zone24], a note whose [createdAt] is
    [2024-01-02T03:04:05+24:00], decodes without error ([time.Parse]
    reads a zone of 24 hours), and [MarshalIndent] of the decoded value
    returns no bytes and the error of [Time.MarshalJSON] (the hour of the
    zone is outside of 0 to 23).  So every POST of this payload to
    [/save], with the mutex free and no write failing, is answered with
    200 and the success payload, puts the payload in [data.txt], leaves
    [data_readable.txt] EMPTY, and logs that the data was saved to both
    files; a rendering that an earlier save left in [data_readable.txt]
    is lost. *)
Theorem readable_store_emptied_on_marshal_error :
  json_Unmarshal payload_zone24 = (notes_zone24, None)
  /\ json_MarshalIndent notes_zone24 "" "  "
     = ("", Some (ErrOther ("json: error calling MarshalJSON for type time.Time: "
                            +:+ "Time.MarshalJSON: timezone hour outside of range [0,23]")))
  /\ (forall (r : Request) (s : World),
        Path r = "/save" -> Method r = http_MethodPost ->
        Body r = (payload_zone24, None) ->
        saveMutex s = false ->
        write_fault s "data.txt" = None -> write_fault s "data_readable.txt" = None ->
        exists w s',
          handle r s = Some (w, s')
          /\ Code w = Some http_StatusOK
          /\ Written w = json_Encode save_response
          /\ files s' !! "data.txt" = Some payload_zone24
          /\ files s' !! "data_readable.txt" = Some ""
          /\ log s' = (log s ++ ["Data auto-saved to data.txt and data_readable.txt"])%list)
  /\ (exists w s',
        handle (mkRequest "POST" "/save" (payload_zone24, None))
          (mkWorld {[ "data.txt" := payload_plain;
                      "data_readable.txt" := payload_plain_indented ]}
             (fun _ => None) (fun _ => None) [] false)
        = Some (w, s')
        /\ Code w = Some http_StatusOK
        /\ files s' !! "data.txt" = Some payload_zone24
        /\ files s' !! "data_readable.txt" = Some ""
        /\ log s' = ["Data auto-saved to data.txt and data_readable.txt"]).
Proof.
  assert (Hu : json_Unmarshal payload_zone24 = (notes_zone24, None)) by (by vm_compute).
  assert (Hi : json_MarshalIndent notes_zone24 "" "  "
               = ("", Some (ErrOther ("json: error calling MarshalJSON for type time.Time: "
                                      +:+ "Time.MarshalJSON: timezone hour outside of range [0,23]"))))
    by (by vm_compute).
  assert (Hsave : forall (r : Request) (s : World),
             Path r = "/save" -> Method r = http_MethodPost ->
             Body r = (payload_zone24, None) ->
             saveMutex s = false ->
             write_fault s "data.txt" = None -> write_fault s "data_readable.txt" = None ->
             exists w s',
               handle r s = Some (w, s')
               /\ Code w = Some http_StatusOK
               /\ Written w = json_Encode save_response
               /\ files s' !! "data.txt" = Some payload_zone24
               /\ files s' !! "data_readable.txt" = Some ""
               /\ log s' = (log s ++ ["Data auto-saved to data.txt and data_readable.txt"])%list).
  { intros r s Hp Hm Hb Hfree Hw1 Hw2.
    destruct (save_writes_reserialization r s payload_zone24 notes_zone24
                Hp Hm Hb Hfree Hu Hw1 Hw2)
      as (w & s' & H1 & H2 & H3 & H4 & H5 & H6 & _).
    rewrite Hi in H3. exists w, s'. split; [exact H1|]. split; [exact H2|].
    split; [exact H5|]. split; [exact H4|]. split; [exact H3|exact H6]. }
  split; [exact Hu|]. split; [exact Hi|]. split; [exact Hsave|].
  destruct (Hsave (mkRequest "POST" "/save" (payload_zone24, None))
              (mkWorld {[ "data.txt" := payload_plain;
                          "data_readable.txt" := payload_plain_indented ]}
                 (fun _ => None) (fun _ => None) [] false)
              eq_refl eq_refl eq_refl eq_refl eq_refl eq_refl)
    as (w & s' & H1 & H2 & _ & H4 & H5 & H6).
  exists w, s'. split; [exact H1|]. split; [exact H2|]. split; [exact H4|].
  split; [exact H5|exact H6].
Qed.

(** ** Saves at the same time *)

Lemma append_empty_r (s : string) : s +:+ "" = s.
Proof.
  induction s as [|c s IH]; [reflexivity|].
  change (String c (s +:+ "") = String c s). by rewrite IH.
Qed.

Lemma append_assoc (s1 s2 s3 : string) : (s1 +:+ s2) +:+ s3 = s1 +:+ (s2 +:+ s3).
Proof.
  induction s1 as [|c s1 IH]; [reflexivity|].
  change (String c ((s1 +:+ s2) +:+ s3) = String c (s1 +:+ (s2 +:+ s3))). by rewrite IH.
Qed.

Lemma overwrite_empty (chunk : string) : overwrite "" chunk = chunk.
Proof. induction chunk as [|c chunk IH]; simpl; [done|by rewrite IH]. Qed.

(** Writing at the end of a file appends to it. *)
Lemma write_at_end (content chunk : string) :
  write_at content (String.length content) chunk = content +:+ chunk.
Proof.
  induction content as [|c content IH]; simpl.
  - apply overwrite_empty.
  - rewrite IH. reflexivity.
Qed.

(** No operation changes what the file system lets fail. *)
Lemma thread_step_env {A : Type} (t t' : thread A) (s s' : World) (o : op) :
  thread_step t s o t' s' ->
  read_fault s' = read_fault s /\ write_fault s' = write_fault s.
Proof.
  intros H. destruct H; try done.
  by destruct (write_file_env s filename data) as (-> & -> & _).
Qed.

(** A POST whose body can be read is the taking of the mutex, the write of
    [data.txt] and a rest that leaves that file alone. *)
Lemma saveHandler_shape {J : EncodingJSON} (w : ResponseWriter) (r : Request) :
  readable_post r ->
  exists k,
    saveHandler w r = Lock (ioutil_WriteFile "data.txt" (payload r) k)
    /\ forall err, tail_ok (k err).
Proof.
  intros [Hm Hb]. unfold saveHandler, payload. rewrite Hm.
  destruct (Body r) as [body berr]. simpl in Hb. subst berr.
  eexists. split; [reflexivity|].
  intros [e|]; cbn.
  - constructor.
  - destruct (json_Unmarshal body) as [notes [e|]]; cbn.
    + repeat constructor.
    + destruct (json_MarshalIndent notes "" "  ") as [readableData rerr]. cbn.
      constructor; [discriminate|]. intros [e|]; cbn; repeat constructor.
Qed.

Lemma tail_ok_not_Ret {J : EncodingJSON} (w : ResponseWriter) : ~ tail_ok (Ret w).
Proof. intros H. inversion H. Qed.

(** One operation of a save that holds the mutex: it still holds it and
    the mutex is as before, or it has released it and returned, [data.txt]
    holding its payload. *)
Lemma holding_step {J : EncodingJSON} (P : string) (s s' : World)
    (t t' : thread ResponseWriter) (o : op) :
  write_fault s "data.txt" = None ->
  holding P s t -> thread_step t s o t' s' ->
  (holding P s' t' /\ saveMutex s' = saveMutex s)
  \/ (returned t' /\ saveMutex s' = false /\ files s' !! "data.txt" = Some P).
Proof.
  intros Hnf Hh Hstep. destruct Hh as [k Hk|written rest k HP Hf Hk|p Hp Hf|f written rest k Hne Hk Hf].
  - inversion Hstep; subst.
    + congruence.
    + left. split; [|reflexivity]. apply hold_writing; [reflexivity| |exact Hk].
      simpl. apply lookup_insert_eq.
  - inversion Hstep; subst.
    + left. split; [|reflexivity]. apply hold_writing; [|simpl|exact Hk].
      * apply append_assoc.
      * rewrite Hf. simpl. rewrite write_at_end. apply lookup_insert_eq.
    + left. split; [|reflexivity]. apply hold_after; [apply Hk|].
      by rewrite Hf, append_empty_r.
  - destruct Hp as [w|f d k Hne Hk|msg k Hk]; inversion Hstep; subst.
    + right. split; [by exists w|]. split; [reflexivity|exact Hf].
    + left. split.
      * apply hold_after; [apply Hk|]. by rewrite files_write_file_ne.
      * by destruct (write_file_env s f d) as (_ & _ & _ & ->).
    + left. split; [|reflexivity]. apply hold_other; [exact Hne|exact Hk|].
      simpl. by rewrite lookup_insert_ne.
    + left. split; [|reflexivity]. by apply hold_after.
  - inversion Hstep; subst.
    + left. split; [|reflexivity]. apply hold_other; [exact Hne|exact Hk|].
      simpl. by rewrite lookup_insert_ne.
    + left. split; [|reflexivity]. apply hold_after; [apply Hk|exact Hf].
Qed.

Section SavesAtOnce.
Context {J : EncodingJSON}.
Local Open Scope list_scope.

(** What holds of a save that does not hold the mutex does not depend on
    the files. *)
Lemma thread_inv_other (r : Request) (s s' : World) (t : thread ResponseWriter) (ph : phase) :
  ph <> Holding -> thread_inv r s t ph -> thread_inv r s' t ph.
Proof. by destruct ph. Qed.

(** One more operation of the goroutine that is last in the order. *)
Lemma in_blocks_extend (order : list nat) (tr : list (nat * op)) (i : nat) (o : op) :
  in_blocks order tr -> last order = Some i -> in_blocks order (tr ++ [(i, o)]).
Proof.
  intros (blocks & Hb & ->) Hlast.
  apply last_Some in Hlast as [order' ->].
  apply Forall2_app_inv_l in Hb as (blocks' & bs & Hb' & Hbs & ->).
  inversion Hbs as [|? b ? bs' [Hne Hall] Hnil]; subst. inversion Hnil; subst.
  exists (blocks' ++ [b ++ [(i, o)]]). split.
  - apply Forall2_app; [exact Hb'|]. constructor; [|constructor]. split.
    + by destruct b.
    + apply Forall_app. split; [exact Hall|]. by constructor.
  - rewrite !concat_app. simpl. by rewrite !app_nil_r, app_assoc.
Qed.

(** A save that takes the mutex starts a new stretch. *)
Lemma in_blocks_snoc (order : list nat) (tr : list (nat * op)) (i : nat) (o : op) :
  in_blocks order tr -> in_blocks (order ++ [i]) (tr ++ [(i, o)]).
Proof.
  intros (blocks & Hb & ->). exists (blocks ++ [[(i, o)]]). split.
  - apply Forall2_app; [exact Hb|]. constructor; [|constructor]. split; [done|].
    by constructor.
  - rewrite concat_app. simpl. reflexivity.
Qed.

(** Before any operation. *)
Lemma save_inv_init (reqs : list Request) (s : World) :
  write_fault s "data.txt" = None -> saveMutex s = false ->
  save_inv reqs ((fun r => Running (saveHandler NewResponse r)) <$> reqs) s []
    (fun _ => Waiting) [].
Proof.
  intros Hnf Hfree. constructor; try done.
  - by rewrite length_fmap.
  - intros i r t Hr Ht. rewrite list_lookup_fmap, Hr in Ht. simpl in Ht.
    injection Ht as <-. reflexivity.
  - rewrite Hfree. split; [done|]. by intros [i Hi].
  - constructor.
  - intros i. rewrite elem_of_nil. tauto.
  - exists []. split; [constructor|reflexivity].
Qed.

(** Every operation keeps it. *)
Lemma save_inv_step (reqs : list Request) (ts ts' : list (thread ResponseWriter))
    (s s' : World) (tr : list (nat * op)) (l : nat * op) (ph : nat -> phase)
    (order : list nat) :
  Forall readable_post reqs ->
  save_inv reqs ts s tr ph order ->
  step (ts, s) l (ts', s') ->
  exists ph' order', save_inv reqs ts' s' (tr ++ [l]) ph' order'.
Proof.
  intros Hreqs Hinv Hstep.
  inversion Hstep as [ts0 s0 s0' i o t t' Hlook Hts]; subst. clear Hstep.
  pose proof (lookup_lt_Some _ _ _ Hlook) as Hlt.
  assert (Hr : exists r, reqs !! i = Some r).
  { apply lookup_lt_is_Some_2. by rewrite <- (inv_length _ _ _ _ _ _ Hinv). }
  destruct Hr as [r Hr].
  pose proof (Forall_lookup_1 _ _ _ _ Hreqs Hr) as Hpost.
  pose proof (inv_threads _ _ _ _ _ _ Hinv i r t Hr Hlook) as Hti.
  destruct (thread_step_env _ _ _ _ _ Hts) as [_ Hwf].
  destruct (ph i) eqn:Hph; simpl in Hti.
  - (* the save takes the mutex *)
    destruct (saveHandler_shape NewResponse r Hpost) as (k & Hshape & Hk).
    rewrite Hshape in Hti. subst t. inversion Hts as [k0 s0 Hfree| | | | | | | |]; subst.
    assert (Hnone : forall j, ph j <> Holding).
    { intros j Hj. assert (saveMutex s = true) by (apply (inv_mutex _ _ _ _ _ _ Hinv); eauto).
      congruence. }
    exists (fun j => if decide (j = i) then Holding else ph j), (order ++ [i]).
    constructor.
    + exact (inv_fault _ _ _ _ _ _ Hinv).
    + rewrite length_insert. exact (inv_length _ _ _ _ _ _ Hinv).
    + intros j rj tj Hrj Htj. case_decide as Hj.
      * subst j. rewrite list_lookup_insert_eq in Htj by exact Hlt.
        injection Htj as <-. rewrite Hr in Hrj. injection Hrj as <-.
        simpl. by apply hold_before.
      * rewrite list_lookup_insert_ne in Htj by done.
        apply (thread_inv_other _ s); [apply Hnone|].
        exact (inv_threads _ _ _ _ _ _ Hinv j rj tj Hrj Htj).
    + intros j Hj. case_decide; [subst j|exact (inv_bound _ _ _ _ _ _ Hinv j Hj)].
      rewrite <- (inv_length _ _ _ _ _ _ Hinv). exact Hlt.
    + intros a b Ha Hb. repeat case_decide; subst; try done; by destruct (Hnone _ Ha) || by destruct (Hnone _ Hb).
    + split; [intros _; exists i; by rewrite decide_True|done].
    + apply NoDup_app. split; [exact (inv_nodup _ _ _ _ _ _ Hinv)|]. split; [|apply NoDup_singleton].
      intros x Hx Hxi. apply list_elem_of_singleton in Hxi. subst x.
      by apply (inv_order _ _ _ _ _ _ Hinv) in Hx.
    + intros j. rewrite elem_of_app, list_elem_of_singleton, (inv_order _ _ _ _ _ _ Hinv j).
      case_decide; [split; [done|tauto]|tauto].
    + intros j Hj. case_decide; [subst; apply last_snoc|by destruct (Hnone j)].
    + apply in_blocks_snoc. exact (inv_trace _ _ _ _ _ _ Hinv).
    + done.
  - (* the save holds the mutex *)
    assert (Hothers : forall j, j <> i -> ph j <> Holding).
    { intros j Hj Hjh. apply Hj. exact (inv_excl _ _ _ _ _ _ Hinv j i Hjh Hph). }
    assert (Hheld : saveMutex s = true) by (apply (inv_mutex _ _ _ _ _ _ Hinv); eauto).
    pose proof (inv_last _ _ _ _ _ _ Hinv i Hph) as Hlast.
    destruct (holding_step _ _ _ _ _ _ (inv_fault _ _ _ _ _ _ Hinv) Hti Hts)
      as [[Hh Hmx]|(Hret & Hmx & Hf)].
    + exists ph, order. constructor.
      * rewrite Hwf. exact (inv_fault _ _ _ _ _ _ Hinv).
      * rewrite length_insert. exact (inv_length _ _ _ _ _ _ Hinv).
      * intros j rj tj Hrj Htj. destruct (decide (j = i)) as [->|Hj].
        -- rewrite list_lookup_insert_eq in Htj by exact Hlt.
           injection Htj as <-. rewrite Hr in Hrj. injection Hrj as <-.
           rewrite Hph. exact Hh.
        -- rewrite list_lookup_insert_ne in Htj by done.
           apply (thread_inv_other _ s); [by apply Hothers|].
           exact (inv_threads _ _ _ _ _ _ Hinv j rj tj Hrj Htj).
      * exact (inv_bound _ _ _ _ _ _ Hinv).
      * exact (inv_excl _ _ _ _ _ _ Hinv).
      * rewrite Hmx. exact (inv_mutex _ _ _ _ _ _ Hinv).
      * exact (inv_nodup _ _ _ _ _ _ Hinv).
      * exact (inv_order _ _ _ _ _ _ Hinv).
      * exact (inv_last _ _ _ _ _ _ Hinv).
      * apply in_blocks_extend; [exact (inv_trace _ _ _ _ _ _ Hinv)|exact Hlast].
      * intros Hfree. congruence.
    + exists (fun j => if decide (j = i) then Done else ph j), order. constructor.
      * rewrite Hwf. exact (inv_fault _ _ _ _ _ _ Hinv).
      * rewrite length_insert. exact (inv_length _ _ _ _ _ _ Hinv).
      * intros j rj tj Hrj Htj. case_decide as Hj.
        -- subst j. rewrite list_lookup_insert_eq in Htj by exact Hlt.
           injection Htj as <-. exact Hret.
        -- rewrite list_lookup_insert_ne in Htj by done.
           apply (thread_inv_other _ s); [by apply Hothers|].
           exact (inv_threads _ _ _ _ _ _ Hinv j rj tj Hrj Htj).
      * intros j Hj. case_decide; [subst j|exact (inv_bound _ _ _ _ _ _ Hinv j Hj)].
        rewrite <- (inv_length _ _ _ _ _ _ Hinv). exact Hlt.
      * intros a b Ha Hb. repeat case_decide; try done.
        exact (inv_excl _ _ _ _ _ _ Hinv a b Ha Hb).
      * rewrite Hmx. split; [done|]. intros [j Hj]. case_decide; [done|].
        by destruct (Hothers j).
      * exact (inv_nodup _ _ _ _ _ _ Hinv).
      * intros j. rewrite (inv_order _ _ _ _ _ _ Hinv j).
        case_decide; [subst; rewrite Hph; split; done|tauto].
      * intros j Hj. case_decide; [done|]. by destruct (Hothers j).
      * apply in_blocks_extend; [exact (inv_trace _ _ _ _ _ _ Hinv)|exact Hlast].
      * intros _ j rj Hj Hrj. rewrite Hlast in Hj. injection Hj as <-.
        rewrite Hr in Hrj. injection Hrj as <-. exact Hf.
  - (* the save has returned *)
    destruct Hti as [w ->]. inversion Hts.
Qed.

(** It holds after every execution of the saves of [reqs]. *)
Lemma save_inv_steps (reqs : list Request) (s0 : World)
    (c : list (thread ResponseWriter) * World) (tr : list (nat * op)) :
  Forall readable_post reqs ->
  write_fault s0 "data.txt" = None -> saveMutex s0 = false ->
  steps ((fun r => Running (saveHandler NewResponse r)) <$> reqs, s0) tr c ->
  exists ph order, save_inv reqs c.1 c.2 tr ph order.
Proof.
  intros Hreqs Hnf Hfree Hsteps.
  remember ((fun r => Running (saveHandler NewResponse r)) <$> reqs, s0) as c0 eqn:Hc0.
  induction Hsteps as [c|c c' c'' tr l Hsteps IH Hstep].
  - subst c. exists (fun _ => Waiting), []. by apply save_inv_init.
  - destruct (IH Hc0) as (ph & order & Hinv).
    destruct c' as [ts' s'], c'' as [ts'' s'']. simpl in *.
    exact (save_inv_step reqs ts' ts'' s' s'' tr l ph order Hreqs Hinv Hstep).
Qed.

End SavesAtOnce.

(** ** One handler at a time is one of the executions *)

Section Executions.
Context {A : Type}.
Local Open Scope list_scope.

Lemma steps_one (c c' : list (thread A) * World) (l : nat * op) :
  step c l c' -> steps c [l] c'.
Proof. intros H. exact (steps_snoc c c c' [] l (steps_nil c) H). Qed.

Lemma steps_app (c c' c'' : list (thread A) * World) (tr tr' : list (nat * op)) :
  steps c tr c' -> steps c' tr' c'' -> steps c (tr ++ tr') c''.
Proof.
  intros H1 H2. induction H2 as [c'|c' d d' tr' l H2 IH Hstep].
  - by rewrite app_nil_r.
  - rewrite app_assoc. eapply steps_snoc; [by apply IH|exact Hstep].
Qed.

Lemma steps_cons (c c' c'' : list (thread A) * World) (l : nat * op) (tr : list (nat * op)) :
  step c l c' -> steps c' tr c'' -> steps c (l :: tr) c''.
Proof. intros H1 H2. exact (steps_app c c' c'' [l] tr (steps_one c c' l H1) H2). Qed.

(** A [WriteFile] that does not fail, as the opening, the writing of the
    data in one piece and the closing. *)
Lemma steps_WriteFile (ts : list (thread A)) (i : nat) (s : World) (filename data : string)
    (k : option error -> io A) :
  ts !! i = Some (Running (ioutil_WriteFile filename data k)) ->
  write_fault s filename = None ->
  exists tr,
    steps (ts, s) tr
      (<[i := Running (k None)]> ts, set_files (<[filename := data]> (files s)) s)
    /\ Forall (fun l => l.1 = i) tr.
Proof.
  intros Hlook Hnf.
  pose proof (lookup_lt_Some _ _ _ Hlook) as Hlt.
  assert (Hopen : step (ts, s) (i, OpOpen filename)
            (<[i := Writing filename "" data k]> ts,
             set_files (<[filename := ""]> (files s)) s)).
  { eapply step_thread; [exact Hlook|]. by apply step_Open. }
  destruct data as [|c data].
  - exists [(i, OpOpen filename); (i, OpClose filename)]. split; [|by repeat constructor].
    eapply steps_cons; [exact Hopen|]. apply steps_one.
    replace (<[i := Running (k None)]> ts)
      with (<[i := Running (k None)]> (<[i := Writing filename "" "" k]> ts))
      by apply list_insert_insert_eq.
    eapply step_thread; [by apply list_lookup_insert_eq|]. apply step_Close.
  - set (d := String c data).
    exists [(i, OpOpen filename); (i, OpChunk filename d); (i, OpClose filename)].
    split; [|by repeat constructor].
    eapply steps_cons; [exact Hopen|].
    eapply steps_cons.
    + eapply step_thread; [by apply list_lookup_insert_eq|].
      pose proof (step_Chunk filename "" d "" k
                    (set_files (<[filename := ""]> (files s)) s)) as Hchunk.
      rewrite append_empty_r in Hchunk. apply Hchunk. discriminate.
    + apply steps_one. rewrite list_insert_insert_eq.
      replace (<[i := Running (k None)]> ts)
        with (<[i := Running (k None)]> (<[i := Writing filename ("" +:+ d) "" k]> ts))
        by apply list_insert_insert_eq.
      replace (set_files (<[filename := d]> (files s)) s)
        with (set_files
                (<[filename := write_at
                     (default "" (files (set_files (<[filename := ""]> (files s)) s) !! filename))
                     (String.length "") d]>
                   (files (set_files (<[filename := ""]> (files s)) s)))
                (set_files (<[filename := ""]> (files s)) s)).
      * eapply step_thread; [by apply list_lookup_insert_eq|]. apply step_Close.
      * cbn [files set_files]. rewrite lookup_insert_eq. cbn [default String.length write_at].
        rewrite overwrite_empty, insert_insert_eq. reflexivity.
Qed.

(** What [run] computes for the program of a goroutine is reached by
    operations of that goroutine alone. *)
Lemma run_steps (p : io A) (s s' : World) (a : A) (ts : list (thread A)) (i : nat) :
  run p s = Some (a, s') ->
  ts !! i = Some (Running p) ->
  exists tr,
    steps (ts, s) tr (<[i := Running (Ret a)]> ts, s')
    /\ Forall (fun l => l.1 = i) tr.
Proof.
  revert s ts.
  induction p as [a0|k IH|k IH|name k IH|filename k IH|filename data k IH|msg k IH];
    intros s ts Hrun Hlook; simpl in Hrun;
    pose proof (lookup_lt_Some _ _ _ Hlook) as Hlt.
  - injection Hrun as <- <-. exists []. split; [|constructor].
    rewrite list_insert_id by exact Hlook. constructor.
  - destruct (saveMutex s) eqn:Hfree; [discriminate|].
    destruct (IH _ (<[i := Running k]> ts) Hrun) as (tr & Hsteps & Hall);
      [by apply list_lookup_insert_eq|].
    rewrite list_insert_insert_eq in Hsteps.
    exists ((i, OpLock) :: tr). split; [|by constructor].
    eapply steps_cons; [|exact Hsteps].
    eapply step_thread; [exact Hlook|]. by apply step_Lock.
  - destruct (IH _ (<[i := Running k]> ts) Hrun) as (tr & Hsteps & Hall);
      [by apply list_lookup_insert_eq|].
    rewrite list_insert_insert_eq in Hsteps.
    exists ((i, OpUnlock) :: tr). split; [|by constructor].
    eapply steps_cons; [|exact Hsteps].
    eapply step_thread; [exact Hlook|]. apply step_Unlock.
  - destruct (IH _ _ (<[i := Running (k (stat s name))]> ts) Hrun) as (tr & Hsteps & Hall);
      [by apply list_lookup_insert_eq|].
    rewrite list_insert_insert_eq in Hsteps.
    exists ((i, OpStat name) :: tr). split; [|by constructor].
    eapply steps_cons; [|exact Hsteps].
    eapply step_thread; [exact Hlook|]. apply step_Stat.
  - destruct (IH _ _ (<[i := Running (k (read_file s filename))]> ts) Hrun)
      as (tr & Hsteps & Hall); [by apply list_lookup_insert_eq|].
    rewrite list_insert_insert_eq in Hsteps.
    exists ((i, OpRead filename) :: tr). split; [|by constructor].
    eapply steps_cons; [|exact Hsteps].
    eapply step_thread; [exact Hlook|]. apply step_Read.
  - destruct (write_fault s filename) as [fault|] eqn:Hnf.
    + destruct (write_file s filename data) as [s1 err] eqn:Hw.
      destruct (IH _ _ (<[i := Running (k err)]> ts) Hrun) as (tr & Hsteps & Hall);
        [by apply list_lookup_insert_eq|].
      rewrite list_insert_insert_eq in Hsteps.
      exists ((i, OpFail filename) :: tr). split; [|by constructor].
      eapply steps_cons; [|exact Hsteps].
      replace s1 with (write_file s filename data).1 by (by rewrite Hw).
      replace err with (write_file s filename data).2 by (by rewrite Hw).
      eapply step_thread; [exact Hlook|]. apply step_Fail. by rewrite Hnf.
    + rewrite (write_file_ok s filename data Hnf) in Hrun.
      destruct (steps_WriteFile ts i s filename data k Hlook Hnf) as (tr1 & Hsteps1 & Hall1).
      destruct (IH _ _ (<[i := Running (k None)]> ts) Hrun) as (tr & Hsteps & Hall);
        [by apply list_lookup_insert_eq|].
      rewrite list_insert_insert_eq in Hsteps.
      exists (tr1 ++ tr). split; [|by apply Forall_app].
      eapply steps_app; [exact Hsteps1|exact Hsteps].
  - destruct (IH _ (<[i := Running k]> ts) Hrun) as (tr & Hsteps & Hall);
      [by apply list_lookup_insert_eq|].
    rewrite list_insert_insert_eq in Hsteps.
    exists ((i, OpLog msg) :: tr). split; [|by constructor].
    eapply steps_cons; [|exact Hsteps].
    eapply step_thread; [exact Hlook|]. apply step_Log.
Qed.

End Executions.

Section TwoSaves.
Context {J : EncodingJSON}.
Local Open Scope list_scope.

(** A save that has returned is in its last phase. *)
Lemma returned_Done (r : Request) (s : World) (t : thread ResponseWriter) (ph : phase) :
  readable_post r -> thread_inv r s t ph -> returned t -> ph = Done.
Proof.
  intros Hpost Hinv [w ->]. destruct ph; [| |reflexivity]; simpl in Hinv.
  - destruct (saveHandler_shape NewResponse r Hpost) as (k & Hshape & _).
    rewrite Hshape in Hinv. discriminate.
  - inversion Hinv as [| |p Hp Hf|]; subst. by apply tail_ok_not_Ret in Hp.
Qed.

(** The last operation is one of the save that took the mutex last. *)
Lemma in_blocks_last (order : list nat) (tr : list (nat * op)) (i : nat) (o : op) :
  in_blocks order tr -> last tr = Some (i, o) -> last order = Some i.
Proof.
  intros (blocks & Hb & ->) Hlast.
  destruct (Forall2_length _ _ _ Hb).
  induction Hb as [|j b order blocks [Hne Hall] Hb IH] using Forall2_ind; [done|].
  simpl in Hlast. destruct blocks as [|b' blocks].
  - inversion Hb; subst. simpl in Hlast. rewrite app_nil_r in Hlast.
    apply last_Some_elem_of in Hlast.
    rewrite Forall_forall in Hall. apply Hall in Hlast. simpl in Hlast. by subst.
  - inversion Hb as [|j' ? order' ? [Hne' _] Hb']; subst.
    rewrite last_app in Hlast.
    assert (Hsome : is_Some (last (concat (b' :: blocks)))).
    { clear -Hne' Hb'. simpl. rewrite last_app.
      destruct (last (concat blocks)); [eauto|].
      destruct b' as [|x b'] using rev_ind; [done|]. rewrite last_snoc. eauto. }
    destruct Hsome as [x Hx]. rewrite Hx in Hlast. injection Hlast as ->.
    rewrite last_cons. rewrite (IH Hx). reflexivity.
Qed.

(** With two saves the operations of one come before those of the other. *)
Lemma in_blocks_serial (order : list nat) (tr : list (nat * op)) :
  in_blocks order tr -> NoDup order -> (forall i, i ∈ order -> (i < 2)%nat) -> serial tr.
Proof.
  intros (blocks & Hb & ->) Hnd Hlt.
  destruct order as [|a [|b [|c order]]].
  - inversion Hb; subst. exists 0%nat, 1%nat, [], []. by repeat split.
  - inversion Hb as [|? b1 ? ? [_ H1] Hb']; subst. inversion Hb'; subst.
    exists a, (S a), b1, []. simpl. repeat split; [lia|exact H1|constructor].
  - inversion Hb as [|? b1 ? ? [_ H1] Hb']; subst.
    inversion Hb' as [|? b2 ? ? [_ H2] Hb'']; subst. inversion Hb''; subst.
    exists a, b, b1, b2. simpl. rewrite app_nil_r. repeat split; try done.
    apply NoDup_cons in Hnd as [Hab _]. intros ->. apply Hab. by left.
  - exfalso.
    assert (a < 2)%nat by (apply Hlt; set_solver).
    assert (b < 2)%nat by (apply Hlt; set_solver).
    assert (c < 2)%nat by (apply Hlt; set_solver).
    apply NoDup_cons in Hnd as [Ha Hnd]. apply NoDup_cons in Hnd as [Hb' _].
    assert (a <> b) by set_solver. assert (a <> c) by set_solver.
    assert (b <> c) by set_solver. lia.
Qed.

End TwoSaves.

(** C9: two POSTs to [/save] whose bodies can be read, handled at the same
    time in any interleaving of their operations, the mutex free at the
    start and the write of [data.txt] not failing.  In every state that is
    reached one of the two has not taken the mutex yet or has returned (at
    most one executes at a time); all operations of one save come before
    all operations of the other (the saves are ordered); and when both
    have returned, [data.txt] holds the payload of one of them in full:
    that of the save whose operation was the last. *)
Theorem concurrent_saves_serialized {J : EncodingJSON} (r1 r2 : Request) (s0 s : World)
    (tr : list (nat * op)) (ts : list (thread ResponseWriter)) :
  readable_post r1 -> readable_post r2 ->
  saveMutex s0 = false -> write_fault s0 "data.txt" = None ->
  steps ([Running (saveHandler NewResponse r1); Running (saveHandler NewResponse r2)], s0)
    tr (ts, s) ->
  exists t1 t2,
    ts = [t1; t2]
    /\ (t1 = Running (saveHandler NewResponse r1) \/ returned t1
        \/ t2 = Running (saveHandler NewResponse r2) \/ returned t2)
    /\ serial tr
    /\ (returned t1 -> returned t2 ->
        (files s !! "data.txt" = Some (payload r1)
         \/ files s !! "data.txt" = Some (payload r2))
        /\ forall i o, last tr = Some (i, o) ->
             files s !! "data.txt" = Some (payload (if decide (i = 0%nat) then r1 else r2))).
Proof.
  intros Hp1 Hp2 Hfree Hnf Hsteps.
  assert (Hreqs : Forall readable_post [r1; r2]).
  { constructor; [exact Hp1|]. constructor; [exact Hp2|constructor]. }
  destruct (save_inv_steps [r1; r2] s0 (ts, s) tr Hreqs Hnf Hfree Hsteps)
    as (ph & order & Hinv). simpl in Hinv.
  pose proof (inv_length _ _ _ _ _ _ Hinv) as Hlen.
  destruct ts as [|t1 [|t2 [|t3 ts]]]; try discriminate Hlen. clear Hlen.
  pose proof (inv_threads _ _ _ _ _ _ Hinv 0%nat r1 t1 eq_refl eq_refl) as Ht1.
  pose proof (inv_threads _ _ _ _ _ _ Hinv 1%nat r2 t2 eq_refl eq_refl) as Ht2.
  assert (Hbound : forall i, i ∈ order -> (i < 2)%nat).
  { intros i Hi. apply (inv_bound _ _ _ _ _ _ Hinv). by apply (inv_order _ _ _ _ _ _ Hinv). }
  assert (Hfile : forall i, last order = Some i -> saveMutex s = false ->
            files s !! "data.txt" = Some (payload (if decide (i = 0%nat) then r1 else r2))).
  { intros i Hlast Hfree'.
    pose proof (Hbound i (last_Some_elem_of _ _ Hlast)) as Hi.
    apply (inv_file _ _ _ _ _ _ Hinv Hfree' i); [exact Hlast|].
    destruct i as [|[|i]]; [reflexivity|reflexivity|lia]. }
  exists t1, t2. split; [reflexivity|]. split; [|split].
  - destruct (ph 0%nat) eqn:Hph0; simpl in Ht1.
    + left. exact Ht1.
    + destruct (ph 1%nat) eqn:Hph1; simpl in Ht2.
      * right. right. left. exact Ht2.
      * pose proof (inv_excl _ _ _ _ _ _ Hinv 0%nat 1%nat Hph0 Hph1). discriminate.
      * right. right. right. exact Ht2.
    + right. left. exact Ht1.
  - apply (in_blocks_serial order);
      [exact (inv_trace _ _ _ _ _ _ Hinv)|exact (inv_nodup _ _ _ _ _ _ Hinv)|exact Hbound].
  - intros Hr1 Hr2.
    pose proof (returned_Done r1 s t1 _ Hp1 Ht1 Hr1) as Hd1.
    pose proof (returned_Done r2 s t2 _ Hp2 Ht2 Hr2) as Hd2.
    assert (Hfree' : saveMutex s = false).
    { destruct (saveMutex s) eqn:Hm; [|reflexivity].
      apply (inv_mutex _ _ _ _ _ _ Hinv) in Hm as [i Hi].
      assert (i < 2)%nat as Hlt by (apply (inv_bound _ _ _ _ _ _ Hinv); congruence).
      destruct i as [|[|i]]; [congruence|congruence|lia]. }
    split.
    + assert (H0 : (0%nat) ∈ order) by (apply (inv_order _ _ _ _ _ _ Hinv); congruence).
      destruct (last order) as [i|] eqn:Hlast.
      * specialize (Hfile i eq_refl Hfree'). case_decide; [by left|by right].
      * apply last_None in Hlast. subst order. by apply elem_of_nil in H0.
    + intros i o Hlast. apply Hfile; [|exact Hfree'].
      exact (in_blocks_last order tr i o (inv_trace _ _ _ _ _ _ Hinv) Hlast).
Qed.

Lemma concurrent_saves_serialized_witness :
  exists (tr : list (nat * op)) (ts : list (thread ResponseWriter)) (s : World)
         (t1 t2 : thread ResponseWriter),
    steps ([Running (saveHandler NewResponse (mkRequest "POST" "/save" ("first", None)));
            Running (saveHandler NewResponse (mkRequest "POST" "/save" ("[]", None)))],
           fresh_world) tr (ts, s)
    /\ returned t1 /\ returned t2
    /\ ts = [t1; t2]
    /\ (t1 = Running (saveHandler NewResponse (mkRequest "POST" "/save" ("first", None)))
        \/ returned t1
        \/ t2 = Running (saveHandler NewResponse (mkRequest "POST" "/save" ("[]", None)))
        \/ returned t2)
    /\ serial tr
    /\ (returned t1 -> returned t2 ->
        (files s !! "data.txt" = Some "first" \/ files s !! "data.txt" = Some "[]")
        /\ forall i o, last tr = Some (i, o) ->
             files s !! "data.txt"
             = Some (payload (if decide (i = 0%nat)
                              then mkRequest "POST" "/save" ("first", None)
                              else mkRequest "POST" "/save" ("[]", None)))).
Proof.
  set (ra := mkRequest "POST" "/save" ("first", None)).
  set (rb := mkRequest "POST" "/save" ("[]", None)).
  destruct (run (saveHandler NewResponse ra) fresh_world) as [[w1 s1]|] eqn:H1;
    [|vm_compute in H1; discriminate].
  destruct (run_steps _ _ _ _ [Running (saveHandler NewResponse ra);
                               Running (saveHandler NewResponse rb)] 0%nat H1 eq_refl)
    as (tr1 & Hs1 & _).
  assert (Hm : saveMutex s1 = false).
  { vm_compute in H1. injection H1 as _ <-. reflexivity. }
  assert (Hw : write_fault s1 "data.txt" = None).
  { vm_compute in H1. injection H1 as _ <-. reflexivity. }
  assert (Hw' : write_fault s1 "data_readable.txt" = None).
  { vm_compute in H1. injection H1 as _ <-. reflexivity. }
  destruct (save_writes_reserialization (J := GoJSON) rb s1 "[]" (Some [])
              eq_refl eq_refl eq_refl Hm eq_refl Hw Hw') as (w2 & s2 & H2 & _).
  rewrite (handle_save rb s1 eq_refl) in H2.
  change (<[0%nat := Running (Ret w1)]>
            [Running (saveHandler NewResponse ra); Running (saveHandler NewResponse rb)])
    with [Running (Ret w1); Running (saveHandler NewResponse rb)] in Hs1.
  destruct (run_steps _ _ _ _ [Running (Ret w1); Running (saveHandler NewResponse rb)]
              1%nat H2 (eq_refl (Some (Running (saveHandler NewResponse rb)))))
    as (tr2 & Hs2 & _).
  change (<[1%nat := Running (Ret w2)]>
            [Running (Ret w1); Running (saveHandler NewResponse rb)])
    with [Running (Ret w1); Running (Ret w2)] in Hs2.
  pose proof (steps_app _ _ _ _ _ Hs1 Hs2) as Hsteps.
  exists (tr1 ++ tr2)%list, [Running (Ret w1); Running (Ret w2)], s2,
    (Running (Ret w1)), (Running (Ret w2)).
  split; [exact Hsteps|]. split; [by exists w1|]. split; [by exists w2|].
  destruct (concurrent_saves_serialized (J := GoJSON) ra rb fresh_world s2
              (tr1 ++ tr2)%list [Running (Ret w1); Running (Ret w2)]
              (conj eq_refl eq_refl) (conj eq_refl eq_refl) eq_refl eq_refl Hsteps)
    as (t1 & t2 & Hts & H).
  injection Hts as <- <-. split; [reflexivity|exact H].
Defined.

(** * Further properties of the handlers *)

Lemma unlock_after_lock (s : World) :
  saveMutex s = false -> set_saveMutex false (set_saveMutex true s) = s.
Proof. destruct s as [f rf wf l m]. simpl. by intros ->. Qed.

(** A POST to [/save] whose body cannot be read, the mutex free. *)
Lemma saveHandler_unreadable {J : EncodingJSON} (w : ResponseWriter) (r : Request) (s : World)
    (b : string) (e : error) :
  Method r = http_MethodPost -> Body r = (b, Some e) -> saveMutex s = false ->
  run (saveHandler w r) s
  = Some (http_Error w "Error reading request body" http_StatusBadRequest, s).
Proof.
  intros Hm Hb Hfree. unfold saveHandler. rewrite Hm. simpl String.eqb. simpl negb.
  cbv iota. unfold saveMutex_Lock, defer_Unlock. rewrite Hb.
  unfold ioutil_ReadAll. simpl. rewrite Hfree. by rewrite unlock_after_lock.
Qed.

(** A POST to [/save] waits as long as the mutex is held. *)
Lemma saveHandler_held {J : EncodingJSON} (w : ResponseWriter) (r : Request) (s : World) :
  Method r = http_MethodPost -> saveMutex s = true -> run (saveHandler w r) s = None.
Proof.
  intros Hm Hheld. unfold saveHandler. rewrite Hm. simpl String.eqb. simpl negb.
  cbv iota. unfold saveMutex_Lock. rewrite run_bind. simpl. by rewrite Hheld.
Qed.

(** X1: a POST to [/save] whose body cannot be read is answered with
    status 400; no file is touched, nothing is logged and the mutex is
    free again: the surroundings are the same afterwards. *)
Theorem save_unreadable_body {J : EncodingJSON} (r : Request) (s : World)
    (b : string) (e : error) :
  Path r = "/save" -> Method r = http_MethodPost -> Body r = (b, Some e) ->
  saveMutex s = false ->
  exists w,
    handle r s = Some (w, s)
    /\ Code w = Some http_StatusBadRequest
    /\ Written w = "Error reading request body" +:+ LF.
Proof.
  intros Hp Hm Hb Hfree.
  rewrite (handle_save r s Hp), (saveHandler_unreadable _ r s b e Hm Hb Hfree).
  eexists. split; [reflexivity|]. split; reflexivity.
Qed.

Lemma save_unreadable_body_witness :
  exists w,
    handle (mkRequest "POST" "/save" ("[{", Some (ErrOther "unexpected EOF")))
      (mkWorld {["data.txt" := "[]"]} (fun _ => None) (fun _ => None) [] false)
    = Some (w, mkWorld {["data.txt" := "[]"]} (fun _ => None) (fun _ => None) [] false)
    /\ Code w = Some http_StatusBadRequest
    /\ Written w = "Error reading request body" +:+ LF.
Proof.
  exact (save_unreadable_body (J := GoJSON)
           (mkRequest "POST" "/save" ("[{", Some (ErrOther "unexpected EOF")))
           (mkWorld {["data.txt" := "[]"]} (fun _ => None) (fun _ => None) [] false)
           "[{" (ErrOther "unexpected EOF") eq_refl eq_refl eq_refl eq_refl).
Defined.

(** X2: the status of the answer to a POST to [/save] is decided by two
    things only: 400 when the body cannot be read, else 500 when the write
    of [data.txt] fails, else 200.  Neither the payload (JSON or not) nor
    the write of [data_readable.txt] has a part in it.  The content type
    is [application/json] with 200 and plain text with the errors. *)
Theorem save_status_by_cause {J : EncodingJSON} (r : Request) (s : World) :
  Path r = "/save" -> Method r = http_MethodPost -> saveMutex s = false ->
  exists w s',
    handle r s = Some (w, s')
    /\ Code w = Some (match (Body r).2, write_fault s "data.txt" with
                      | Some _, _ => http_StatusBadRequest
                      | None, Some _ => http_StatusInternalServerError
                      | None, None => http_StatusOK
                      end)
    /\ Header w !! "Content-Type"
       = Some (match (Body r).2, write_fault s "data.txt" with
               | None, None => "application/json"
               | _, _ => "text/plain; charset=utf-8"
               end).
Proof.
  intros Hp Hm Hfree. rewrite (handle_save r s Hp).
  destruct (Body r) as [P [e|]] eqn:Hb; cbn [snd].
  - rewrite (saveHandler_unreadable _ r s P e Hm Hb Hfree).
    eexists _, _. split; [reflexivity|]. split; [reflexivity|by vm_compute].
  - rewrite (saveHandler_POST _ r s P Hm Hb Hfree). cbv zeta.
    destruct (write_fault s "data.txt") as [[msg rest]|] eqn:Hw.
    + rewrite (write_file_fault (set_saveMutex true s) "data.txt" P msg rest Hw).
      eexists _, _. split; [reflexivity|]. split; [reflexivity|by vm_compute].
    + rewrite (write_file_ok (set_saveMutex true s) "data.txt" P Hw). cbn [fst snd].
      destruct ((json_Unmarshal P).2); eexists _, _;
        (split; [reflexivity|]); (split; [reflexivity|by vm_compute]).
Qed.

Lemma save_status_by_cause_witness :
  exists w s',
    handle (mkRequest "POST" "/save" ("not json at all", None))
      (mkWorld ∅ (fun _ => None)
         (fun f => if String.eqb f "data_readable.txt" then Some ("disk full", None) else None)
         [] false)
    = Some (w, s')
    /\ Code w = Some http_StatusOK
    /\ Header w !! "Content-Type" = Some "application/json".
Proof.
  exact (save_status_by_cause (J := GoJSON)
           (mkRequest "POST" "/save" ("not json at all", None))
           (mkWorld ∅ (fun _ => None)
              (fun f => if String.eqb f "data_readable.txt" then Some ("disk full", None) else None)
              [] false)
           eq_refl eq_refl eq_refl).
Defined.

(** X3: a POST to [/save] waits while the mutex is held; when the mutex is
    free it returns, on every path (400, 500, 200), with the mutex free
    again. *)
Theorem save_mutex_discipline {J : EncodingJSON} (r : Request) (s : World) :
  Path r = "/save" -> Method r = http_MethodPost ->
  (saveMutex s = true -> handle r s = None)
  /\ (saveMutex s = false ->
      exists w s', handle r s = Some (w, s') /\ saveMutex s' = false).
Proof.
  intros Hp Hm. rewrite (handle_save r s Hp). split.
  - intros Hheld. by apply saveHandler_held.
  - intros Hfree. destruct (Body r) as [P [e|]] eqn:Hb.
    + rewrite (saveHandler_unreadable _ r s P e Hm Hb Hfree). by eexists _, _.
    + rewrite (saveHandler_POST _ r s P Hm Hb Hfree). cbv zeta.
      destruct ((write_file (set_saveMutex true s) "data.txt" P).2);
        [by eexists _, _|].
      destruct ((json_Unmarshal P).2); by eexists _, _.
Qed.

Lemma save_mutex_discipline_witness :
  (saveMutex (mkWorld ∅ (fun _ => None) (fun _ => None) [] true) = true ->
   handle (mkRequest "POST" "/save" ("[]", None))
     (mkWorld ∅ (fun _ => None) (fun _ => None) [] true) = None)
  /\ (saveMutex (mkWorld ∅ (fun _ => None) (fun _ => None) [] true) = false ->
      exists w s',
        handle (mkRequest "POST" "/save" ("[]", None))
          (mkWorld ∅ (fun _ => None) (fun _ => None) [] true) = Some (w, s')
        /\ saveMutex s' = false).
Proof.
  exact (save_mutex_discipline (J := GoJSON) (mkRequest "POST" "/save" ("[]", None))
           (mkWorld ∅ (fun _ => None) (fun _ => None) [] true) eq_refl eq_refl).
Defined.

(** X4: whatever the request to [/save] and whatever fails, no file other
    than [data.txt] and [data_readable.txt] is created, changed or
    removed. *)
Theorem save_touches_two_files {J : EncodingJSON} (r : Request) (s s' : World)
    (w : ResponseWriter) :
  Path r = "/save" -> handle r s = Some (w, s') ->
  forall f, f <> "data.txt" -> f <> "data_readable.txt" -> files s' !! f = files s !! f.
Proof.
  intros Hp Hrun f Hf1 Hf2. rewrite (handle_save r s Hp) in Hrun.
  destruct (String.eqb_spec (Method r) http_MethodPost) as [Hm|Hm].
  - destruct (saveMutex s) eqn:Hfree.
    { by rewrite (saveHandler_held _ r s Hm Hfree) in Hrun. }
    destruct (Body r) as [P [e|]] eqn:Hb.
    + rewrite (saveHandler_unreadable _ r s P e Hm Hb Hfree) in Hrun. by injection Hrun as _ <-.
    + rewrite (saveHandler_POST _ r s P Hm Hb Hfree) in Hrun. cbv zeta in Hrun.
      assert (H1 : files (write_file (set_saveMutex true s) "data.txt" P).1 !! f = files s !! f)
        by (by rewrite files_write_file_ne).
      destruct ((write_file (set_saveMutex true s) "data.txt" P).2).
      { by injection Hrun as _ <-. }
      destruct ((json_Unmarshal P).2); injection Hrun as _ <-; [exact H1|].
      cbn [files set_saveMutex set_log]. by rewrite files_write_file_ne.
  - unfold saveHandler in Hrun. rewrite (eqb_method_ne _ _ Hm) in Hrun.
    by injection Hrun as _ <-.
Qed.

Lemma save_touches_two_files_witness :
  exists w s',
    handle (mkRequest "POST" "/save" ("[]", None))
      (mkWorld {["notes.bak" := "keep"]} (fun _ => None) (fun _ => Some ("disk full", None))
         [] false) = Some (w, s')
    /\ files s' !! "notes.bak" = Some "keep".
Proof.
  destruct (handle (mkRequest "POST" "/save" ("[]", None))
              (mkWorld {["notes.bak" := "keep"]} (fun _ => None)
                 (fun _ => Some ("disk full", None)) [] false))
    as [[w s']|] eqn:H; [|vm_compute in H; discriminate].
  exists w, s'. split; [reflexivity|].
  rewrite (save_touches_two_files (J := GoJSON) (mkRequest "POST" "/save" ("[]", None))
             (mkWorld {["notes.bak" := "keep"]} (fun _ => None)
                (fun _ => Some ("disk full", None)) [] false)
             s' w eq_refl H "notes.bak"); [reflexivity|discriminate|discriminate].
Defined.

(** X5: requests to [/load] and to [/ping] never wait for the mutex and
    never change anything: whatever the method and the state of the files,
    also while a save holds the mutex, they return and the surroundings
    are the same afterwards. *)
Theorem load_and_ping_read_only {J : EncodingJSON} (r : Request) (s : World) :
  Path r = "/load" \/ Path r = "/ping" ->
  exists w, handle r s = Some (w, s).
Proof.
  intros [Hp|Hp].
  - rewrite (handle_load r s Hp).
    destruct (String.eqb_spec (Method r) http_MethodGet) as [Hm|Hm].
    + rewrite (loadHandler_GET _ r s Hm).
      destruct (files s !! "data.txt"); [|by eexists].
      destruct (read_fault s "data.txt"); by eexists.
    + unfold loadHandler. rewrite (eqb_method_ne _ _ Hm). by eexists.
  - rewrite (handle_ping r s Hp). by eexists.
Qed.

Lemma load_and_ping_read_only_witness :
  exists w,
    handle (mkRequest "GET" "/load" ("", None))
      (mkWorld {["data.txt" := "[]"]} (fun _ => None) (fun _ => None) [] true)
    = Some (w, mkWorld {["data.txt" := "[]"]} (fun _ => None) (fun _ => None) [] true).
Proof.
  apply (load_and_ping_read_only (J := GoJSON)). left. reflexivity.
Defined.

(** The bootstrap where [data.txt] is absent and its write does not fail:
    the file holds [Marshal] of the empty slice afterwards, and what the
    file system lets fail and the mutex are as before. *)
Lemma bootstrap_creates {J : EncodingJSON} (s : World) :
  files s !! "data.txt" = None -> write_fault s "data.txt" = None ->
  exists s',
    run createDefaultFilesIfNotExists s = Some (tt, s')
    /\ files s' !! "data.txt" = Some (json_Marshal (Some [])).1
    /\ read_fault s' = read_fault s /\ write_fault s' = write_fault s
    /\ saveMutex s' = saveMutex s.
Proof.
  intros Hf Hnf. rewrite createDefaultFilesIfNotExists_run, Hf. cbv zeta.
  eexists. split; [reflexivity|].
  set (data := (json_Marshal (Some [])).1).
  set (readableData := (json_MarshalIndent (Some []) "" "  ").1).
  set (w1 := write_file s "data.txt" data).
  set (s1 := set_log _ w1.1).
  destruct (write_file_env s "data.txt" data) as (Hr1 & Hw1 & _ & Hm1).
  destruct (write_file_env s1 "data_readable.txt" readableData) as (Hr2 & Hw2 & _ & Hm2).
  cbn [files read_fault write_fault saveMutex set_log].
  split; [|split; [|split]].
  - rewrite files_write_file_ne by discriminate. subst s1 w1. cbn [files set_log].
    rewrite (write_file_ok s "data.txt" data Hnf). apply lookup_insert_eq.
  - by rewrite Hr2.
  - by rewrite Hw2.
  - by rewrite Hm2.
Qed.

(** X6: in a working directory without [data.txt], when neither the write
    nor the read of that file fails, the bootstrap followed by a GET to
    [/load] gives status 200 and the body [[]], which decodes to the empty
    collection. *)
Theorem bootstrap_then_load_empty (r : Request) (s : World) :
  files s !! "data.txt" = None ->
  write_fault s "data.txt" = None -> read_fault s "data.txt" = None ->
  Path r = "/load" -> Method r = http_MethodGet ->
  exists s' w,
    run createDefaultFilesIfNotExists s = Some (tt, s')
    /\ handle r s' = Some (w, s')
    /\ Code w = Some http_StatusOK
    /\ Written w = "[]"
    /\ json_Unmarshal (Written w) = (Some [], None).
Proof.
  intros Hf Hnf Hrf Hp Hm.
  destruct (bootstrap_creates s Hf Hnf) as (s' & Hrun & Hdata & Hrf' & _).
  rewrite <- Hrf' in Hrf.
  destruct (load_returns_file r s' "[]" Hp Hm Hdata Hrf) as (w & H1 & H2 & H3).
  exists s', w. rewrite H3. repeat split; try done.
Qed.

Lemma bootstrap_then_load_empty_witness :
  exists s' w,
    run createDefaultFilesIfNotExists fresh_world = Some (tt, s')
    /\ handle (mkRequest "GET" "/load" ("", None)) s' = Some (w, s')
    /\ Code w = Some http_StatusOK
    /\ Written w = "[]"
    /\ json_Unmarshal (Written w) = (Some [], None).
Proof.
  exact (bootstrap_then_load_empty (mkRequest "GET" "/load" ("", None)) fresh_world
           eq_refl eq_refl eq_refl eq_refl eq_refl).
Defined.



(** ** Requests one after the other *)

Section SequencesOfRequests.
Context {J : EncodingJSON}.
Local Open Scope list_scope.

Lemma handle_unchanged (r : Request) (s : World) :
  Path r = "/load" \/ Path r = "/ping" -> exists w, handle r s = Some (w, s).
Proof.
  intros [Hp|Hp].
  - rewrite (handle_load r s Hp).
    destruct (String.eqb_spec (Method r) http_MethodGet) as [Hm|Hm].
    + rewrite (loadHandler_GET _ r s Hm).
      destruct (files s !! "data.txt"); [|by eexists].
      destruct (read_fault s "data.txt"); by eexists.
    + unfold loadHandler. rewrite (eqb_method_ne _ _ Hm). by eexists.
  - rewrite (handle_ping r s Hp). by eexists.
Qed.

Lemma saved_payload_not_save (r : Request) : Path r <> "/save" -> saved_payload r = None.
Proof.
  intros H. unfold saved_payload. apply String.eqb_neq in H. by rewrite H.
Qed.

Lemma saved_payload_not_POST (r : Request) :
  Method r <> http_MethodPost -> saved_payload r = None.
Proof.
  intros H. unfold saved_payload. apply String.eqb_neq in H. rewrite H.
  by rewrite andb_false_r.
Qed.

Lemma saved_payload_save (r : Request) :
  Path r = "/save" -> Method r = http_MethodPost ->
  saved_payload r = match Body r with (P, None) => Some P | (_, Some _) => None end.
Proof. intros Hp Hm. unfold saved_payload. by rewrite Hp, Hm. Qed.

(** What one request does to the two files when no write fails. *)
Lemma handle_effect (r : Request) (s : World) :
  routed r -> saveMutex s = false ->
  write_fault s "data.txt" = None -> write_fault s "data_readable.txt" = None ->
  exists w s',
    handle r s = Some (w, s')
    /\ saveMutex s' = false /\ write_fault s' = write_fault s
    /\ files s' !! "data.txt" = from_option Some (files s !! "data.txt") (saved_payload r)
    /\ files s' !! "data_readable.txt"
       = from_option (fun notes => Some (json_MarshalIndent notes "" "  ").1)
           (files s !! "data_readable.txt") (saved_notes r).
Proof.
  intros Hrouted Hfree Hw1 Hw2.
  assert (Hsame : saved_payload r = None -> (exists w, handle r s = Some (w, s)) ->
            exists w s',
              handle r s = Some (w, s')
              /\ saveMutex s' = false /\ write_fault s' = write_fault s
              /\ files s' !! "data.txt"
                 = from_option Some (files s !! "data.txt") (saved_payload r)
              /\ files s' !! "data_readable.txt"
                 = from_option (fun notes => Some (json_MarshalIndent notes "" "  ").1)
                     (files s !! "data_readable.txt") (saved_notes r)).
  { intros Hnone [w Hw]. exists w, s. unfold saved_notes. rewrite Hnone. by repeat split. }
  destruct Hrouted as [Hp|Hp].
  2: { apply Hsame; [|by apply handle_unchanged].
       apply saved_payload_not_save. by destruct Hp as [-> | ->]. }
  destruct (String.eqb_spec (Method r) http_MethodPost) as [Hm|Hm].
  2: { apply Hsame; [by apply saved_payload_not_POST|].
       rewrite (handle_save r s Hp). unfold saveHandler. rewrite (eqb_method_ne _ _ Hm).
       by eexists. }
  pose proof (saved_payload_save r Hp Hm) as Hsp.
  destruct (Body r) as [P [e|]] eqn:Hb.
  { apply Hsame; [exact Hsp|]. rewrite (handle_save r s Hp).
    rewrite (saveHandler_unreadable _ r s P e Hm Hb Hfree). by eexists. }
  unfold saved_notes. rewrite Hsp. cbn [from_option].
  rewrite (handle_save r s Hp), (saveHandler_POST _ r s P Hm Hb Hfree). cbv zeta.
  rewrite (write_file_ok (set_saveMutex true s) "data.txt" P Hw1). cbn [fst snd].
  destruct (json_Unmarshal P) as [notes [e|]]; cbn [fst snd from_option].
  - eexists _, _. split; [reflexivity|]. split; [reflexivity|]. split; [reflexivity|].
    cbn [files set_saveMutex set_log set_files]. split; [apply lookup_insert_eq|].
    by rewrite lookup_insert_ne.
  - set (s1 := set_files _ _).
    assert (Hw2' : write_fault s1 "data_readable.txt" = None) by exact Hw2.
    rewrite (write_file_ok s1 "data_readable.txt" _ Hw2'). cbn [fst snd].
    eexists _, _. split; [reflexivity|]. split; [reflexivity|]. split; [reflexivity|].
    cbn [files set_saveMutex set_log set_files]. split.
    + rewrite lookup_insert_ne by discriminate. subst s1. apply lookup_insert_eq.
    + apply lookup_insert_eq.
Qed.

(** The last of the values picked from a list, by a fold. *)
Lemma last_omap_cons {A B : Type} (pick : A -> option B) (x : A) (l : list A) (init : option B) :
  from_option Some (from_option Some init (pick x)) (last (omap pick l))
  = from_option Some init (last (omap pick (x :: l))).
Proof.
  cbn [omap list_omap]. destruct (pick x) as [y|]; cbn [from_option]; [|reflexivity].
  rewrite last_cons. by destruct (last (omap pick l)).
Qed.

(** X8: requests to the three handlers, handled one after the other from a
    free mutex, no write failing.  All of them return and the mutex is
    free at the end; [data.txt] holds the payload of the last save (a
    POST to [/save] whose body could be read), JSON or not, and
    [data_readable.txt] holds the bytes that [MarshalIndent] returned for
    the collection of the last save whose payload decoded, which may be
    an earlier one; with no such save the file is as it was at the start.
    [saveHandler] discards the error of [MarshalIndent], so these bytes
    are the collection indented by two spaces when [MarshalIndent]
    succeeded ([payload_plain_indented] for the note of [payload_plain])
    and no bytes at all when it failed (as it does for the note of
    [payload_zone24]): the file is empty then. *)
Theorem last_save_wins (rs : list Request) (s : World) :
  Forall routed rs -> saveMutex s = false ->
  write_fault s "data.txt" = None -> write_fault s "data_readable.txt" = None ->
  exists s',
    handle_all rs s = Some s'
    /\ saveMutex s' = false
    /\ files s' !! "data.txt"
       = from_option Some (files s !! "data.txt") (last (omap saved_payload rs))
    /\ files s' !! "data_readable.txt"
       = from_option Some (files s !! "data_readable.txt")
           (last (omap (fun r => (fun notes => (json_MarshalIndent notes "" "  ").1)
                                 <$> saved_notes r) rs))
    /\ (forall notes b e, json.MarshalIndent notes "" "  " = (b, Some e) -> b = "")
    /\ (forall notes b, json.MarshalIndent notes "" "  " = (b, None) ->
          exists compact, json.Marshal notes = (compact, None)
                          /\ b = json.Indent compact "" "  ")
    /\ json.MarshalIndent (json.Unmarshal payload_plain).1 "" "  "
       = (payload_plain_indented, None)
    /\ (json.Unmarshal payload_zone24).2 = None
    /\ (json.MarshalIndent (json.Unmarshal payload_zone24).1 "" "  ").1 = ""
    /\ (json.MarshalIndent (json.Unmarshal payload_zone24).1 "" "  ").2 <> None.
Proof.
  intros Hrs.
  assert (Hcodec :
    (forall notes b e, json.MarshalIndent notes "" "  " = (b, Some e) -> b = "")
    /\ (forall notes b, json.MarshalIndent notes "" "  " = (b, None) ->
          exists compact, json.Marshal notes = (compact, None)
                          /\ b = json.Indent compact "" "  ")
    /\ json.MarshalIndent (json.Unmarshal payload_plain).1 "" "  "
       = (payload_plain_indented, None)
    /\ (json.Unmarshal payload_zone24).2 = None
    /\ (json.MarshalIndent (json.Unmarshal payload_zone24).1 "" "  ").1 = ""
    /\ (json.MarshalIndent (json.Unmarshal payload_zone24).1 "" "  ").2 <> None).
  { split; [|split; [|split; [|split; [|split]]]].
    - intros notes b e. unfold json.MarshalIndent.
      destruct (json.Marshal notes) as [compact [e'|]]; intros H; by injection H.
    - intros notes b. unfold json.MarshalIndent.
      destruct (json.Marshal notes) as [compact [e'|]]; intros H; [discriminate H|].
      injection H as <-. by exists compact.
    - by vm_compute.
    - by vm_compute.
    - by vm_compute.
    - by vm_compute. }
  revert s. induction Hrs as [|r rs Hr Hrs IH]; intros s Hfree Hw1 Hw2.
  - exists s. split; [reflexivity|]. split; [exact Hfree|]. split; [reflexivity|].
    split; [reflexivity|exact Hcodec].
  - destruct (handle_effect r s Hr Hfree Hw1 Hw2) as (w & s1 & Hrun & Hfree1 & Hwf & Hd & Hrd).
    destruct (IH s1 Hfree1) as (s' & Hall & Hfree' & Hd' & Hrd' & _); [by rewrite Hwf..|].
    exists s'. cbn [handle_all]. rewrite Hrun. split; [exact Hall|]. split; [exact Hfree'|].
    split; [|split; [|exact Hcodec]].
    + rewrite Hd', Hd. apply last_omap_cons.
    + rewrite Hrd', Hrd.
      rewrite <- (last_omap_cons
                    (fun r => (fun notes => (json_MarshalIndent notes "" "  ").1)
                              <$> saved_notes r)).
      by destruct (saved_notes r).
Qed.

End SequencesOfRequests.

Lemma last_save_wins_witness :
  (exists s',
      handle_all [mkRequest "POST" "/save" (payload_plain, None);
                  mkRequest "GET" "/load" ("", None);
                  mkRequest "POST" "/save" ("scribble", None);
                  mkRequest "GET" "/save" ("ignored", None)] fresh_world = Some s'
      /\ saveMutex s' = false
      /\ files s' !! "data.txt" = Some "scribble"
      /\ files s' !! "data_readable.txt" = Some payload_plain_indented)
  /\ (exists s',
        handle_all [mkRequest "POST" "/save" (payload_plain, None);
                    mkRequest "POST" "/save" (payload_zone24, None);
                    mkRequest "POST" "/save" ("scribble", None)] fresh_world = Some s'
        /\ saveMutex s' = false
        /\ files s' !! "data.txt" = Some "scribble"
        /\ files s' !! "data_readable.txt" = Some "").
Proof.
  split.
  - destruct (last_save_wins (J := GoJSON)
                [mkRequest "POST" "/save" (payload_plain, None);
                 mkRequest "GET" "/load" ("", None);
                 mkRequest "POST" "/save" ("scribble", None);
                 mkRequest "GET" "/save" ("ignored", None)] fresh_world
                ltac:(repeat (constructor;
                                [first [left; reflexivity
                                       |right; left; reflexivity
                                       |right; right; reflexivity]|]);
                      constructor)
                eq_refl eq_refl eq_refl)
      as (s' & H1 & H2 & H3 & H4 & _).
    exists s'. split; [exact H1|]. split; [exact H2|]. split.
    + rewrite H3. vm_compute. reflexivity.
    + rewrite H4. vm_compute. reflexivity.
  - destruct (last_save_wins (J := GoJSON)
                [mkRequest "POST" "/save" (payload_plain, None);
                 mkRequest "POST" "/save" (payload_zone24, None);
                 mkRequest "POST" "/save" ("scribble", None)] fresh_world
                ltac:(repeat (constructor; [left; reflexivity|]); constructor)
                eq_refl eq_refl eq_refl)
      as (s' & H1 & H2 & H3 & H4 & _).
    exists s'. split; [exact H1|]. split; [exact H2|]. split.
    + rewrite H3. vm_compute. reflexivity.
    + rewrite H4. vm_compute. reflexivity.
Defined.

(** A GET to [/load] answered with 200 has the content of [data.txt] as
    its body. *)
Lemma load_ok_body {J : EncodingJSON} (r : Request) (s s' : World) (w : ResponseWriter) :
  Path r = "/load" -> Method r = http_MethodGet ->
  handle r s = Some (w, s') -> Code w = Some http_StatusOK ->
  files s !! "data.txt" = Some (Written w).
Proof.
  intros Hp Hm Hrun Hcode. rewrite (handle_load r s Hp), (loadHandler_GET _ r s Hm) in Hrun.
  destruct (files s !! "data.txt") as [data|].
  - destruct (read_fault s "data.txt"); injection Hrun as <- _; [discriminate Hcode|].
    reflexivity.
  - injection Hrun as <- _. discriminate Hcode.
Qed.

(** X9: saving back the body that [/load] returned leaves [data.txt] as it
    is: when a GET to [/load] was answered with 200, a POST of its body to
    [/save] whose write does not fail is answered with 200 and the file
    holds the same bytes as before. *)
Theorem load_then_save_same {J : EncodingJSON} (r_load r_save : Request) (s : World)
    (w : ResponseWriter) :
  Path r_load = "/load" -> Method r_load = http_MethodGet ->
  handle r_load s = Some (w, s) -> Code w = Some http_StatusOK ->
  Path r_save = "/save" -> Method r_save = http_MethodPost ->
  Body r_save = (Written w, None) ->
  saveMutex s = false -> write_fault s "data.txt" = None ->
  exists w' s',
    handle r_save s = Some (w', s')
    /\ Code w' = Some http_StatusOK
    /\ files s' !! "data.txt" = files s !! "data.txt".
Proof.
  intros Hp Hm Hrun Hcode Hp' Hm' Hb Hfree Hnf.
  rewrite (load_ok_body r_load s s w Hp Hm Hrun Hcode).
  rewrite (handle_save r_save s Hp'), (saveHandler_POST _ r_save s _ Hm' Hb Hfree). cbv zeta.
  rewrite (write_file_ok (set_saveMutex true s) "data.txt" _ Hnf). cbn [fst snd].
  destruct ((json_Unmarshal (Written w)).2).
  - eexists _, _. split; [reflexivity|]. split; [reflexivity|].
    cbn [files set_saveMutex set_log set_files]. apply lookup_insert_eq.
  - eexists _, _. split; [reflexivity|]. split; [reflexivity|].
    cbn [files set_saveMutex set_log]. rewrite files_write_file_ne by discriminate.
    cbn [files set_files]. apply lookup_insert_eq.
Qed.

Lemma load_then_save_same_witness :
  exists w' s',
    handle (mkRequest "POST" "/save" ("{broken", None))
      (mkWorld {["data.txt" := "{broken"]} (fun _ => None) (fun _ => None) [] false)
    = Some (w', s')
    /\ Code w' = Some http_StatusOK
    /\ files s' !! "data.txt" = Some "{broken".
Proof.
  exact (load_then_save_same (J := GoJSON)
           (mkRequest "GET" "/load" ("", None))
           (mkRequest "POST" "/save" ("{broken", None))
           (mkWorld {["data.txt" := "{broken"]} (fun _ => None) (fun _ => None) [] false)
           (Write "{broken" (Header_Set "Content-Type" "application/json" NewResponse))
           eq_refl eq_refl eq_refl eq_refl eq_refl eq_refl eq_refl eq_refl eq_refl).
Defined.

(** X10: any number of POSTs to [/save] whose bodies can be read, handled
    at the same time, the mutex free at the start and the write of
    [data.txt] not failing.  In every state that is reached, of any two
    saves one has not taken the mutex yet or has returned; and when all
    have returned, [data.txt] holds the whole payload of the save whose
    operation was the last. *)
Theorem concurrent_saves_any_number {J : EncodingJSON} (reqs : list Request) (s0 s : World)
    (tr : list (nat * op)) (ts : list (thread ResponseWriter)) :
  Forall readable_post reqs ->
  saveMutex s0 = false -> write_fault s0 "data.txt" = None ->
  steps ((fun r => Running (saveHandler NewResponse r)) <$> reqs, s0) tr (ts, s) ->
  (forall i j ti tj ri rj,
      i <> j -> ts !! i = Some ti -> ts !! j = Some tj ->
      reqs !! i = Some ri -> reqs !! j = Some rj ->
      (ti = Running (saveHandler NewResponse ri) \/ returned ti)
      \/ (tj = Running (saveHandler NewResponse rj) \/ returned tj))
  /\ (Forall returned ts ->
      forall i o, last tr = Some (i, o) ->
        exists r, reqs !! i = Some r /\ files s !! "data.txt" = Some (payload r)).
Proof.
  intros Hreqs Hfree Hnf Hsteps.
  destruct (save_inv_steps reqs s0 (ts, s) tr Hreqs Hnf Hfree Hsteps) as (ph & order & Hinv).
  simpl in Hinv. split.
  - intros i j ti tj ri rj Hij Hti Htj Hri Hrj.
    pose proof (inv_threads _ _ _ _ _ _ Hinv i ri ti Hri Hti) as Hi.
    pose proof (inv_threads _ _ _ _ _ _ Hinv j rj tj Hrj Htj) as Hj.
    destruct (ph i) eqn:Hphi; simpl in Hi; [by left; left| |by left; right].
    destruct (ph j) eqn:Hphj; simpl in Hj; [by right; left| |by right; right].
    destruct Hij. exact (inv_excl _ _ _ _ _ _ Hinv i j Hphi Hphj).
  - intros Hall i o Hlast.
    pose proof (in_blocks_last order tr i o (inv_trace _ _ _ _ _ _ Hinv) Hlast) as Hlo.
    assert (Hlt : (i < length reqs)%nat).
    { apply (inv_bound _ _ _ _ _ _ Hinv). apply (inv_order _ _ _ _ _ _ Hinv).
      by apply last_Some_elem_of. }
    destruct (lookup_lt_is_Some_2 _ _ Hlt) as [r Hr]. exists r. split; [exact Hr|].
    apply (inv_file _ _ _ _ _ _ Hinv) with (i := i); [|exact Hlo|exact Hr].
    destruct (saveMutex s) eqn:Hm; [|reflexivity].
    apply (inv_mutex _ _ _ _ _ _ Hinv) in Hm as [k Hk].
    assert (Hklt : (k < length reqs)%nat)
      by (apply (inv_bound _ _ _ _ _ _ Hinv); congruence).
    destruct (lookup_lt_is_Some_2 _ _ Hklt) as [rk Hrk].
    rewrite <- (inv_length _ _ _ _ _ _ Hinv) in Hklt.
    destruct (lookup_lt_is_Some_2 _ _ Hklt) as [tk Htk].
    pose proof (inv_threads _ _ _ _ _ _ Hinv k rk tk Hrk Htk) as Hthr.
    pose proof (Forall_lookup_1 _ _ _ _ Hall Htk) as Hret.
    pose proof (returned_Done rk s tk _ (Forall_lookup_1 _ _ _ _ Hreqs Hrk) Hthr Hret).
    congruence.
Qed.

Lemma concurrent_saves_any_number_witness :
  (exists (tr : list (nat * op)) (k : option error -> io ResponseWriter)
          (w2 : ResponseWriter) (s : World),
      steps ([Running (saveHandler NewResponse (mkRequest "POST" "/save" ("one", None)));
              Running (saveHandler NewResponse (mkRequest "POST" "/save" ("[]", None)));
              Running (saveHandler NewResponse (mkRequest "POST" "/save" ("three", None)))],
             fresh_world) tr
        ([Running (ioutil_WriteFile "data.txt" "one" k);
          Running (saveHandler NewResponse (mkRequest "POST" "/save" ("[]", None)));
          Running (Ret w2)], s)
      /\ saveMutex s = true
      /\ ~ returned (Running (ioutil_WriteFile "data.txt" "one" k))
      /\ forall i j ti tj ri rj,
           i <> j ->
           [Running (ioutil_WriteFile "data.txt" "one" k);
            Running (saveHandler NewResponse (mkRequest "POST" "/save" ("[]", None)));
            Running (Ret w2)] !! i = Some ti ->
           [Running (ioutil_WriteFile "data.txt" "one" k);
            Running (saveHandler NewResponse (mkRequest "POST" "/save" ("[]", None)));
            Running (Ret w2)] !! j = Some tj ->
           [mkRequest "POST" "/save" ("one", None);
            mkRequest "POST" "/save" ("[]", None);
            mkRequest "POST" "/save" ("three", None)] !! i = Some ri ->
           [mkRequest "POST" "/save" ("one", None);
            mkRequest "POST" "/save" ("[]", None);
            mkRequest "POST" "/save" ("three", None)] !! j = Some rj ->
           (ti = Running (saveHandler NewResponse ri) \/ returned ti)
           \/ (tj = Running (saveHandler NewResponse rj) \/ returned tj))
  /\ (exists (tr : list (nat * op)) (w0 w1 w2 : ResponseWriter) (s : World),
        steps ([Running (saveHandler NewResponse (mkRequest "POST" "/save" ("one", None)));
                Running (saveHandler NewResponse (mkRequest "POST" "/save" ("[]", None)));
                Running (saveHandler NewResponse (mkRequest "POST" "/save" ("three", None)))],
               fresh_world) tr
          ([Running (Ret w0); Running (Ret w1); Running (Ret w2)], s)
        /\ (exists o, last tr = Some (1%nat, o))
        /\ files s !! "data.txt" = Some "[]"
        /\ forall i j ti tj ri rj,
             i <> j ->
             [Running (Ret w0); Running (Ret w1); Running (Ret w2)] !! i = Some ti ->
             [Running (Ret w0); Running (Ret w1); Running (Ret w2)] !! j = Some tj ->
             [mkRequest "POST" "/save" ("one", None);
              mkRequest "POST" "/save" ("[]", None);
              mkRequest "POST" "/save" ("three", None)] !! i = Some ri ->
             [mkRequest "POST" "/save" ("one", None);
              mkRequest "POST" "/save" ("[]", None);
              mkRequest "POST" "/save" ("three", None)] !! j = Some rj ->
             (ti = Running (saveHandler NewResponse ri) \/ returned ti)
             \/ (tj = Running (saveHandler NewResponse rj) \/ returned tj)).
Proof.
  set (ra := mkRequest "POST" "/save" ("one", None)).
  set (rb := mkRequest "POST" "/save" ("[]", None)).
  set (rc := mkRequest "POST" "/save" ("three", None)).
  assert (Hposts : Forall readable_post [ra; rb; rc]).
  { constructor; [split; reflexivity|]. constructor; [split; reflexivity|].
    constructor; [split; reflexivity|constructor]. }
  (* the third save runs first *)
  destruct (handle_effect (J := GoJSON) rc fresh_world (or_introl eq_refl)
              eq_refl eq_refl eq_refl)
    as (w2 & s1 & Hrun1 & Hfree1 & Hwf1 & _).
  rewrite (handle_save rc fresh_world eq_refl) in Hrun1.
  destruct (run_steps _ _ _ _ [Running (saveHandler NewResponse ra);
                               Running (saveHandler NewResponse rb);
                               Running (saveHandler NewResponse rc)] 2%nat Hrun1 eq_refl)
    as (tr1 & Hs1 & _).
  change (<[2%nat := Running (Ret w2)]> _)
    with [Running (saveHandler NewResponse ra); Running (saveHandler NewResponse rb);
          Running (Ret w2)] in Hs1.
  (* then the first takes the mutex *)
  destruct (saveHandler_shape (J := GoJSON) NewResponse ra (conj eq_refl eq_refl))
    as (k & Hshape & _).
  change (payload ra) with "one" in Hshape.
  assert (H2 : step ([Running (saveHandler NewResponse ra);
                      Running (saveHandler NewResponse rb); Running (Ret w2)], s1)
                 (0%nat, OpLock)
                 ([Running (ioutil_WriteFile "data.txt" "one" k);
                   Running (saveHandler NewResponse rb); Running (Ret w2)],
                  set_saveMutex true s1)).
  { rewrite Hshape.
    apply (step_thread [_; _; _] s1 _ 0%nat OpLock _ _ eq_refl). by apply step_Lock. }
  pose proof (steps_snoc _ _ _ _ _ Hs1 H2) as HsA.
  split.
  { exists (tr1 ++ [(0%nat, OpLock)])%list, k, w2, (set_saveMutex true s1).
    split; [exact HsA|]. split; [reflexivity|].
    split; [intros [a Ha]; discriminate Ha|].
    exact (proj1 (concurrent_saves_any_number (J := GoJSON) [ra; rb; rc] fresh_world
                    (set_saveMutex true s1) (tr1 ++ [(0%nat, OpLock)])%list
                    [Running (ioutil_WriteFile "data.txt" "one" k);
                     Running (saveHandler NewResponse rb); Running (Ret w2)]
                    Hposts eq_refl eq_refl HsA)). }
  (* the first save goes on to its end, then the second runs *)
  destruct (handle_effect (J := GoJSON) ra s1 (or_introl eq_refl) Hfree1)
    as (w0 & s2 & Hrun2 & Hfree2 & Hwf2 & _); [by rewrite Hwf1..|].
  rewrite (handle_save ra s1 eq_refl), Hshape in Hrun2. cbn [run] in Hrun2.
  rewrite Hfree1 in Hrun2.
  destruct (run_steps (ioutil_WriteFile "data.txt" "one" k) (set_saveMutex true s1) s2 w0
              [Running (ioutil_WriteFile "data.txt" "one" k);
               Running (saveHandler NewResponse rb); Running (Ret w2)] 0%nat Hrun2 eq_refl)
    as (tr2 & Hs2 & _).
  change (<[0%nat := Running (Ret w0)]> _)
    with [Running (Ret w0); Running (saveHandler NewResponse rb); Running (Ret w2)] in Hs2.
  destruct (handle_effect (J := GoJSON) rb s2 (or_introl eq_refl) Hfree2)
    as (w1 & s3 & Hrun3 & _); [by rewrite Hwf2, Hwf1..|].
  rewrite (handle_save rb s2 eq_refl) in Hrun3.
  destruct (run_steps _ _ _ _ [Running (Ret w0); Running (saveHandler NewResponse rb);
                               Running (Ret w2)] 1%nat Hrun3 eq_refl)
    as (tr3 & Hs3 & Hall3).
  change (<[1%nat := Running (Ret w1)]> _)
    with [Running (Ret w0); Running (Ret w1); Running (Ret w2)] in Hs3.
  pose proof (steps_app _ _ _ _ _ (steps_app _ _ _ _ _ HsA Hs2) Hs3) as Hsteps.
  assert (Hlast : exists o, last (((tr1 ++ [(0%nat, OpLock)]) ++ tr2) ++ tr3)%list
                            = Some (1%nat, o)).
  { destruct (last tr3) as [[i o]|] eqn:Hl3.
    - exists o. rewrite last_app, Hl3.
      pose proof (proj1 (Forall_forall _ _) Hall3 (i, o) (last_Some_elem_of _ _ Hl3)) as Hi.
      simpl in Hi. by rewrite Hi.
    - exfalso. apply last_None in Hl3. subst tr3.
      destruct (saveHandler_shape (J := GoJSON) NewResponse rb (conj eq_refl eq_refl))
        as (q & Hq & _).
      rewrite Hq in Hs3. inversion Hs3 as [c Hc|c c' c'' tr l _ _ Htr].
      + by destruct tr. }
  destruct Hlast as [o Hlast].
  destruct (concurrent_saves_any_number (J := GoJSON) [ra; rb; rc] fresh_world s3
              (((tr1 ++ [(0%nat, OpLock)]) ++ tr2) ++ tr3)%list
              [Running (Ret w0); Running (Ret w1); Running (Ret w2)]
              Hposts eq_refl eq_refl Hsteps) as (Hpair & Hfile).
  exists ((((tr1 ++ [(0%nat, OpLock)]) ++ tr2) ++ tr3)%list), w0, w1, w2, s3.
  split; [exact Hsteps|]. split; [by exists o|]. split; [|exact Hpair].
  destruct (Hfile ltac:(constructor; [by eexists|]; constructor; [by eexists|];
                        constructor; [by eexists|constructor]) 1%nat o Hlast)
    as (r & Hr & Hf).
  injection Hr as <-. exact Hf.
Defined.



(** X12: [/load] takes no lock, and a write is not atomic: while a save of
    the payload [a +:+ b] is in the middle of its write of [data.txt], a
    GET to [/load] handled at the same time can be answered with status
    200 and the body [a], a part of the payload (nothing at all when [a]
    is empty), whatever the file held before. *)
Theorem load_can_see_partial_write {J : EncodingJSON} (r_save r_load : Request)
    (s0 : World) (a b : string) :
  readable_post r_save -> payload r_save = a +:+ b ->
  Method r_load = http_MethodGet ->
  saveMutex s0 = false ->
  write_fault s0 "data.txt" = None -> read_fault s0 "data.txt" = None ->
  exists tr t0 w s,
    steps ([Running (saveHandler NewResponse r_save);
            Running (loadHandler NewResponse r_load)], s0) tr
      ([t0; Running (Ret w)], s)
    /\ ~ returned t0
    /\ Code w = Some http_StatusOK
    /\ Written w = a.
Proof.
  intros Hpost HP Hm Hfree Hnf Hrf.
  destruct (saveHandler_shape NewResponse r_save Hpost) as (k & Hshape & _).
  rewrite Hshape, HP. set (load := Running (loadHandler NewResponse r_load)).
  (* the save takes the mutex and opens the file *)
  assert (H1 : step ([Running (Lock (ioutil_WriteFile "data.txt" (a +:+ b) k)); load], s0)
                 (0%nat, OpLock)
                 ([Running (ioutil_WriteFile "data.txt" (a +:+ b) k); load],
                  set_saveMutex true s0)).
  { apply (step_thread [_; load] s0 _ 0%nat OpLock _ _ eq_refl). by apply step_Lock. }
  assert (H2 : step ([Running (ioutil_WriteFile "data.txt" (a +:+ b) k); load],
                     set_saveMutex true s0)
                 (0%nat, OpOpen "data.txt")
                 ([Writing "data.txt" "" (a +:+ b) k; load],
                  set_files (<["data.txt" := ""]> (files (set_saveMutex true s0)))
                    (set_saveMutex true s0))).
  { apply (step_thread [_; load] _ _ 0%nat (OpOpen "data.txt") _ _ eq_refl).
    by apply step_Open. }
  (* it writes [a] *)
  assert (H3 : exists tr3 s3,
             steps ([Writing "data.txt" "" (a +:+ b) k; load],
                    set_files (<["data.txt" := ""]> (files (set_saveMutex true s0)))
                      (set_saveMutex true s0))
               tr3 ([Writing "data.txt" a b k; load], s3)
             /\ files s3 !! "data.txt" = Some a /\ read_fault s3 = read_fault s0).
  { destruct a as [|c a].
    - eexists [], _. split; [apply steps_nil|]. split; [apply lookup_insert_eq|reflexivity].
    - eexists [_], _. split; [|split].
      + apply steps_one.
        apply (step_thread [_; load] _ _ 0%nat (OpChunk "data.txt" (String c a)) _ _ eq_refl).
        apply step_Chunk. discriminate.
      + cbn [files set_files]. rewrite lookup_insert_eq, lookup_insert_eq.
        cbn [default String.length write_at]. by rewrite overwrite_empty.
      + reflexivity. }
  destruct H3 as (tr3 & s3 & H3 & Hf3 & Hrf3).
  (* the load runs from start to end *)
  assert (Hload : run (loadHandler NewResponse r_load) s3
                  = Some (Write a (Header_Set "Content-Type" "application/json" NewResponse), s3)).
  { rewrite (loadHandler_GET _ r_load s3 Hm), Hf3, Hrf3, Hrf. reflexivity. }
  destruct (run_steps _ _ _ _ [Writing "data.txt" a b k; load] 1%nat Hload eq_refl)
    as (tr4 & H4 & _).
  eexists _, _, _, _. split.
  - eapply steps_cons; [exact H1|]. eapply steps_cons; [exact H2|].
    eapply steps_app; [exact H3|exact H4].
  - split; [|split; reflexivity]. intros [w Hw]. discriminate Hw.
Qed.

Lemma load_can_see_partial_write_witness :
  exists tr t0 w s,
    steps ([Running (saveHandler NewResponse (mkRequest "POST" "/save" ("[1,2,3]", None)));
            Running (loadHandler NewResponse (mkRequest "GET" "/load" ("", None)))],
           mkWorld {["data.txt" := "[]"]} (fun _ => None) (fun _ => None) [] false) tr
      ([t0; Running (Ret w)], s)
    /\ ~ returned t0
    /\ Code w = Some http_StatusOK
    /\ Written w = "[1,".
Proof.
  exact (load_can_see_partial_write (J := GoJSON)
           (mkRequest "POST" "/save" ("[1,2,3]", None))
           (mkRequest "GET" "/load" ("", None))
           (mkWorld {["data.txt" := "[]"]} (fun _ => None) (fun _ => None) [] false)
           "[1," "2,3]" (conj eq_refl eq_refl) eq_refl eq_refl eq_refl eq_refl eq_refl).
Defined.

(** ** Saves at the same time are saves one after the other *)

Lemma set_files_id (s : World) : set_files (files s) s = s.
Proof. by destruct s. Qed.

(** An operation of a goroutine whose file nobody else writes does not
    change what the goroutine returns in the end. *)
Lemma thread_step_alone {A : Type} (t t' : thread A) (s s' : World) (o : op) :
  thread_step t s o t' s' -> consistent t s ->
  consistent t' s' /\ run_thread t s = run_thread t' s'.
Proof.
  intros Hstep Hc. destruct Hstep; simpl in *.
  - split; [done|]. by rewrite H.
  - done.
  - done.
  - done.
  - split; [done|]. by destruct (write_file s filename data).
  - split; [apply lookup_insert_eq|].
    rewrite (write_file_ok s filename data H). by rewrite insert_insert_eq.
  - split.
    + rewrite lookup_insert_eq, Hc. simpl. by rewrite write_at_end.
    + by rewrite insert_insert_eq, append_assoc.
  - split; [done|]. rewrite append_empty_r, (insert_id _ _ _ Hc). by rewrite set_files_id.
  - done.
Qed.

(** An operation of a goroutine under the mutex: it goes on under the
    mutex, or it was the release and the goroutine has returned. *)
Lemma critical_step {A : Type} (t t' : thread A) (s s' : World) (o : op) :
  in_critical t -> thread_step t s o t' s' ->
  (in_critical t' /\ saveMutex s' = saveMutex s)
  \/ (returned t' /\ s' = set_saveMutex false s).
Proof.
  intros Hc Hstep. destruct Hstep; simpl in Hc.
  - inversion Hc.
  - inversion Hc; subst. right. split; [by eexists|reflexivity].
  - inversion Hc; subst. left. split; [apply H0|reflexivity].
  - inversion Hc; subst. left. split; [apply H0|reflexivity].
  - inversion Hc; subst. left. split; [apply H1|].
    by destruct (write_file_env s filename data) as (_ & _ & _ & ->).
  - inversion Hc; subst. left. split; [exact H1|reflexivity].
  - left. split; [exact Hc|reflexivity].
  - left. split; [apply Hc|reflexivity].
  - inversion Hc; subst. left. split; [exact H0|reflexivity].
Qed.

Lemma in_critical_not_returned {A : Type} (t : thread A) : in_critical t -> ~ returned t.
Proof. intros Hc [a ->]. inversion Hc. Qed.


Section SerialProofs.
Context {J : EncodingJSON}.
Local Open Scope list_scope.

(** A POST to [/save] takes the mutex and goes on under it, whatever its
    body. *)
Lemma saveHandler_critical (w : ResponseWriter) (r : Request) :
  Method r = http_MethodPost ->
  exists p, saveHandler w r = Lock p /\ critical p.
Proof.
  intros Hm. unfold saveHandler. rewrite Hm.
  destruct (Body r) as [body [e|]]; (eexists; split; [reflexivity|]); cbn.
  - constructor.
  - constructor. intros [e|]; cbn; [constructor|].
    destruct (json_Unmarshal body) as [notes [e|]]; cbn.
    + repeat constructor.
    + destruct (json_MarshalIndent notes "" "  ") as [readableData rerr]. cbn.
      constructor. intros [e|]; cbn; repeat constructor.
Qed.




Lemma handle_all_app (l1 l2 : list Request) (s : World) :
  handle_all (l1 ++ l2) s
  = match handle_all l1 s with
    | Some s1 => handle_all l2 s1
    | None => None
    end.
Proof.
  revert s. induction l1 as [|r l1 IH]; intros s; simpl; [reflexivity|].
  destruct (handle r s) as [[w s1]|]; [apply IH|reflexivity].
Qed.

Lemma chosen_snoc (reqs : list Request) (order : list nat) (i : nat) (r : Request) :
  reqs !! i = Some r -> chosen reqs (order ++ [i]) = chosen reqs order ++ [r].
Proof. intros Hr. unfold chosen. rewrite omap_app. simpl. by rewrite Hr. Qed.

Lemma serial_inv_init (reqs : list Request) (s0 : World) :
  saveMutex s0 = false ->
  serial_inv reqs s0 ((fun r => Running (saveHandler NewResponse r)) <$> reqs) s0 [].
Proof.
  intros Hfree. constructor.
  - by rewrite length_fmap.
  - constructor.
  - intros i Hi. by apply elem_of_nil in Hi.
  - intros i r _ Hr. by rewrite list_lookup_fmap, Hr.
  - intros _. split; [|reflexivity]. intros i t Hi. by apply elem_of_nil in Hi.
  - intros Hheld. congruence.
Qed.

Lemma serial_inv_step (reqs : list Request) (s0 : World)
    (ts ts' : list (thread ResponseWriter)) (s s' : World) (l : nat * op) (order : list nat) :
  Forall save_request reqs ->
  serial_inv reqs s0 ts s order ->
  step (ts, s) l (ts', s') ->
  exists order', serial_inv reqs s0 ts' s' order'.
Proof.
  intros Hreqs Hinv Hstep.
  inversion Hstep as [ts0 s1 s1' i o t t' Hlook Hts]; subst. clear Hstep.
  pose proof (lookup_lt_Some _ _ _ Hlook) as Hlt.
  assert (Hr : exists r, reqs !! i = Some r).
  { apply lookup_lt_is_Some_2. by rewrite <- (ser_length _ _ _ _ _ Hinv). }
  destruct Hr as [r Hr].
  destruct (Forall_lookup_1 _ _ _ _ Hreqs Hr) as [Hpath Hpost].
  destruct (saveHandler_critical NewResponse r Hpost) as (p & Hshape & Hp).
  destruct (saveMutex s) eqn:Hm.
  - (* the mutex is held: the operation is one of the save that holds it *)
    destruct (ser_held _ _ _ _ _ Hinv Hm)
      as (order' & i0 & r0 & t0 & s_base & Horder & Hr0 & Ht0 & Hdone & Hseq & Hbase
          & Hcrit & Hcons & Hrun).
    assert (Hi : i = i0).
    { destruct (decide (i = i0)) as [|Hne]; [done|]. exfalso.
      destruct (decide (i ∈ order)) as [Hin|Hout].
      - rewrite Horder, elem_of_app, list_elem_of_singleton in Hin.
        destruct Hin as [Hin|]; [|done].
        destruct (Hdone i t Hin Hlook) as [w ->]. inversion Hts.
      - rewrite (ser_waiting _ _ _ _ _ Hinv i r Hout Hr) in Hlook.
        injection Hlook as <-. rewrite Hshape in Hts. inversion Hts; congruence. }
    subst i0. rewrite Hlook in Ht0. injection Ht0 as <-.
    rewrite Hr in Hr0. injection Hr0 as <-.
    destruct (thread_step_alone _ _ _ _ _ Hts Hcons) as [Hcons' Hrun'].
    assert (Hothers : forall j, j <> i -> <[i := t']> ts !! j = ts !! j)
      by (intros j Hj; by apply list_lookup_insert_ne).
    destruct (critical_step _ _ _ _ _ Hcrit Hts) as [[Hcrit' Hmx]|[Hret ->]].
    + exists order. constructor.
      * rewrite length_insert. exact (ser_length _ _ _ _ _ Hinv).
      * exact (ser_nodup _ _ _ _ _ Hinv).
      * exact (ser_bound _ _ _ _ _ Hinv).
      * intros j rj Hj Hrj. rewrite Hothers.
        -- exact (ser_waiting _ _ _ _ _ Hinv j rj Hj Hrj).
        -- intros ->. apply Hj. rewrite Horder. set_solver.
      * intros Hfree. congruence.
      * intros _. exists order', i, r, t', s_base.
        split; [exact Horder|]. split; [exact Hr|].
        split; [by apply list_lookup_insert_eq|]. split.
        { intros j tj Hj Htj. rewrite Hothers in Htj; [by eapply Hdone|].
          intros ->. pose proof (ser_nodup _ _ _ _ _ Hinv) as Hnd.
          rewrite Horder in Hnd. apply NoDup_app in Hnd as (_ & Hnd & _).
          apply (Hnd i Hj). set_solver. }
        split; [exact Hseq|]. split; [exact Hbase|]. split; [exact Hcrit'|].
        split; [exact Hcons'|]. by rewrite <- Hrun'.
    + exists order. constructor.
      * rewrite length_insert. exact (ser_length _ _ _ _ _ Hinv).
      * exact (ser_nodup _ _ _ _ _ Hinv).
      * exact (ser_bound _ _ _ _ _ Hinv).
      * intros j rj Hj Hrj. rewrite Hothers.
        -- exact (ser_waiting _ _ _ _ _ Hinv j rj Hj Hrj).
        -- intros ->. apply Hj. rewrite Horder. set_solver.
      * intros _. split.
        -- intros j tj Hj Htj. destruct (decide (j = i)) as [->|Hne].
           ++ rewrite list_lookup_insert_eq in Htj by exact Hlt. by injection Htj as <-.
           ++ rewrite Hothers in Htj by done. rewrite Horder in Hj.
              apply elem_of_app in Hj as [Hj|Hj]; [by eapply Hdone|].
              by apply list_elem_of_singleton in Hj.
        -- rewrite Horder, (chosen_snoc _ _ _ _ Hr), handle_all_app, Hseq. simpl.
           unfold handle, serve, mux. rewrite Hpath. simpl.
           rewrite <- Hrun, Hrun'. destruct Hret as [w ->]. reflexivity.
      * simpl. intros Hheld. discriminate.
  - (* the mutex is free: the operation is the taking of it *)
    destruct (ser_free _ _ _ _ _ Hinv Hm) as [Hdone Hseq].
    assert (Hout : i ∉ order).
    { intros Hin. destruct (Hdone i t Hin Hlook) as [w ->]. inversion Hts. }
    rewrite (ser_waiting _ _ _ _ _ Hinv i r Hout Hr) in Hlook. injection Hlook as <-.
    rewrite Hshape in Hts. inversion Hts as [k s1 Hfree| | | | | | | |]; subst.
    assert (Hothers : forall j, j <> i -> <[i := Running p]> ts !! j = ts !! j)
      by (intros j Hj; by apply list_lookup_insert_ne).
    exists (order ++ [i]). constructor.
    + rewrite length_insert. exact (ser_length _ _ _ _ _ Hinv).
    + apply NoDup_app. split; [exact (ser_nodup _ _ _ _ _ Hinv)|].
      split; [|apply NoDup_singleton].
      intros x Hx Hxi. apply list_elem_of_singleton in Hxi. by subst.
    + intros j Hj. apply elem_of_app in Hj as [Hj|Hj].
      * exact (ser_bound _ _ _ _ _ Hinv j Hj).
      * apply list_elem_of_singleton in Hj. subst j.
        rewrite <- (ser_length _ _ _ _ _ Hinv). exact Hlt.
    + intros j rj Hj Hrj. rewrite Hothers.
      * apply (ser_waiting _ _ _ _ _ Hinv j rj); [|exact Hrj]. set_solver.
      * intros ->. set_solver.
    + simpl. intros Hfree'. discriminate.
    + intros _. exists order, i, r, (Running p), s.
      split; [reflexivity|]. split; [exact Hr|].
      split; [by apply list_lookup_insert_eq|]. split.
      { intros j tj Hj Htj. rewrite Hothers in Htj; [by eapply Hdone|]. by intros ->. }
      split; [exact Hseq|]. split; [exact Hfree|]. split; [exact Hp|]. split; [exact I|].
      rewrite Hshape. simpl. by rewrite Hfree.
Qed.

Lemma serial_inv_steps (reqs : list Request) (s0 : World)
    (c : list (thread ResponseWriter) * World) (tr : list (nat * op)) :
  Forall save_request reqs -> saveMutex s0 = false ->
  steps ((fun r => Running (saveHandler NewResponse r)) <$> reqs, s0) tr c ->
  exists order, serial_inv reqs s0 c.1 c.2 order.
Proof.
  intros Hreqs Hfree Hsteps.
  remember ((fun r => Running (saveHandler NewResponse r)) <$> reqs, s0) as c0 eqn:Hc0.
  induction Hsteps as [c|c c' c'' tr l Hsteps IH Hstep].
  - subst c. exists []. by apply serial_inv_init.
  - destruct (IH Hc0) as (order & Hinv).
    destruct c' as [ts' s'], c'' as [ts'' s'']. simpl in *.
    exact (serial_inv_step reqs s0 ts' ts'' s' s'' l order Hreqs Hinv Hstep).
Qed.

End SerialProofs.

Section Serializable.
Context {J : EncodingJSON}.
Local Open Scope list_scope.

Lemma chosen_all_from (pre l : list Request) :
  omap (fun i => (pre ++ l) !! i) (seq (length pre) (length l)) = l.
Proof.
  revert pre. induction l as [|x l IH]; intros pre; [reflexivity|].
  cbn [length seq omap list_omap].
  rewrite (list_lookup_middle pre l x (length pre) eq_refl).
  f_equal. specialize (IH (pre ++ [x])).
  rewrite length_app, Nat.add_1_r, <- app_assoc in IH. exact IH.
Qed.

Lemma chosen_all (reqs : list Request) : chosen reqs (seq 0 (length reqs)) = reqs.
Proof. exact (chosen_all_from [] reqs). Qed.

End Serializable.



(** X13: POSTs to [/save] handled at the same time are serializable.
    Whatever the bodies and whatever fails in the file system, when all of
    them have returned the surroundings (both files, every other file and
    the log) are those that handling the same requests one after the
    other, in some order, leaves. *)
Theorem concurrent_saves_serializable {J : EncodingJSON} (reqs : list Request)
    (s0 s : World) (tr : list (nat * op)) (ts : list (thread ResponseWriter)) :
  Forall save_request reqs -> saveMutex s0 = false ->
  steps ((fun r => Running (saveHandler NewResponse r)) <$> reqs, s0) tr (ts, s) ->
  Forall returned ts ->
  exists rs, rs ≡ₚ reqs /\ handle_all rs s0 = Some s.
Proof.
  intros Hreqs Hfree Hsteps Hall.
  destruct (serial_inv_steps reqs s0 (ts, s) tr Hreqs Hfree Hsteps) as (order & Hinv).
  simpl in Hinv.
  assert (Hm : saveMutex s = false).
  { destruct (saveMutex s) eqn:Hm; [|reflexivity].
    destruct (ser_held _ _ _ _ _ Hinv Hm) as (_ & i & _ & t & _ & _ & _ & Ht & _ & _ & _ & Hc & _).
    destruct (in_critical_not_returned t Hc). exact (Forall_lookup_1 _ _ _ _ Hall Ht). }
  destruct (ser_free _ _ _ _ _ Hinv Hm) as [_ Hseq].
  exists (chosen reqs order). split; [|exact Hseq].
  rewrite <- (chosen_all reqs) at 2. unfold chosen.
  apply omap_Permutation, NoDup_Permutation.
  - exact (ser_nodup _ _ _ _ _ Hinv).
  - apply NoDup_seq.
  - intros i. rewrite elem_of_seq. split.
    + intros Hi. pose proof (ser_bound _ _ _ _ _ Hinv i Hi). lia.
    + intros [_ Hi]. simpl in Hi. destruct (decide (i ∈ order)) as [|Hout]; [done|].
      destruct (lookup_lt_is_Some_2 _ _ Hi) as [r Hr].
      pose proof (ser_waiting _ _ _ _ _ Hinv i r Hout Hr) as Ht.
      destruct (Forall_lookup_1 _ _ _ _ Hall Ht) as [w Hw].
      destruct (Forall_lookup_1 _ _ _ _ Hreqs Hr) as [_ Hpost].
      destruct (saveHandler_critical NewResponse r Hpost) as (p & Hshape & _).
      rewrite Hshape in Hw. discriminate Hw.
Qed.

Lemma concurrent_saves_serializable_witness :
  exists (tr : list (nat * op)) (w1 w2 : ResponseWriter) (s : World),
    steps ([Running (saveHandler NewResponse (mkRequest "POST" "/save" ("first", None)));
            Running (saveHandler NewResponse (mkRequest "POST" "/save" ("[]", None)))],
           fresh_world) tr ([Running (Ret w1); Running (Ret w2)], s)
    /\ exists rs,
         rs ≡ₚ [mkRequest "POST" "/save" ("first", None);
                mkRequest "POST" "/save" ("[]", None)]
         /\ handle_all rs fresh_world = Some s.
Proof.
  set (ra := mkRequest "POST" "/save" ("first", None)).
  set (rb := mkRequest "POST" "/save" ("[]", None)).
  destruct (run (saveHandler NewResponse ra) fresh_world) as [[w1 s1]|] eqn:H1;
    [|vm_compute in H1; discriminate].
  destruct (run_steps _ _ _ _ [Running (saveHandler NewResponse ra);
                               Running (saveHandler NewResponse rb)] 0%nat H1
              (eq_refl (Some (Running (saveHandler NewResponse ra)))))
    as (tr1 & Hs1 & _).
  change (<[0%nat := Running (Ret w1)]>
            [Running (saveHandler NewResponse ra); Running (saveHandler NewResponse rb)])
    with [Running (Ret w1); Running (saveHandler NewResponse rb)] in Hs1.
  assert (Hm : saveMutex s1 = false).
  { vm_compute in H1. injection H1 as _ <-. reflexivity. }
  destruct (run (saveHandler NewResponse rb) s1) as [[w2 s2]|] eqn:H2.
  2: { vm_compute in H1. injection H1 as _ <-. vm_compute in H2. discriminate. }
  destruct (run_steps _ _ _ _ [Running (Ret w1); Running (saveHandler NewResponse rb)]
              1%nat H2 (eq_refl (Some (Running (saveHandler NewResponse rb)))))
    as (tr2 & Hs2 & _).
  change (<[1%nat := Running (Ret w2)]>
            [Running (Ret w1); Running (saveHandler NewResponse rb)])
    with [Running (Ret w1); Running (Ret w2)] in Hs2.
  pose proof (steps_app _ _ _ _ _ Hs1 Hs2) as Hsteps.
  exists (tr1 ++ tr2)%list, w1, w2, s2. split; [exact Hsteps|].
  apply (concurrent_saves_serializable (J := GoJSON) [ra; rb] fresh_world s2
           (tr1 ++ tr2)%list [Running (Ret w1); Running (Ret w2)]).
  - constructor; [split; reflexivity|]. constructor; [split; reflexivity|constructor].
  - reflexivity.
  - exact Hsteps.
  - constructor; [by exists w1|]. constructor; [by exists w2|constructor].
Defined.
